(** * The quiz-chain solver of app.py, embedded and checked against its specification

    The development follows app.py function by function: the helpers
    ([is_localhost_url], [find_submit_url_from_page], [extract_json_from_pre],
    [sum_values_on_pdf_page2], [compute_answer_from_page], [submit_answer_json])
    and then the two nested loops of [solve_and_submit_loop].

    Conventions of the embedding.
    - Python text is a [string]; the character tests are those of the ASCII
      range, where Python's [str] and [string] agree character by character.
    - A Python value that travels through JSON is a [value]; [VNone] is [None].
    - A call that may raise returns a [result]; [Raise e] names the exception
      class the handlers of app.py distinguish.
    - Library functions (urllib, json, base64, pdfplumber, float()) are fields
      of [Externals]; the browser, the network and the clock are an [attempt_env]
      per attempt.
    - The wall clock is an integer number of milliseconds. *)

From Stdlib Require Import ZArith List Bool String Ascii Lia Floats Uint63.
Import ListNotations.

Local Open Scope string_scope.
Local Open Scope Z_scope.

(** ** Exceptions and results *)

Inductive exn : Type :=
| PWTimeoutError      (* playwright.sync_api.TimeoutError *)
| RequestException    (* requests.exceptions.RequestException and subclasses *)
| OtherException.     (* any other subclass of Exception *)

Inductive result (A : Type) : Type :=
| Ok (a : A)
| Raise (e : exn).

Arguments Ok {A} a.
Arguments Raise {A} e.

Definition exn_eqb (a b : exn) : bool :=
  match a, b with
  | PWTimeoutError, PWTimeoutError => true
  | RequestException, RequestException => true
  | OtherException, OtherException => true
  | _, _ => false
  end.

(** ** Python values *)

#[local] Set Warnings "-register-all".

Inductive value : Type :=
| VNone
| VBool (b : bool)
| VInt (z : Z)
| VFloat (f : float)
| VStr (s : string)
| VList (l : list value)
| VDict (d : list (string * value)).

(** Truth value of a Python object, as [if x:] and [while x] test it. *)
Definition truthy (v : value) : bool :=
  match v with
  | VNone => false
  | VBool b => b
  | VInt z => negb (z =? 0)
  | VFloat f => negb (PrimFloat.eqb f 0%float)
  | VStr s => negb (s =? "")%string
  | VList l => match l with [] => false | _ => true end
  | VDict d => match d with [] => false | _ => true end
  end.

(** [k in d] and [d[k]] / [d.get(k)] on a dict. *)
Fixpoint dict_lookup (k : string) (d : list (string * value)) : option value :=
  match d with
  | [] => None
  | (k', v) :: d' => if (k' =? k)%string then Some v else dict_lookup k d'
  end.

Definition dict_get (k : string) (d : list (string * value)) : value :=
  match dict_lookup k d with
  | Some v => v
  | None => VNone
  end.

(** [x is True] *)
Definition is_True (v : value) : bool :=
  match v with
  | VBool true => true
  | _ => false
  end.

(** [a == b] where [a] is a string and [b] any value. *)
Definition str_eq_value (a : string) (b : value) : bool :=
  match b with
  | VStr s => (a =? s)%string
  | _ => false
  end.

(** ** Text helpers *)

Module Text.

Definition code (c : ascii) : nat := nat_of_ascii c.

(** [str.isspace] on the ASCII range, which is also [\s] of [re]. *)
Definition is_space (c : ascii) : bool :=
  let n := code c in
  (((9 <=? n) && (n <=? 13)) || ((28 <=? n) && (n <=? 32)))%nat.

Definition is_digit (c : ascii) : bool :=
  let n := code c in ((48 <=? n) && (n <=? 57))%nat.

Definition lower_char (c : ascii) : ascii :=
  let n := code c in
  if ((65 <=? n) && (n <=? 90))%nat then ascii_of_nat (n + 32) else c.

(** [s.lower()] *)
Fixpoint lower (s : string) : string :=
  match s with
  | EmptyString => EmptyString
  | String c s' => String (lower_char c) (lower s')
  end.

(** [s.startswith(p)] *)
Fixpoint startswith (p s : string) : bool :=
  match p, s with
  | EmptyString, _ => true
  | String a p', String b s' => Ascii.eqb a b && startswith p' s'
  | String _ _, EmptyString => false
  end.

(** [p in s] *)
Fixpoint contains (p s : string) : bool :=
  startswith p s ||
  match s with
  | EmptyString => false
  | String _ s' => contains p s'
  end.

Fixpoint drop (n : nat) (s : string) : string :=
  match n, s with
  | O, _ => s
  | S n', String _ s' => drop n' s'
  | S _, EmptyString => EmptyString
  end.

Fixpoint take (n : nat) (s : string) : string :=
  match n, s with
  | O, _ => EmptyString
  | S n', String c s' => String c (take n' s')
  | S _, EmptyString => EmptyString
  end.

(** [s.endswith(p)] *)
Definition endswith (p s : string) : bool :=
  (String.length p <=? String.length s)%nat &&
  (drop (String.length s - String.length p) s =? p)%string.

Fixpoint take_while (f : ascii -> bool) (s : string) : string :=
  match s with
  | EmptyString => EmptyString
  | String c s' => if f c then String c (take_while f s') else EmptyString
  end.

Fixpoint drop_while (f : ascii -> bool) (s : string) : string :=
  match s with
  | EmptyString => EmptyString
  | String c s' => if f c then drop_while f s' else s
  end.

Fixpoint rev_onto (s acc : string) : string :=
  match s with
  | EmptyString => acc
  | String c s' => rev_onto s' (String c acc)
  end.

Definition rev (s : string) : string := rev_onto s EmptyString.

(** [s.strip()] *)
Definition strip (s : string) : string :=
  rev (drop_while is_space (rev (drop_while is_space s))).

(** [s.replace(",", "")] *)
Fixpoint remove_char (x : ascii) (s : string) : string :=
  match s with
  | EmptyString => EmptyString
  | String c s' =>
      if Ascii.eqb c x then remove_char x s' else String c (remove_char x s')
  end.

End Text.

(** ** Library functions the program calls *)

Definition bytes : Type := list Byte.byte.

(** A page of a document opened by pdfplumber: [page.extract_table()]. *)
Record pdf_page : Type := {
  extract_table : result (option (list (list (option string))))
}.

Record Externals : Type := {
  (** [urlparse(url).hostname]: [Raise] when urlparse raises, [Ok None] when
      the URL has no host. *)
  urlparse_hostname : string -> result (option string);
  (** [urljoin(base, href)] *)
  urljoin : string -> string -> result string;
  (** [json.loads(s)]; [None] when it raises. *)
  json_loads : string -> option value;
  (** [base64.b64decode(s).decode("utf-8")]; [None] when either step raises. *)
  b64decode_utf8 : string -> option string;
  (** [pdfplumber.open(io.BytesIO(b))] followed by [pdf.pages]. *)
  pdf_open : bytes -> result (list pdf_page);
  (** [float(s)]; [None] when it raises ValueError. *)
  float_of_string : string -> option float
}.

(** ** The three regular expressions of app.py

    Each pattern is matched the way [re.search] does: the leftmost start
    position wins, and at that position the quantifiers are greedy. *)

Module Regex.

(** The character class of the URL patterns: anything but white space, the
    two quote characters and the angle brackets. Written [U] below. *)
Definition url_char (c : ascii) : bool :=
  negb (Text.is_space c) &&
  negb (existsb (Ascii.eqb c) ["'"%char; "034"%char; "<"%char; ">"%char]).

(** [p] read at the head of [s], letter case ignored when [ci] is set;
    gives what follows [p]. *)
Fixpoint after_prefix (ci : bool) (p s : string) : option string :=
  match p, s with
  | EmptyString, _ => Some s
  | String a p', String b s' =>
      if Ascii.eqb a (if ci then Text.lower_char b else b)
      then after_prefix ci p' s'
      else None
  | String _ _, EmptyString => None
  end.

(** [https?://] at the head of [s]: the length matched and the rest. *)
Definition scheme_at (ci : bool) (s : string) : option (nat * string) :=
  match after_prefix ci "http" s with
  | None => None
  | Some r =>
      let plain :=
        match after_prefix ci "://" r with
        | Some r' => Some (7%nat, r')
        | None => None
        end in
      match after_prefix ci "s" r with
      | Some r1 =>
          match after_prefix ci "://" r1 with
          | Some r' => Some (8%nat, r')
          | None => plain
          end
      | None => plain
      end
  end.

(** [https?://U+] at the head of [s]: the length of the match. *)
Definition url_at (s : string) : option nat :=
  match scheme_at false s with
  | None => None
  | Some (n, r) =>
      let run := Text.take_while url_char r in
      if (String.length run =? 0)%nat then None
      else Some (n + String.length run)%nat
  end.

(** [https?://U*submit U*] with [re.IGNORECASE] at the head of [s]. The
    letters of submit belong to the class, so the match is the whole run of
    class characters when that run contains submit. *)
Definition submit_url_at (s : string) : option nat :=
  match scheme_at true s with
  | None => None
  | Some (n, r) =>
      let run := Text.take_while url_char r in
      if Text.contains "submit" (Text.lower run)
      then Some (n + String.length run)%nat
      else None
  end.

(** [re.search]: the first position where [at_head] matches. *)
Fixpoint search (at_head : string -> option nat) (s : string) : option string :=
  match at_head s with
  | Some n => Some (Text.take n s)
  | None =>
      match s with
      | EmptyString => None
      | String _ s' => search at_head s'
      end
  end.

Definition search_url : string -> option string := search url_at.

Definition search_submit_url : string -> option string := search submit_url_at.

Definition is_sign (c : ascii) : bool :=
  Ascii.eqb c "+"%char || Ascii.eqb c "-"%char.

(** [[-+]?]: the length matched and the rest. *)
Definition sign_at (s : string) : nat * string :=
  match s with
  | String c s' => if is_sign c then (1%nat, s') else (0%nat, s)
  | EmptyString => (0%nat, s)
  end.

(** [([-+]?\d+\.\d+|[-+]?\d+)] at the head of [s]. *)
Definition number_at (s : string) : option nat :=
  let '(n, r) := sign_at s in
  let d1 := Text.take_while Text.is_digit r in
  if (String.length d1 =? 0)%nat then None
  else
    match Text.drop (String.length d1) r with
    | String c r' =>
        let d2 := Text.take_while Text.is_digit r' in
        if Ascii.eqb c "."%char && negb (String.length d2 =? 0)%nat
        then Some (n + String.length d1 + 1 + String.length d2)%nat
        else Some (n + String.length d1)%nat
    | EmptyString => Some (n + String.length d1)%nat
    end.

Definition search_number : string -> option string := search number_at.

Fixpoint all_digits (s : string) : bool :=
  match s with
  | EmptyString => true
  | String c s' => Text.is_digit c && all_digits s'
  end.

(** [re.fullmatch(r"[-+]?\d+", v)] *)
Definition fullmatch_int (v : string) : bool :=
  let '(_, r) := sign_at v in
  negb (String.length r =? 0)%nat && all_digits r.

End Regex.

(** [int(v)] for a [v] accepted by [Regex.fullmatch_int]. The conversion
    is taken to succeed on every such [v]: the limit that recent Python
    versions put on the number of digits is not part of the embedding. *)
Fixpoint digits_value (acc : Z) (s : string) : Z :=
  match s with
  | EmptyString => acc
  | String c s' => digits_value (10 * acc + (Z.of_nat (Text.code c) - 48)) s'
  end.

Definition int_of_string (v : string) : Z :=
  match v with
  | String c r =>
      if Ascii.eqb c "-"%char then - digits_value 0 r
      else if Ascii.eqb c "+"%char then digits_value 0 r
      else digits_value 0 v
  | EmptyString => 0
  end.

(** ** The browser page and the network, as the program sees them *)

(** A rendered page. A page can change while it is open, so each place of
    app.py that queries it has its own answer. An anchor is given by what
    [a.get_attribute("href")] returns for it. *)
Record page : Type := {
  (** [page.query_selector("pre")], and [pre.inner_text()] of the element *)
  pre_query : result (option (result string));
  (** [page.query_selector_all("a[href]")] in [find_submit_url_from_page] *)
  submit_anchors : result (list (result (option string)));
  (** [page.inner_text("body")] in [find_submit_url_from_page] *)
  submit_body : result string;
  (** [page.query_selector_all("a[href]")] in [compute_answer_from_page] *)
  answer_anchors : result (list (result (option string)));
  (** [page.inner_text("body", timeout=1000)] in [compute_answer_from_page] *)
  answer_body : result string;
  (** [page.inner_text("body")] in the loop, when no submit URL was found *)
  fallback_body : result string;
  (** [page.url] *)
  page_url : string
}.

(** A [requests.Response]: [json] is what [resp.json()] gives, [None] when it
    raises. *)
Record response : Type := {
  status_code : Z;
  content : bytes;
  text : string;
  json : option value
}.

(** [resp.raise_for_status()]: HTTPError, a RequestException, on 4xx and 5xx. *)
Definition raise_for_status (r : response) : result unit :=
  if (400 <=? status_code r) && (status_code r <? 600)
  then Raise RequestException
  else Ok tt.

Section Helpers.

Variable lib : Externals.

Definition is_localhost_url (url : string) : bool :=
  match urlparse_hostname lib url with
  | Ok p_hostname =>
      let hostname :=
        Text.lower (match p_hostname with Some h => h | None => "" end) in
      if existsb (String.eqb hostname) ["localhost"; "127.0.0.1"; "::1"]
      then true
      else if Text.endswith ".local" hostname then true
      else false
  | Raise _ => false
  end.

(** The [for a in anchors] loop of [find_submit_url_from_page]: the first
    href that contains submit; a raising [get_attribute] leaves the function. *)
Fixpoint first_submit_href (anchors : list (result (option string)))
  : result (option string) :=
  match anchors with
  | [] => Ok None
  | Raise e :: _ => Raise e
  | Ok href :: rest =>
      match href with
      | Some h =>
          if negb (h =? "")%string && Text.contains "submit" (Text.lower h)
          then Ok (Some h)
          else first_submit_href rest
      | None => first_submit_href rest
      end
  end.

Definition find_submit_url_from_page (pg : page) (base_url : string)
  : result (option string) :=
  match submit_anchors pg with
  | Raise e => Raise e
  | Ok anchors =>
      match first_submit_href anchors with
      | Raise e => Raise e
      | Ok (Some href) =>
          match urljoin lib base_url href with
          | Ok u => Ok (Some u)
          | Raise e => Raise e
          end
      | Ok None =>
          let text := match submit_body pg with Ok t => t | Raise _ => "" end in
          match Regex.search_submit_url text with
          | Some m => Ok (Some m)
          | None =>
              match Regex.search_url text with
              | Some m2 => Ok (Some m2)
              | None => Ok None
              end
          end
      end
  end.

Definition extract_json_from_pre (pg : page) : result value :=
  match pre_query pg with
  | Raise e => Raise e
  | Ok None => Ok VNone
  | Ok (Some (Raise e)) => Raise e
  | Ok (Some (Ok inner_text)) =>
      let txt := Text.strip inner_text in
      match json_loads lib txt with
      | Some v => Ok v
      | None =>
          match b64decode_utf8 lib txt with
          | Some decoded =>
              match json_loads lib decoded with
              | Some v => Ok v
              | None => Ok VNone
              end
          | None => Ok VNone
          end
      end
  end.

(** *** PDF helper *)

Definition download_file_bytes
  (http_get : string -> result response) (url : string) : result bytes :=
  match http_get url with
  | Raise e => Raise e
  | Ok r =>
      match raise_for_status r with
      | Raise e => Raise e
      | Ok _ => Ok (content r)
      end
  end.

(** [headers_lower.index(x)] *)
Fixpoint index_of (x : string) (l : list string) : option nat :=
  match l with
  | [] => None
  | h :: t =>
      if (h =? x)%string then Some O
      else match index_of x t with Some i => Some (S i) | None => None end
  end.

(** The body of [for row in table[1:]]: the cell at [idx] added to [s], or
    [s] unchanged on a missing, a [None] or an unparseable cell. *)
Definition add_cell (idx : nat) (s : float) (row : list (option string)) : float :=
  match nth_error row idx with
  | Some (Some v) =>
      match float_of_string lib (Text.strip (Text.remove_char ","%char v)) with
      | Some x => (s + x)%float
      | None => s
      end
  | _ => s
  end.

Definition sum_values_on_pdf_page2 (pdf_bytes : bytes) (column_name : string)
  : result (option float) :=
  match pdf_open lib pdf_bytes with
  | Raise e => Raise e
  | Ok pages =>
      if (List.length pages <? 2)%nat then Ok None
      else
        match nth_error pages 1 with
        | None => Ok None
        | Some pg =>
            match extract_table pg with
            | Raise _ => Ok None
            | Ok None => Ok None
            | Ok (Some []) => Ok None
            | Ok (Some (headers :: rows)) =>
                let headers_lower :=
                  map (fun h => match h with
                                | Some h' => Text.lower h'
                                | None => ""
                                end) headers in
                match index_of (Text.lower column_name) headers_lower with
                | None => Ok None
                | Some idx => Ok (Some (fold_left (add_cell idx) rows 0%float))
                end
            end
        end
  end.

(** *** Core heuristics *)

(** One guarded use of the PDF handler:
    [try: ... download_file_bytes ... sum_values_on_pdf_page2 ... except Exception]. *)
Definition pdf_value
  (http_get : string -> result response) (url : result string) : option float :=
  match url with
  | Raise _ => None
  | Ok u =>
      match download_file_bytes http_get u with
      | Raise _ => None
      | Ok pdf_bytes =>
          match sum_values_on_pdf_page2 pdf_bytes "value" with
          | Ok (Some val) => Some val
          | _ => None
          end
      end
  end.

(** The [for a in anchors] loop of [compute_answer_from_page]; a raising
    [get_attribute] ends the loop through [except Exception: pass]. *)
Fixpoint first_pdf_anchor_value
  (http_get : string -> result response) (base : string)
  (anchors : list (result (option string))) : option float :=
  match anchors with
  | [] => None
  | Raise _ :: _ => None
  | Ok href :: rest =>
      match href with
      | Some h =>
          if negb (h =? "")%string && Text.endswith ".pdf" (Text.lower h)
          then match pdf_value http_get (urljoin lib base h) with
               | Some val => Some val
               | None => first_pdf_anchor_value http_get base rest
               end
          else first_pdf_anchor_value http_get base rest
      | None => first_pdf_anchor_value http_get base rest
      end
  end.

(** Step 3 of [compute_answer_from_page]. *)
Definition numeric_fallback (pg : page) : value :=
  let body_text := match answer_body pg with Ok t => t | Raise _ => "" end in
  match Regex.search_number body_text with
  | Some v =>
      if Regex.fullmatch_int v then VInt (int_of_string v)
      else match float_of_string lib v with
           | Some f => VFloat f
           | None => VStr v
           end
  | None => VStr "no-answer-found"
  end.

(** Step 2 of [compute_answer_from_page], falling through to step 3. *)
Definition pdf_links_then_numeric
  (http_get : string -> result response) (pg : page) : value :=
  match answer_anchors pg with
  | Raise _ => numeric_fallback pg
  | Ok anchors =>
      match first_pdf_anchor_value http_get (page_url pg) anchors with
      | Some val => VFloat val
      | None => numeric_fallback pg
      end
  end.

Definition compute_answer_from_page
  (http_get : string -> result response) (pg : page) (parsed_json : value)
  : value :=
  match parsed_json with
  | VDict d =>
      match dict_lookup "answer" d with
      | Some answer => answer
      | None =>
          match dict_lookup "url" d with
          | Some (VStr u) =>
              if Text.endswith ".pdf" (Text.lower u)
              then match pdf_value http_get (Ok u) with
                   | Some val => VFloat val
                   | None => pdf_links_then_numeric http_get pg
                   end
              else pdf_links_then_numeric http_get pg
          | _ => pdf_links_then_numeric http_get pg
          end
      end
  | _ => pdf_links_then_numeric http_get pg
  end.

Definition submit_answer_json
  (http_post : string -> value -> Z -> result response)
  (submit_url : string) (payload : value) (timeout : Z) : result value :=
  match http_post submit_url payload timeout with
  | Raise e => Raise e
  | Ok resp =>
      match raise_for_status resp with
      | Raise e => Raise e
      | Ok _ =>
          match json resp with
          | Some v => Ok v
          | None => Ok (VDict [("non_json_response", VStr (text resp))])
          end
      end
  end.

End Helpers.

(** ** Main solver loop *)

(** The settings read from the environment when app.py is loaded. *)
Record config : Type := {
  SOLVE_DEADLINE_SECONDS : Z;
  PER_QUESTION_RETRIES : Z;
  SUBMIT_TIMEOUT : Z;
  (** milliseconds *)
  PAGE_RENDER_WAIT : Z;
  PLAYWRIGHT_TIMEOUT_MS : Z
}.

Definition default_config : config := {|
  SOLVE_DEADLINE_SECONDS := 170;
  PER_QUESTION_RETRIES := 2;
  SUBMIT_TIMEOUT := 25;
  PAGE_RENDER_WAIT := 800;
  PLAYWRIGHT_TIMEOUT_MS := 30000
|}.

(** Milliseconds in [n] seconds. *)
Definition seconds (n : Z) : Z := 1000 * n.

(** [time.sleep(0.5)] *)
Definition backoff : Z := 500.

(** What the browser and the network do during one attempt. Every call to
    the browser or the network takes the time given here, whether it
    returns or raises, and each of them can raise; [extract_duration] is the
    time of all that the body does between the settle delay and the
    submission: the page queries, the file downloads and the PDF handler.
    [time.sleep] of a length that is not negative returns normally after
    that length. *)
Record attempt_env : Type := {
  (** [context.new_page()] *)
  new_page_result : result unit;
  new_page_duration : Z;
  (** [page.set_default_timeout(PLAYWRIGHT_TIMEOUT_MS)] *)
  set_default_timeout_result : result unit;
  set_default_timeout_duration : Z;
  (** [page.goto(current_url)] for a string URL *)
  goto_result : result unit;
  goto_duration : Z;
  loaded_page : page;
  extract_duration : Z;
  (** [requests.get(url, timeout=30)] *)
  http_get : string -> result response;
  (** [requests.post(submit_url, json=payload, timeout=timeout)] *)
  http_post : string -> value -> Z -> result response;
  post_duration : Z;
  (** the time of [page.inner_text("body")] when no submit URL was found *)
  fallback_duration : Z;
  (** [page.close()] *)
  close_result : result unit;
  close_duration : Z
}.

(** The outside world of one run: whether the browser starts
    ([sync_playwright()], [pw.chromium.launch] and [browser.new_context]) and
    how long that takes, and the attempts in the order the loop makes
    them. *)
Record world : Type := {
  launch_result : result unit;
  launch_duration : Z;
  attempt_envs : nat -> attempt_env
}.

(** The effects a run performs, in the order it performs them. A page handle
    is named by the number of the attempt that opened it; [t] is the wall
    clock when the call begins. [NewPage] stands for a call of
    [context.new_page()] that returned a page; the other events stand for
    the call, whether it returns or raises. *)
Inductive event : Type :=
| LaunchBrowser
| NewPage (handle : nat)
| Goto (handle : nat) (t : Z) (url : value)
| Post (handle : nat) (t : Z) (submit_url : string) (payload : value) (timeout : Z)
| ClosePage (handle : nat)
| CloseBrowser.

(** The local variables of [solve_and_submit_loop], the clock, and the
    effects so far. *)
Record loop_state : Type := {
  now : Z;
  current_url : value;
  task_count : Z;
  retries_left : Z;
  answered : bool;
  attempt_no : nat;
  trace : list event
}.

Definition tick (d : Z) (s : loop_state) : loop_state :=
  {| now := now s + d; current_url := current_url s;
     task_count := task_count s; retries_left := retries_left s;
     answered := answered s; attempt_no := attempt_no s; trace := trace s |}.

Definition emit (ev : event) (s : loop_state) : loop_state :=
  {| now := now s; current_url := current_url s;
     task_count := task_count s; retries_left := retries_left s;
     answered := answered s; attempt_no := attempt_no s;
     trace := trace s ++ [ev] |}.

Definition set_current_url (u : value) (s : loop_state) : loop_state :=
  {| now := now s; current_url := u;
     task_count := task_count s; retries_left := retries_left s;
     answered := answered s; attempt_no := attempt_no s; trace := trace s |}.

Definition set_answered (b : bool) (s : loop_state) : loop_state :=
  {| now := now s; current_url := current_url s;
     task_count := task_count s; retries_left := retries_left s;
     answered := b; attempt_no := attempt_no s; trace := trace s |}.

Definition set_retries_left (r : Z) (s : loop_state) : loop_state :=
  {| now := now s; current_url := current_url s;
     task_count := task_count s; retries_left := r;
     answered := answered s; attempt_no := attempt_no s; trace := trace s |}.

Definition start_task (retries : Z) (s : loop_state) : loop_state :=
  {| now := now s; current_url := current_url s;
     task_count := task_count s + 1; retries_left := retries;
     answered := false; attempt_no := attempt_no s; trace := trace s |}.

Definition next_attempt (s : loop_state) : loop_state :=
  {| now := now s; current_url := current_url s;
     task_count := task_count s; retries_left := retries_left s;
     answered := answered s; attempt_no := S (attempt_no s); trace := trace s |}.

(** The statements that end one pass through the body of the inner
    [while]: the six [break] and the five [continue] of lines 237 to 315. *)
Inductive exit_path : Type :=
| FallbackAdvance      (* no submit URL, candidate differs: break *)
| FallbackEnd          (* no submit URL, candidate equal or absent: break *)
| SubmitFailed         (* except RequestException: continue *)
| CorrectAdvance       (* correct is True, next URL: break *)
| CorrectEnd           (* correct is True, no next URL: break *)
| UnconfirmedRetry     (* not confirmed, retry: continue *)
| UnconfirmedAdvance   (* not confirmed, move to next URL: break *)
| UnconfirmedEnd       (* not confirmed, no next URL, no retry: break *)
| RenderTimeout        (* except PWTimeoutError: continue *)
| PageException.       (* except Exception: continue *)

(** [break] leaves the inner loop, [continue] goes back to its test. *)
Definition is_break (p : exit_path) : bool :=
  match p with
  | FallbackAdvance | FallbackEnd | CorrectAdvance | CorrectEnd
  | UnconfirmedAdvance | UnconfirmedEnd => true
  | SubmitFailed | UnconfirmedRetry | RenderTimeout | PageException => false
  end.

(** The exits that the specification calls a recoverable failure or an
    unconfirmed-answer retry. *)
Definition consumes_retry (p : exit_path) : bool :=
  match p with
  | SubmitFailed | UnconfirmedRetry | RenderTimeout | PageException => true
  | _ => false
  end.

Section Solver.

Variable lib : Externals.
Variable cfg : config.
Variable email secret : string.
Variable deadline : Z.

(** [submit_body], the record sent to the grader. *)
Definition submission_record (url answer_payload : value) : value :=
  VDict [("email", VStr email); ("secret", VStr secret);
         ("url", url); ("answer", answer_payload)].

(** The two [except] clauses that close the [try] of the inner loop:
    [retries_left -= 1; time.sleep(0.5); continue]. They take every
    exception raised in the body, whatever the body did before. *)
Definition on_exception (e : exn) (s : loop_state) : loop_state * exit_path :=
  let s := set_retries_left (retries_left s - 1) s in
  let s := tick backoff s in
  (s, if exn_eqb e PWTimeoutError then RenderTimeout else PageException).

(** [retries_left -= 1; page.close(); time.sleep(0.5); continue]. When
    [page.close()] raises, the exception leaves the body after the
    decrement and is taken by the [except] clauses. *)
Definition retry_same (a : attempt_env) (handle : nat) (p : exit_path)
  (s : loop_state) : loop_state * exit_path :=
  let s := set_retries_left (retries_left s - 1) s in
  let s := emit (ClosePage handle) s in
  let s := tick (close_duration a) s in
  match close_result a with
  | Raise e => on_exception e s
  | Ok _ =>
      let s := tick backoff s in
      (s, p)
  end.

(** [current_url = u; answered = True; page.close(); break]. When
    [page.close()] raises, the [break] is not reached: the exception is
    taken by the [except] clauses, with the two assignments done. *)
Definition leave_task (a : attempt_env) (handle : nat) (u : value)
  (p : exit_path) (s : loop_state) : loop_state * exit_path :=
  let s := set_current_url u s in
  let s := set_answered true s in
  let s := emit (ClosePage handle) s in
  let s := tick (close_duration a) s in
  match close_result a with
  | Raise e => on_exception e s
  | Ok _ => (s, p)
  end.

(** Lines 256 to 304: what the loop does with the grader's response. *)
Definition handle_response (a : attempt_env) (handle : nat) (resp_json : value)
  (s : loop_state) : loop_state * exit_path :=
  let correct :=
    match resp_json with VDict d => dict_get "correct" d | _ => VNone end in
  let next_url :=
    match resp_json with VDict d => dict_get "url" d | _ => VNone end in
  if is_True correct then
    if truthy next_url
    then leave_task a handle next_url CorrectAdvance s
    else leave_task a handle VNone CorrectEnd s
  else
    if truthy next_url then
      let remaining_time := deadline - now s in
      if (0 <? retries_left s) && (seconds 8 <? remaining_time)
      then retry_same a handle UnconfirmedRetry s
      else leave_task a handle next_url UnconfirmedAdvance s
    else
      if (0 <? retries_left s) && (seconds 8 <? deadline - now s)
      then retry_same a handle UnconfirmedRetry s
      else leave_task a handle VNone UnconfirmedEnd s.

(** Lines 224 to 243: no submit URL was found on the page. *)
Definition next_url_fallback (a : attempt_env) (handle : nat) (s : loop_state)
  : loop_state * exit_path :=
  let s := tick (fallback_duration a) s in
  match fallback_body (loaded_page a) with
  | Raise e => on_exception e s
  | Ok body =>
      let txt := Text.take 3000 body in
      match Regex.search_url txt with
      | Some candidate =>
          if str_eq_value candidate (current_url s)
          then leave_task a handle VNone FallbackEnd s
          else leave_task a handle (VStr candidate) FallbackAdvance s
      | None => leave_task a handle VNone FallbackEnd s
      end
  end.

(** Lines 207 to 254: open a page, render, extract, resolve the submit URL
    and submit. The result is either the way the attempt ended, or the
    grader's response with the state in which line 256 is reached. *)
Definition render_and_submit (a : attempt_env) (s : loop_state)
  : loop_state * (exit_path + value) :=
  let handle := attempt_no s in
  let s := tick (new_page_duration a) s in
  match new_page_result a with
  | Raise e => let '(s, p) := on_exception e s in (s, inl p)
  | Ok _ =>
  let s := emit (NewPage handle) s in
  let s := tick (set_default_timeout_duration a) s in
  match set_default_timeout_result a with
  | Raise e => let '(s, p) := on_exception e s in (s, inl p)
  | Ok _ =>
  let s := emit (Goto handle (now s) (current_url s)) s in
  match current_url s with
  | VStr url =>
      let s := tick (goto_duration a) s in
      match goto_result a with
      | Raise e => let '(s, p) := on_exception e s in (s, inl p)
      | Ok _ =>
          if PAGE_RENDER_WAIT cfg <? 0
          then (* time.sleep raises ValueError on a negative length *)
            let '(s, p) := on_exception OtherException s in (s, inl p)
          else
          let s := tick (PAGE_RENDER_WAIT cfg) s in
          let pg := loaded_page a in
          let s := tick (extract_duration a) s in
          match extract_json_from_pre lib pg with
          | Raise e => let '(s, p) := on_exception e s in (s, inl p)
          | Ok parsed_json =>
              match find_submit_url_from_page lib pg url with
              | Raise e => let '(s, p) := on_exception e s in (s, inl p)
              | Ok submit_url =>
                  let answer_payload :=
                    compute_answer_from_page lib (http_get a) pg parsed_json in
                  let submit_body :=
                    submission_record (current_url s) answer_payload in
                  match submit_url with
                  | Some target =>
                      if (target =? "")%string
                      then let '(s, p) := next_url_fallback a handle s in (s, inl p)
                      else
                        let s :=
                          emit (Post handle (now s) target submit_body
                                     (SUBMIT_TIMEOUT cfg)) s in
                        let s := tick (post_duration a) s in
                        match submit_answer_json (http_post a) target submit_body
                                (SUBMIT_TIMEOUT cfg) with
                        | Raise e =>
                            if exn_eqb e RequestException
                            then let '(s, p) := retry_same a handle SubmitFailed s in
                                 (s, inl p)
                            else let '(s, p) := on_exception e s in (s, inl p)
                        | Ok resp_json => (s, inr resp_json)
                        end
                  | None =>
                      let '(s, p) := next_url_fallback a handle s in (s, inl p)
                  end
              end
          end
      end
  | _ =>
      (* page.goto rejects a URL that is not a string *)
      let '(s, p) := on_exception OtherException s in (s, inl p)
  end
  end
  end.

(** One pass through the body of the inner [while]. *)
Definition attempt (a : attempt_env) (s : loop_state) : loop_state * exit_path :=
  match render_and_submit a s with
  | (s1, inl p) => (s1, p)
  | (s1, inr resp_json) => handle_response a (attempt_no s) resp_json s1
  end.

(** *** The two loops, one test at a time *)

Inductive location : Type :=
| OuterTest    (* while current_url and time.time() < deadline *)
| InnerTest    (* while time.time() < deadline and retries_left >= 0 and not answered *)
| AfterLoops.  (* browser.close() was called *)

Definition outer_test (s : loop_state) : bool :=
  truthy (current_url s) && (now s <? deadline).

Definition inner_test (s : loop_state) : bool :=
  (now s <? deadline) && (0 <=? retries_left s) && negb (answered s).

Variable w : world.

Definition step (m : location * loop_state) : location * loop_state :=
  let '(l, s) := m in
  match l with
  | OuterTest =>
      if outer_test s
      then (InnerTest, start_task (PER_QUESTION_RETRIES cfg) s)
      else (AfterLoops, emit CloseBrowser s)
  | InnerTest =>
      if inner_test s
      then
        let '(s', p) := attempt (attempt_envs w (attempt_no s)) s in
        (if is_break p then OuterTest else InnerTest, next_attempt s')
      else (OuterTest, s)
  | AfterLoops => (AfterLoops, s)
  end.

Fixpoint steps (n : nat) (m : location * loop_state) : location * loop_state :=
  match n with
  | O => m
  | S n' => steps n' (step m)
  end.

End Solver.

(** How a call of [solve_and_submit_loop] ends. *)
Inductive outcome : Type :=
| Aborted                                  (* start_url is local: return *)
| Crashed                                  (* the browser did not start *)
| Finished (s : loop_state)                (* both loops left *)
| StillRunning (l : location) (s : loop_state).

Section Main.

Variable lib : Externals.
Variable cfg : config.
Variable w : world.

(** The state at the first test of the outer loop: the clock was read into
    [start_time] before the browser was started. *)
Definition initial_state (start_url : string) (start_time : Z) : loop_state :=
  {| now := start_time + launch_duration w; current_url := VStr start_url;
     task_count := 0; retries_left := PER_QUESTION_RETRIES cfg;
     answered := false; attempt_no := O; trace := [LaunchBrowser] |}.

Definition deadline_of (start_time : Z) : Z :=
  start_time + seconds (SOLVE_DEADLINE_SECONDS cfg).

(** [start_time] is what [time.time()] returns on entry; [fuel] bounds the
    number of loop tests the run is followed for. *)
Definition solve_and_submit_loop
  (email secret start_url : string) (start_time : Z) (fuel : nat) : outcome :=
  let deadline := deadline_of start_time in
  if is_localhost_url lib start_url then Aborted
  else
    match launch_result w with
    | Raise _ => Crashed
    | Ok _ =>
        match steps lib cfg email secret deadline w fuel
                (OuterTest, initial_state start_url start_time) with
        | (AfterLoops, s) => Finished s
        | (l, s) => StillRunning l s
        end
    end.

End Main.

(** The effects of a run. The browser is started after the test of the
    start URL, so an aborted run has none. *)
Definition effects (o : outcome) : list event :=
  match o with
  | Aborted => []
  | Crashed => [LaunchBrowser]
  | Finished s => trace s
  | StillRunning _ s => trace s
  end.

(** ** Definitions that follow the wording of the specification *)

(** The first value of [l] that is not [None]. *)
Fixpoint first_non_null (l : list value) : value :=
  match l with
  | [] => VNone
  | VNone :: rest => first_non_null rest
  | v :: _ => v
  end.

Section Strategies.

Variable lib : Externals.
Variable http_get : string -> result response.

(** The value under [key] when [parsed_json] is an object that has it. *)
Definition field (key : string) (parsed_json : value) : option value :=
  match parsed_json with
  | VDict d => dict_lookup key d
  | _ => None
  end.

(** Strategy 1 in the words of the specification: the direct answer field of
    the structured object, null when there is none. *)
Definition structured_answer (parsed_json : value) : value :=
  match field "answer" parsed_json with
  | Some a => a
  | None => VNone
  end.

(** Strategy 2 in the words of the specification: the file the structured
    object references or, failing that, the first hyperlink of the page whose
    file the handler can sum; null when there is none. *)
Definition linked_file_answer (pg : page) (parsed_json : value) : value :=
  let from_object :=
    match field "url" parsed_json with
    | Some (VStr u) =>
        if Text.endswith ".pdf" (Text.lower u)
        then pdf_value lib http_get (Ok u)
        else None
    | _ => None
    end in
  match from_object with
  | Some val => VFloat val
  | None =>
      match answer_anchors pg with
      | Ok anchors =>
          match first_pdf_anchor_value lib http_get (page_url pg) anchors with
          | Some val => VFloat val
          | None => VNone
          end
      | Raise _ => VNone
      end
  end.

(** Section 4.2 as it is written: the three strategies in order, the first
    result that is not null wins. *)
Definition first_non_null_strategy (pg : page) (parsed_json : value) : value :=
  first_non_null [structured_answer parsed_json;
                  linked_file_answer pg parsed_json;
                  numeric_fallback lib pg].

End Strategies.

(** The cells of column [idx] that [float] accepts, row by row. *)
Fixpoint numeric_cells (lib : Externals) (idx : nat)
  (rows : list (list (option string))) : list float :=
  match rows with
  | [] => []
  | row :: rest =>
      match nth_error row idx with
      | Some (Some v) =>
          match float_of_string lib (Text.strip (Text.remove_char ","%char v)) with
          | Some x => x :: numeric_cells lib idx rest
          | None => numeric_cells lib idx rest
          end
      | _ => numeric_cells lib idx rest
      end
  end.

(** [0.0 + x1 + x2 + ...], added from the left. *)
Definition float_sum (l : list float) : float := fold_left PrimFloat.add l 0%float.

(** The header cell as it is compared: lower case, an absent cell empty. *)
Definition header_key (h : option string) : string :=
  match h with
  | Some h' => Text.lower h'
  | None => ""
  end.

(** The times at which a navigation or a submission begins. *)
Fixpoint initiation_times (tr : list event) : list Z :=
  match tr with
  | [] => []
  | Goto _ t _ :: rest => t :: initiation_times rest
  | Post _ t _ _ _ :: rest => t :: initiation_times rest
  | _ :: rest => initiation_times rest
  end.

(** The page handles that are open after the effects [tr], among [opened]. *)
Fixpoint open_handles (opened : list nat) (tr : list event) : list nat :=
  match tr with
  | [] => opened
  | NewPage h :: rest => open_handles (opened ++ [h]) rest
  | ClosePage h :: rest =>
      open_handles (filter (fun h' => negb (Nat.eqb h' h)) opened) rest
  | _ :: rest => open_handles opened rest
  end.

(** The largest number of page handles open at one time during [tr]. *)
Fixpoint max_open (opened : list nat) (tr : list event) : nat :=
  match tr with
  | [] => List.length opened
  | ev :: rest =>
      Nat.max (List.length opened)
              (max_open (open_handles opened [ev]) rest)
  end.

(** ** Sample library, pages and worlds

    Small stand-ins for the library functions, enough to run the program on
    the inputs used below. *)

Module Sample.

Definition quote : string := String "034"%char EmptyString.

Fixpoint after_slashes (s : string) : option string :=
  match s with
  | String a r =>
      match r with
      | String b r' =>
          if Ascii.eqb a "/"%char && Ascii.eqb b "/"%char then Some r'
          else after_slashes r
      | EmptyString => None
      end
  | EmptyString => None
  end.

(** The host of [scheme://host:port/path]. *)
Definition hostname (url : string) : result (option string) :=
  match after_slashes url with
  | None => Ok None
  | Some r =>
      let h :=
        Text.take_while
          (fun c => negb (existsb (Ascii.eqb c) ["/"%char; ":"%char; "?"%char; "#"%char]))
          r in
      if (String.length h =? 0)%nat then Ok None else Ok (Some (Text.lower h))
  end.

Definition join (base href : string) : result string :=
  if Text.contains "://" href then Ok href else Ok (base ++ "/" ++ href)%string.

(** The text [{"answer": 42}]. *)
Definition answer_42_text : string :=
  ("{" ++ quote ++ "answer" ++ quote ++ ": 42}")%string.

Definition loads (s : string) : option value :=
  if (s =? "null")%string then Some VNone
  else if (s =? "42")%string then Some (VInt 42)
  else if (s =? answer_42_text)%string then Some (VDict [("answer", VInt 42)])
  else None.

Definition b64 (s : string) : option string :=
  if (s =? "bnVsbA==")%string then Some "null"
  else if (s =? "eyJhbnN3ZXIiOiA0Mn0=")%string then Some answer_42_text
  else None.

(** [float] on unsigned decimal integers. *)
Definition to_float (s : string) : option float :=
  if negb (String.length s =? 0)%nat && Regex.all_digits s
  then Some (PrimFloat.of_uint63 (Uint63.of_Z (digits_value 0 s)))
  else None.

Definition table_page : pdf_page := {|
  extract_table :=
    Ok (Some [[Some "Item"; Some "Value"];
              [Some "a"; Some "1,200"];
              [Some "b"; Some "n/a"];
              [Some "c"; None];
              [Some "d"; Some " 34 "];
              [Some "e"]])
|}.

Definition cover_page : pdf_page := {| extract_table := Ok None |}.

(** The bytes [%PDF]. *)
Definition pdf_magic : bytes := [Byte.x25; Byte.x50; Byte.x44; Byte.x46].

(** A document of two pages for bytes that start with [%PDF]; anything else
    is refused, as pdfplumber refuses bytes that are not a PDF. *)
Definition open_pdf (b : bytes) : result (list pdf_page) :=
  match b with
  | Byte.x25 :: Byte.x50 :: Byte.x44 :: Byte.x46 :: _ => Ok [cover_page; table_page]
  | _ => Raise OtherException
  end.

Definition lib : Externals := {|
  urlparse_hostname := hostname;
  urljoin := join;
  json_loads := loads;
  b64decode_utf8 := b64;
  pdf_open := open_pdf;
  float_of_string := to_float
|}.

Definition no_get (url : string) : result response := Raise RequestException.

(** A page with nothing on it. *)
Definition blank_page : page := {|
  pre_query := Ok None;
  submit_anchors := Ok [];
  submit_body := Ok "";
  answer_anchors := Ok [];
  answer_body := Ok "";
  fallback_body := Ok "";
  page_url := "https://quiz.example/q1"
|}.

(** A page whose [pre] element holds [text]. *)
Definition page_with_pre (text : string) : page := {|
  pre_query := Ok (Some (Ok text));
  submit_anchors := Ok [];
  submit_body := Ok "";
  answer_anchors := Ok [];
  answer_body := Ok "";
  fallback_body := Ok "";
  page_url := "https://quiz.example/q1"
|}.

(** A page whose visible text is [The result is 17 items]. *)
Definition page_17 : page := {|
  pre_query := Ok None;
  submit_anchors := Ok [];
  submit_body := Ok "The result is 17 items";
  answer_anchors := Ok [];
  answer_body := Ok "The result is 17 items";
  fallback_body := Ok "The result is 17 items";
  page_url := "https://quiz.example/q1"
|}.

End Sample.

(** The page answers [query_selector("pre")] and, when there is a [pre]
    element, the read of its text. *)
Definition pre_readable (pg : page) : Prop :=
  match pre_query pg with
  | Ok None => True
  | Ok (Some (Ok _)) => True
  | _ => False
  end.

(** Neither [json.loads(txt)] nor [json.loads] of the decoded text returns. *)
Definition both_parses_fail (lib : Externals) (txt : string) : Prop :=
  json_loads lib txt = None
  /\ forall decoded, b64decode_utf8 lib txt = Some decoded ->
                     json_loads lib decoded = None.

(** ** Sample runs *)

Module Runs.

Import Sample.

Definition q (s : string) : string := (quote ++ s ++ quote)%string.

Definition json_response (body : string) (v : value) : response :=
  {| status_code := 200; content := []; text := body; json := Some v |}.

(** [{"correct": true, "url": "https://quiz.example/next"}] *)
Definition correct_with_next : response :=
  json_response
    ("{" ++ q "correct" ++ ": true, " ++ q "url" ++ ": "
         ++ q "https://quiz.example/next" ++ "}")
    (VDict [("correct", VBool true); ("url", VStr "https://quiz.example/next")]).

(** [{"correct": true}] *)
Definition correct_last : response :=
  json_response ("{" ++ q "correct" ++ ": true}") (VDict [("correct", VBool true)]).

(** [{"correct": false, "url": "https://quiz.example/q3"}] *)
Definition wrong_with_next : response :=
  json_response
    ("{" ++ q "correct" ++ ": false, " ++ q "url" ++ ": "
         ++ q "https://quiz.example/q3" ++ "}")
    (VDict [("correct", VBool false); ("url", VStr "https://quiz.example/q3")]).

Definition unavailable : response :=
  {| status_code := 503; content := []; text := "Service Unavailable";
     json := None |}.

(** A page with [<pre>{"answer": 42}</pre>] and a link to the grader. *)
Definition quiz_page : page := {|
  pre_query := Ok (Some (Ok answer_42_text));
  submit_anchors := Ok [Ok (Some "https://grader.example/submit")];
  submit_body := Ok "Post your answer";
  answer_anchors := Ok [Ok (Some "https://grader.example/submit")];
  answer_body := Ok "Post your answer";
  fallback_body := Ok "Post your answer";
  page_url := "https://quiz.example/q1"
|}.

(** A page without links whose text is not ready at the first read and later
    names the page itself. *)
Definition self_link_page : page := {|
  pre_query := Ok None;
  submit_anchors := Ok [];
  submit_body := Raise PWTimeoutError;
  answer_anchors := Ok [];
  answer_body := Ok "";
  fallback_body := Ok "Reload https://quiz.example/q1 to try again";
  page_url := "https://quiz.example/q1"
|}.

(** The page opens and closes at once, loads in [load] milliseconds, and the
    grader answers [resp]. *)
Definition graded (pg : page) (load : Z) (resp : response) : attempt_env := {|
  new_page_result := Ok tt;
  new_page_duration := 0;
  set_default_timeout_result := Ok tt;
  set_default_timeout_duration := 0;
  goto_result := Ok tt;
  goto_duration := load;
  loaded_page := pg;
  extract_duration := 0;
  http_get := no_get;
  http_post := fun _ _ _ => Ok resp;
  post_duration := 200;
  fallback_duration := 0;
  close_result := Ok tt;
  close_duration := 0
|}.

(** The navigation runs into the 30 s timeout of the page. *)
Definition timed_out : attempt_env := {|
  new_page_result := Ok tt;
  new_page_duration := 0;
  set_default_timeout_result := Ok tt;
  set_default_timeout_duration := 0;
  goto_result := Raise PWTimeoutError;
  goto_duration := 30000;
  loaded_page := blank_page;
  extract_duration := 0;
  http_get := no_get;
  http_post := fun _ _ _ => Raise RequestException;
  post_duration := 0;
  fallback_duration := 0;
  close_result := Ok tt;
  close_duration := 0
|}.

(** Every page takes 29 s to load and every answer is accepted. *)
Definition slow_world : world := {|
  launch_result := Ok tt;
  launch_duration := 0;
  attempt_envs := fun _ => graded quiz_page 29000 correct_with_next
|}.

(** The first navigation times out, the second attempt succeeds. *)
Definition flaky_world : world := {|
  launch_result := Ok tt;
  launch_duration := 0;
  attempt_envs := fun k =>
    match k with
    | O => timed_out
    | _ => graded quiz_page 1000 correct_last
    end
|}.

(** The grader rejects the answer and names the next task. *)
Definition rejected : attempt_env := graded quiz_page 1000 wrong_with_next.

(** The grader is down. *)
Definition grader_down : attempt_env := graded quiz_page 1000 unavailable.

(** The grader answers with a body that is not JSON. *)
Definition plain_text : response :=
  {| status_code := 200; content := []; text := "thanks"; json := None |}.

Definition grader_plain : attempt_env := graded quiz_page 1000 plain_text.

(** The page names only itself. *)
Definition self_link : attempt_env := graded self_link_page 1000 correct_last.

Definition self_link_world : world := {|
  launch_result := Ok tt;
  launch_duration := 0;
  attempt_envs := fun _ => self_link
|}.

(** The same attempt on a browser that is busy: the page takes [delay]
    milliseconds to open. *)
Definition opened_late (delay : Z) (a : attempt_env) : attempt_env := {|
  new_page_result := new_page_result a;
  new_page_duration := delay;
  set_default_timeout_result := set_default_timeout_result a;
  set_default_timeout_duration := set_default_timeout_duration a;
  goto_result := goto_result a;
  goto_duration := goto_duration a;
  loaded_page := loaded_page a;
  extract_duration := extract_duration a;
  http_get := http_get a;
  http_post := http_post a;
  post_duration := post_duration a;
  fallback_duration := fallback_duration a;
  close_result := close_result a;
  close_duration := close_duration a
|}.

(** The same attempt on a page whose [close] raises. *)
Definition close_raises (e : exn) (a : attempt_env) : attempt_env := {|
  new_page_result := new_page_result a;
  new_page_duration := new_page_duration a;
  set_default_timeout_result := set_default_timeout_result a;
  set_default_timeout_duration := set_default_timeout_duration a;
  goto_result := goto_result a;
  goto_duration := goto_duration a;
  loaded_page := loaded_page a;
  extract_duration := extract_duration a;
  http_get := http_get a;
  http_post := http_post a;
  post_duration := post_duration a;
  fallback_duration := fallback_duration a;
  close_result := Raise e;
  close_duration := close_duration a
|}.

(** The grader rejects the answer and names the next task, and the page
    does not close. *)
Definition rejected_stuck : attempt_env := close_raises OtherException rejected.


(** [{"correct": true, "url": "https://quiz.example/next"}], sent with the
    status 300 and no [Location] header, so that the client does not follow
    it. *)
Definition multiple_choices : response :=
  {| status_code := 300; content := []; text := text correct_with_next;
     json := json correct_with_next |}.

Definition grader_redirects : attempt_env := graded quiz_page 1000 multiple_choices.

(** The browser takes 2 s to start and 3.2 s to open a page, every page
    takes 29 s to load and every answer is accepted. *)
Definition busy_world : world := {|
  launch_result := Ok tt;
  launch_duration := 2000;
  attempt_envs := fun _ => opened_late 3200 (graded quiz_page 29000 correct_with_next)
|}.

(** The first test of the inner loop, in a run of the default settings whose
    browser started at once. *)
Definition start : loop_state :=
  start_task 2
    (initial_state default_config flaky_world "https://quiz.example/q1" 0).

End Runs.

(** ** The account of one attempt *)

(** [page.close()] raises. *)
Definition close_fails (a : attempt_env) : bool :=
  match close_result a with
  | Ok _ => false
  | Raise _ => true
  end.

(** The time from the loop test that admits an attempt to its navigation:
    the page is opened and its timeout set. *)
Definition open_time (a : attempt_env) : Z :=
  new_page_duration a + set_default_timeout_duration a.

(** The time from the loop test that admits an attempt to its submission:
    the page is opened, loaded, left to settle and read. *)
Definition render_time (cfg : config) (a : attempt_env) : Z :=
  open_time a + goto_duration a + PAGE_RENDER_WAIT cfg + extract_duration a.

(** [page.close()] is among the calls [evs]. *)
Definition close_called (evs : list event) : bool :=
  existsb (fun ev => match ev with ClosePage _ => true | _ => false end) evs.

(** The exits on which [page.close()] was called and returned. *)
Definition closes_page (p : exit_path) : bool :=
  match p with
  | RenderTimeout | PageException => false
  | _ => true
  end.

(** Every navigation and every submission belongs to an attempt that began
    before the deadline: the loop test that admitted it read a clock [t0]
    before the deadline, and the call began after the time the attempt
    took to reach it, with no other look at the clock. *)
Definition timely (cfg : config) (deadline : Z) (w : world) (tr : list event)
  : Prop :=
  Forall (fun ev =>
            match ev with
            | Goto h t _ =>
                exists t0, t0 < deadline /\ t = t0 + open_time (attempt_envs w h)
            | Post h t _ _ _ =>
                exists t0, t0 < deadline
                           /\ t = t0 + render_time cfg (attempt_envs w h)
            | _ => True
            end) tr.

Section Account.

Variable lib : Externals.
Variable cfg : config.
Variable email secret : string.
Variable a : attempt_env.
Variable s : loop_state.

(** The effects of an attempt up to its navigation. *)
Definition navigation : list event :=
  [NewPage (attempt_no s); Goto (attempt_no s) (now s + open_time a) (current_url s)].

(** How far the body of an attempt that starts in [s] can get before its
    last part (an [except] clause, or one of the parts that close the
    page): the effects up to there, the time they took, and whether the
    page was rendered, so that the last part can close it. *)
Inductive stage : list event -> Z -> bool -> Prop :=
| stage_no_page (e : exn) :
    new_page_result a = Raise e ->
    stage [] (new_page_duration a) false
| stage_page (e : exn) :
    set_default_timeout_result a = Raise e ->
    stage [NewPage (attempt_no s)] (open_time a) false
| stage_goto_refused : stage navigation (open_time a) false
| stage_goto : stage navigation (open_time a + goto_duration a) false
| stage_rendered :
    0 <= PAGE_RENDER_WAIT cfg ->
    stage navigation (render_time cfg a) false
| stage_fallback (url : string) :
    0 <= PAGE_RENDER_WAIT cfg ->
    goto_result a = Ok tt ->
    current_url s = VStr url ->
    stage navigation (render_time cfg a + fallback_duration a) true
| stage_posted (url : string) (parsed_json : value) (target : string) :
    0 <= PAGE_RENDER_WAIT cfg ->
    goto_result a = Ok tt ->
    current_url s = VStr url ->
    extract_json_from_pre lib (loaded_page a) = Ok parsed_json ->
    find_submit_url_from_page lib (loaded_page a) url = Ok (Some target) ->
    target <> "" ->
    stage (navigation
             ++ [Post (attempt_no s) (now s + render_time cfg a) target
                   (submission_record email secret (VStr url)
                      (compute_answer_from_page lib (http_get a) (loaded_page a)
                         parsed_json))
                   (SUBMIT_TIMEOUT cfg)])%list
          (render_time cfg a + post_duration a) true.

(** The state [pre] in which the last part of the body starts: the loop
    variables are those of [s]. *)
Record reached (evs : list event) (elapsed : Z) (pre : loop_state) : Prop := {
  reached_trace : trace pre = (trace s ++ evs)%list;
  reached_now : now pre = now s + elapsed;
  reached_url : current_url pre = current_url s;
  reached_retries : retries_left pre = retries_left s;
  reached_answered : answered pre = answered s;
  reached_attempt_no : attempt_no pre = attempt_no s;
  reached_task_count : task_count pre = task_count s
}.

End Account.

(** The account of the last part of the body, from [s] to [s']: [brk] says
    that it set [answered] (the parts that end in [break]), [closed] that it
    called [page.close()]. An exception of [page.close()] is taken by the
    [except] clauses: one more retry unit, the backoff, and [continue]. *)
Record pass (a : attempt_env) (h : nat) (brk closed : bool)
  (s s' : loop_state) (p : exit_path) : Prop := {
  pass_trace :
    trace s' = (trace s ++ (if closed then [ClosePage h] else []))%list;
  pass_retries :
    retries_left s' = retries_left s - (if brk then 0 else 1)
                      - (if closed && close_fails a then 1 else 0);
  pass_answered : answered s' = (answered s || brk);
  pass_url : brk = false -> current_url s' = current_url s;
  pass_now :
    now s' = now s + (if closed then close_duration a else 0)
             + (if negb brk || (closed && close_fails a) then backoff else 0);
  pass_exit :
    if closed && close_fails a
    then p = RenderTimeout \/ p = PageException
    else is_break p = brk /\ consumes_retry p = negb brk
         /\ closes_page p = closed;
  pass_attempt_no : attempt_no s' = attempt_no s;
  pass_task_count : task_count s' = task_count s
}.

(** ** Notions used to state further properties of the helpers *)

(** Some character of [s] is a decimal digit. *)
Fixpoint has_digit (s : string) : bool :=
  match s with
  | EmptyString => false
  | String c s' => Text.is_digit c || has_digit s'
  end.

(** Every character of [s] satisfies [f]. *)
Fixpoint all_chars (f : ascii -> bool) (s : string) : bool :=
  match s with
  | EmptyString => true
  | String c s' => f c && all_chars f s'
  end.

(** [m] occurs in [s] as a run of consecutive characters. *)
Definition infix (m s : string) : Prop :=
  exists before after, s = (before ++ m ++ after)%string.

(** [m] is [http://] or [https://], in any letter case, followed by at least
    one character, none of them white space, a quote or an angle bracket. *)
Definition url_shaped (m : string) : Prop :=
  exists scheme rest,
    m = (scheme ++ rest)%string
    /\ (Text.lower scheme = "http://" \/ Text.lower scheme = "https://")
    /\ rest <> ""
    /\ all_chars Regex.url_char rest = true.

(** The text that [find_submit_url_from_page] scans: the body, or the empty
    text when reading it raises. *)
Definition submit_text (pg : page) : string :=
  match submit_body pg with
  | Ok t => t
  | Raise _ => ""
  end.


(** An anchor whose href the submit rule of [find_submit_url_from_page]
    passes over: the read returned, and the href is absent or lacks submit. *)
Definition not_a_submit_anchor (a : result (option string)) : Prop :=
  match a with
  | Ok None => True
  | Ok (Some h) => Text.contains "submit" (Text.lower h) = false
  | Raise _ => False
  end.

(** A second page whose table has the column but no number in it. *)
Definition text_only_page : pdf_page := {|
  extract_table :=
    Ok (Some [[Some "Item"; Some "Value"];
              [Some "a"; Some "n/a"];
              [Some "b"; None];
              [Some "c"]])
|}.

(** A library that opens every byte string as a cover page followed by
    [text_only_page]. *)
Definition text_only_lib : Externals := {|
  urlparse_hostname := Sample.hostname;
  urljoin := Sample.join;
  json_loads := Sample.loads;
  b64decode_utf8 := Sample.b64;
  pdf_open := fun _ => Ok [Sample.cover_page; text_only_page];
  float_of_string := Sample.to_float
|}.

(** A library whose documents differ in every page but the second. *)
Definition two_documents_lib : Externals := {|
  urlparse_hostname := Sample.hostname;
  urljoin := Sample.join;
  json_loads := Sample.loads;
  b64decode_utf8 := Sample.b64;
  pdf_open := fun b =>
    match b with
    | [] => Ok [Sample.cover_page; Sample.table_page]
    | _ => Ok [text_only_page; Sample.table_page; Sample.cover_page]
    end;
  float_of_string := Sample.to_float
|}.

(** ** Notions used to state further properties of the loop *)

(** The calls of an attempt to the browser and the network take no
    negative time. *)
Definition attempt_durations_nonneg (a : attempt_env) : Prop :=
  0 <= new_page_duration a
  /\ 0 <= set_default_timeout_duration a
  /\ 0 <= goto_duration a
  /\ 0 <= extract_duration a
  /\ 0 <= post_duration a
  /\ 0 <= fallback_duration a
  /\ 0 <= close_duration a.

(** No call to the browser or the network takes negative time. *)
Definition durations_nonneg (w : world) : Prop :=
  0 <= launch_duration w
  /\ forall k, attempt_durations_nonneg (attempt_envs w k).

(** The time of the calls one attempt can make to the browser and the
    network: an attempt either posts or reads the body again, not both. *)
Definition attempt_time (a : attempt_env) : Z :=
  new_page_duration a + set_default_timeout_duration a + goto_duration a
  + extract_duration a + Z.max (post_duration a) (fallback_duration a)
  + close_duration a.

(** The calls of every attempt take at most [d] milliseconds together. *)
Definition durations_within (w : world) (d : Z) : Prop :=
  forall k, attempt_time (attempt_envs w k) <= d.

(** The number of loop tests that are left at most, for a clock that moves
    by at least one millisecond per attempt. *)
Definition rank (deadline : Z) (m : location * loop_state) : nat :=
  let '(l, s) := m in
  let k := Z.to_nat (deadline - now s) in
  match l with
  | AfterLoops => 0
  | OuterTest => 3 * k + 2
  | InnerTest => if inner_test deadline s then 3 * k + 1 else 3 * k + 3
  end.

(** The navigations of a run, in order. *)
Fixpoint navigated (tr : list event) : list value :=
  match tr with
  | [] => []
  | Goto _ _ u :: rest => u :: navigated rest
  | _ :: rest => navigated rest
  end.

(** The number of times the browser is closed. *)
Fixpoint browser_closes (tr : list event) : nat :=
  match tr with
  | [] => 0
  | CloseBrowser :: rest => S (browser_closes rest)
  | _ :: rest => browser_closes rest
  end.

(** The default settings with a deadline of one second. *)
Definition short_config : config := {|
  SOLVE_DEADLINE_SECONDS := 1;
  PER_QUESTION_RETRIES := 2;
  SUBMIT_TIMEOUT := 25;
  PAGE_RENDER_WAIT := 800;
  PLAYWRIGHT_TIMEOUT_MS := 30000
|}.

(** The site is down: every navigation fails after 200 ms. *)
Definition refused : attempt_env := {|
  new_page_result := Ok tt;
  new_page_duration := 0;
  set_default_timeout_result := Ok tt;
  set_default_timeout_duration := 0;
  goto_result := Raise OtherException;
  goto_duration := 200;
  loaded_page := Sample.blank_page;
  extract_duration := 0;
  http_get := Sample.no_get;
  http_post := fun _ _ _ => Raise RequestException;
  post_duration := 0;
  fallback_duration := 0;
  close_result := Ok tt;
  close_duration := 0
|}.

Definition site_down_world : world := {|
  launch_result := Ok tt;
  launch_duration := 0;
  attempt_envs := fun _ => refused
|}.

(** A page without links whose text, the same at every read, holds no URL. *)
Definition dead_end : attempt_env :=
  Runs.graded Sample.page_17 1000 Runs.correct_last.

(** ** The HTTP endpoint [/api/quiz-solver] *)

(** What the browser does for one request of the endpoint. *)
Record quiz_env : Type := {
  (** [sync_playwright()], [p.chromium.launch(headless=True)] and
      [browser.new_page()] *)
  q_launch : result unit;
  (** [page.goto(quiz_url, timeout=30000)] *)
  q_goto : value -> result unit;
  (** [page.content()] *)
  q_content : result unit;
  (** [page.query_selector("#secret")], and [inner_text()] of the element *)
  q_secret : result (option (result string));
  (** [page.query_selector_all("table tr")]; for each row
      [row.query_selector("td.value")], and [inner_text()] of the cell *)
  q_rows : result (list (result (option (result string))));
  (** [page.query_selector("pre")], and [inner_text()] of the element *)
  q_pre : result (option (result string));
  (** [browser.close()] *)
  q_close : result unit
}.

(** What the endpoint does to the browser, in order. *)
Inductive quiz_event : Type :=
| QLaunch
| QGoto (url : value)
| QClose.

(** How the view function ends: with [jsonify(body), status], or with an
    exception that no handler of the view catches. *)
Inductive view_result : Type :=
| Reply (status : Z) (body : value)
| Unhandled.

(** ["secret" in data] for a string on the left: a key of a dict, an element
    of a list, a piece of a string; TypeError on anything else. *)
Definition py_in (k : string) (data : value) : result bool :=
  match data with
  | VDict d => Ok (match dict_lookup k d with Some _ => true | None => false end)
  | VList l => Ok (existsb (str_eq_value k) l)
  | VStr s => Ok (Text.contains k s)
  | _ => Raise OtherException
  end.

(** [data["secret"]] for a string index: the value of a dict; TypeError on a
    list or a string, KeyError on a missing key. *)
Definition py_getitem (data : value) (k : string) : result value :=
  match data with
  | VDict d =>
      match dict_lookup k d with
      | Some v => Ok v
      | None => Raise OtherException
      end
  | _ => Raise OtherException
  end.

(** [val.isdigit()] on the ASCII range. *)
Definition isdigit (val : string) : bool :=
  negb (String.length val =? 0)%nat && Regex.all_digits val.

Section Endpoint.

Variable lib : Externals.
(** [SECRET_VALUE], read from the environment when app.py is loaded. *)
Variable SECRET_VALUE : string.
(** [str(e)] *)
Variable message : exn -> string.
(** The builtin [sum] on a list of ints and floats. *)
Variable py_sum : list value -> result value.

(** The [for row in table_rows[1:]] loop: the numbers of the cells
    [td.value]. A raising query leaves the [try] of the view. *)
Fixpoint collect_numbers (rows : list (result (option (result string))))
  : result (list value) :=
  match rows with
  | [] => Ok []
  | Raise e :: _ => Raise e
  | Ok None :: rest => collect_numbers rest
  | Ok (Some (Raise e)) :: _ => Raise e
  | Ok (Some (Ok inner_text)) :: rest =>
      let val := Text.strip inner_text in
      match collect_numbers rest with
      | Raise e => Raise e
      | Ok numbers =>
          if isdigit val then Ok (VInt (int_of_string val) :: numbers)
          else match float_of_string lib val with
               | Some f => Ok (VFloat f :: numbers)
               | None => Ok numbers
               end
      end
  end.

(** Step 3 of the view: the answer of a [pre] element that holds JSON. *)
Definition pre_answer (pre_text : result string) : value :=
  match pre_text with
  | Raise _ => VNone
  | Ok t =>
      match json_loads lib t with
      | Some (VDict d) =>
          match dict_lookup "answer" d with
          | Some v => v
          | None => VStr "unknown"
          end
      | _ => VNone
      end
  end.

(** The body of [with sync_playwright() as p:], after the navigation: the
    answer, or the exception that leaves the [try]. *)
Definition quiz_answer (q : quiz_env) : result value :=
  match q_content q with
  | Raise e => Raise e
  | Ok _ =>
  match q_secret q with
  | Raise e => Raise e
  | Ok (Some (Raise e)) => Raise e
  | Ok secret_elem =>
      let answer1 :=
        match secret_elem with
        | Some (Ok t) => VStr (Text.strip t)
        | _ => VNone
        end in
      match q_rows q with
      | Raise e => Raise e
      | Ok table_rows =>
          let after_table :=
            match table_rows with
            | [] => Ok answer1
            | _ :: body_rows =>
                match collect_numbers body_rows with
                | Raise e => Raise e
                | Ok [] => Ok answer1
                | Ok numbers => py_sum numbers
                end
            end in
          match after_table with
          | Raise e => Raise e
          | Ok VNone =>
              match q_pre q with
              | Raise e => Raise e
              | Ok (Some pre_text) => Ok (pre_answer pre_text)
              | Ok None => Ok VNone
              end
          | Ok answer2 => Ok answer2
          end
      end
  end
  end.

Definition error_body (text : string) : value := VDict [("error", VStr text)].

(** The [try] block of the view with its handler. *)
Definition render_quiz (q : quiz_env) (data : list (string * value))
  (quiz_url : value) : view_result * list quiz_event :=
  match q_launch q with
  | Raise e => (Reply 500 (error_body (message e)), [QLaunch])
  | Ok _ =>
      match q_goto q quiz_url with
      | Raise e => (Reply 500 (error_body (message e)), [QLaunch; QGoto quiz_url])
      | Ok _ =>
          match quiz_answer q with
          | Raise e =>
              (Reply 500 (error_body (message e)), [QLaunch; QGoto quiz_url])
          | Ok answer =>
              match q_close q with
              | Raise e =>
                  (Reply 500 (error_body (message e)),
                   [QLaunch; QGoto quiz_url; QClose])
              | Ok _ =>
                  (Reply 200
                     (VDict [("email", dict_get "email" data);
                             ("secret", VStr SECRET_VALUE);
                             ("url", quiz_url);
                             ("answer", answer)]),
                   [QLaunch; QGoto quiz_url; QClose])
              end
          end
      end
  end.

(** [get_json] is what [request.get_json()] does for the request. *)
Definition solve_quiz (get_json : result value) (q : quiz_env)
  : view_result * list quiz_event :=
  match get_json with
  | Raise _ => (Reply 400 (error_body "Invalid JSON"), [])
  | Ok data =>
      match py_in "secret" data with
      | Raise _ => (Unhandled, [])
      | Ok false => (Reply 403 (error_body "Forbidden"), [])
      | Ok true =>
          match py_getitem data "secret" with
          | Raise _ => (Unhandled, [])
          | Ok given =>
              if negb (str_eq_value SECRET_VALUE given)
              then (Reply 403 (error_body "Forbidden"), [])
              else
                match py_in "url" data with
                | Raise _ => (Unhandled, [])
                | Ok false => (Reply 400 (error_body "Missing URL"), [])
                | Ok true =>
                    match data, py_getitem data "url" with
                    | VDict d, Ok quiz_url => render_quiz q d quiz_url
                    | _, _ => (Unhandled, [])
                    end
                end
          end
      end
  end.

End Endpoint.

(** A page with a table whose [td.value] cells hold 3 and 4, and an element
    [#secret]. *)
Definition table_env : quiz_env := {|
  q_launch := Ok tt;
  q_goto := fun _ => Ok tt;
  q_content := Ok tt;
  q_secret := Ok (Some (Ok " open sesame "));
  q_rows := Ok [Ok None; Ok (Some (Ok "3")); Ok (Some (Ok " 4 ")); Ok (Some (Ok "n/a"))];
  q_pre := Ok None;
  q_close := Ok tt
|}.

(** The sum of a list of ints. *)
Definition sum_ints (numbers : list value) : result value :=
  Ok (VInt (fold_left (fun acc v => match v with VInt z => acc + z | _ => acc end)
              numbers 0)).

Definition no_message (e : exn) : string := "error".

Definition good_request : value :=
  VDict [("email", VStr "me@example.org"); ("secret", VStr "s3cret");
         ("url", VStr "http://127.0.0.1:9999/quiz")].

(** ** Notions used to state what a run posts *)

(** Every POST of [tr] goes to a target that is not empty, with the timeout
    [timeout], and carries the record of [email], [secret], the URL that the
    same page handle was sent to, and an answer. *)
Definition well_posted (email secret : string) (timeout : Z) (tr : list event)
  : Prop :=
  Forall (fun ev =>
            match ev with
            | Post h _ target payload tmo =>
                target <> ""
                /\ tmo = timeout
                /\ exists url t0 answer,
                     In (Goto h t0 (VStr url)) tr
                     /\ payload = submission_record email secret (VStr url) answer
            | _ => True
            end) tr.

(** The number of POSTs made through the page handle [h]. *)
Fixpoint posts_of (h : nat) (tr : list event) : nat :=
  match tr with
  | [] => 0
  | Post h' _ _ _ _ :: rest =>
      if Nat.eqb h' h then S (posts_of h rest) else posts_of h rest
  | _ :: rest => posts_of h rest
  end.

(** Every download gives a document that starts with [%PDF]. *)
Definition pdf_get (url : string) : result response :=
  Ok {| status_code := 200; content := Sample.pdf_magic; text := ""; json := None |}.

(** [{"correct": true, "url": "http://127.0.0.1:8080/admin"}] *)
Definition correct_with_local_next : response :=
  Runs.json_response
    ("{" ++ Runs.q "correct" ++ ": true, " ++ Runs.q "url" ++ ": "
         ++ Runs.q "http://127.0.0.1:8080/admin" ++ "}")
    (VDict [("correct", VBool true); ("url", VStr "http://127.0.0.1:8080/admin")]).

(** The grader accepts every answer and sends the solver to a local URL. *)
Definition inward_world : world := {|
  launch_result := Ok tt;
  launch_duration := 0;
  attempt_envs := fun _ => Runs.graded Runs.quiz_page 1000 correct_with_local_next
|}.

(** * Properties *)

(** ** The regular expressions on sample text *)

Example search_url_ex :
  Regex.search_url "see http://a.b/c?d=1 and https://x" = Some "http://a.b/c?d=1".
Proof. reflexivity. Qed.

Example search_url_none : Regex.search_url "no link: http:// here" = None.
Proof. reflexivity. Qed.

Example search_submit_url_ex :
  Regex.search_submit_url "go to http://a/b then HTTPS://h/Submit?x <b>"
  = Some "HTTPS://h/Submit?x".
Proof. reflexivity. Qed.

Example search_number_ex :
  Regex.search_number "The result is 17 items" = Some "17".
Proof. reflexivity. Qed.

Example search_number_decimal :
  Regex.search_number "about -12.50. or so" = Some "-12.50".
Proof. reflexivity. Qed.

Example search_number_dot : Regex.search_number "x+3.y" = Some "+3".
Proof. reflexivity. Qed.

Example int_of_string_ex : int_of_string "-017" = -17.
Proof. reflexivity. Qed.


(** ** Loopback rejection *)

Lemma is_localhost_url_hostname (lib : Externals) (url h : string) :
  urlparse_hostname lib url = Ok (Some h) ->
  In (Text.lower h) ["localhost"; "127.0.0.1"; "::1"] \/
    Text.endswith ".local" (Text.lower h) = true ->
  is_localhost_url lib url = true.
Proof.
  intros Hparse Hlocal. unfold is_localhost_url. rewrite Hparse.
  destruct Hlocal as [Hin | Hend].
  - assert (Hex : existsb (String.eqb (Text.lower h))
                    ["localhost"; "127.0.0.1"; "::1"] = true).
    { apply existsb_exists. exists (Text.lower h). split; [exact Hin|].
      apply String.eqb_refl. }
    now rewrite Hex.
  - rewrite Hend. now destruct (existsb _ _).
Qed.

(** C2: when the host name of the start URL is localhost, 127.0.0.1 or ::1,
    or ends in .local, the run is aborted at once and has no effect at all:
    the browser is not started, no page is opened and no request is sent. *)
Theorem local_start_url_aborts
  (lib : Externals) (cfg : config) (w : world)
  (email secret start_url : string) (start_time : Z) (fuel : nat) (h : string) :
  urlparse_hostname lib start_url = Ok (Some h) ->
  In (Text.lower h) ["localhost"; "127.0.0.1"; "::1"] \/
    Text.endswith ".local" (Text.lower h) = true ->
  solve_and_submit_loop lib cfg w email secret start_url start_time fuel = Aborted
  /\ effects (solve_and_submit_loop lib cfg w email secret start_url start_time fuel)
     = [].
Proof.
  intros Hparse Hlocal.
  assert (Hrun : solve_and_submit_loop lib cfg w email secret start_url
                   start_time fuel = Aborted).
  { unfold solve_and_submit_loop.
    now rewrite (is_localhost_url_hostname lib start_url h Hparse Hlocal). }
  rewrite Hrun. split; reflexivity.
Qed.

Lemma local_start_url_aborts_sample :
  urlparse_hostname Sample.lib "http://127.0.0.1:9999/quiz" = Ok (Some "127.0.0.1")
  /\ solve_and_submit_loop Sample.lib default_config Runs.slow_world
       "me@example.org" "s3cret" "http://127.0.0.1:9999/quiz" 0 12 = Aborted
  /\ effects (solve_and_submit_loop Sample.lib default_config Runs.slow_world
                "me@example.org" "s3cret" "http://127.0.0.1:9999/quiz" 0 12) = [].
Proof.
  split; [reflexivity|].
  apply (local_start_url_aborts Sample.lib default_config Runs.slow_world
           "me@example.org" "s3cret" "http://127.0.0.1:9999/quiz" 0 12
           "127.0.0.1" eq_refl).
  left. right. left. reflexivity.
Defined.

Example printer_local_is_rejected :
  is_localhost_url Sample.lib "https://Printer.LOCAL/queue" = true.
Proof. reflexivity. Qed.

Example public_host_is_accepted :
  is_localhost_url Sample.lib "https://quiz.example/q1" = false.
Proof. reflexivity. Qed.

(** ** The structured block of a page *)

(** C10, as stated, fails on a [pre] element that holds the text null: the
    page has a [pre] element, the direct parse succeeds, and the function
    returns null. *)
Lemma pre_holding_null_returns_null :
  extract_json_from_pre Sample.lib (Sample.page_with_pre " null ") = Ok VNone
  /\ pre_query (Sample.page_with_pre " null ") = Ok (Some (Ok " null "))
  /\ json_loads Sample.lib (Text.strip " null ") = Some VNone.
Proof. repeat split. Qed.

(** C10, amended: once the [pre] query and the read of its text have
    returned, the function returns a value without raising. It is the direct
    parse of the stripped text when that succeeds, and otherwise the parse of
    the base64-decoded text when that succeeds. It is null only when there
    is no [pre] element, when both parses fail, or when the parse that
    succeeded gave null itself. *)
Theorem extract_json_from_pre_spec (lib : Externals) (pg : page) :
  pre_readable pg ->
  exists v,
    extract_json_from_pre lib pg = Ok v
    /\ (forall txt direct,
          pre_query pg = Ok (Some (Ok txt)) ->
          json_loads lib (Text.strip txt) = Some direct ->
          v = direct)
    /\ (forall txt decoded from_decoded,
          pre_query pg = Ok (Some (Ok txt)) ->
          json_loads lib (Text.strip txt) = None ->
          b64decode_utf8 lib (Text.strip txt) = Some decoded ->
          json_loads lib decoded = Some from_decoded ->
          v = from_decoded)
    /\ (v = VNone ->
        pre_query pg = Ok None
        \/ exists txt,
             pre_query pg = Ok (Some (Ok txt))
             /\ (both_parses_fail lib (Text.strip txt)
                 \/ json_loads lib (Text.strip txt) = Some VNone
                 \/ exists decoded,
                      json_loads lib (Text.strip txt) = None
                      /\ b64decode_utf8 lib (Text.strip txt) = Some decoded
                      /\ json_loads lib decoded = Some VNone)).
Proof.
  unfold pre_readable, extract_json_from_pre, both_parses_fail.
  destruct (pre_query pg) as [[[txt | e] | ] | e]; intros Hread;
    try contradiction.
  - destruct (json_loads lib (Text.strip txt)) as [direct | ] eqn:Hdirect.
    + exists direct. repeat split.
      * intros ? ? [= <-] Heq. congruence.
      * intros ? ? ? [= <-] Heq. congruence.
      * intros ->. right. exists txt. split; [reflexivity|]. right. now left.
    + destruct (b64decode_utf8 lib (Text.strip txt)) as [decoded | ] eqn:Hb64.
      * destruct (json_loads lib decoded) as [v | ] eqn:Hdec.
        -- exists v. repeat split.
           ++ intros ? ? [= <-] Heq. congruence.
           ++ intros ? ? ? [= <-] _ Heq1 Heq2. congruence.
           ++ intros ->. right. exists txt. split; [reflexivity|].
              right. right. exists decoded. auto.
        -- exists VNone. repeat split.
           ++ intros ? ? [= <-] Heq. congruence.
           ++ intros ? ? ? [= <-] _ Heq1 Heq2. congruence.
           ++ intros _. right. exists txt. split; [reflexivity|]. left.
              split; [assumption|]. intros d Hd. congruence.
      * exists VNone. repeat split.
        -- intros ? ? [= <-] Heq. congruence.
        -- intros ? ? ? [= <-] _ Heq1 Heq2. congruence.
        -- intros _. right. exists txt. split; [reflexivity|]. left.
           split; [assumption|]. intros d Hd. congruence.
  - exists VNone. repeat split; try discriminate. intros _. now left.
Qed.

Lemma extract_json_from_pre_base64 :
  pre_readable (Sample.page_with_pre "eyJhbnN3ZXIiOiA0Mn0=")
  /\ extract_json_from_pre Sample.lib (Sample.page_with_pre "eyJhbnN3ZXIiOiA0Mn0=")
     = Ok (VDict [("answer", VInt 42)]).
Proof.
  split; [exact I|].
  destruct (extract_json_from_pre_spec Sample.lib
              (Sample.page_with_pre "eyJhbnN3ZXIiOiA0Mn0=") I)
    as [v [Hv [_ [Hdec _]]]].
  rewrite Hv. f_equal.
  apply (Hdec "eyJhbnN3ZXIiOiA0Mn0=" Sample.answer_42_text); reflexivity.
Defined.

(** ** The answer extractor *)

Lemma numeric_fallback_not_null (lib : Externals) (pg : page) :
  numeric_fallback lib pg <> VNone.
Proof.
  unfold numeric_fallback.
  destruct (Regex.search_number _) as [v | ]; [|discriminate].
  destruct (Regex.fullmatch_int v); [discriminate|].
  destruct (float_of_string lib v); discriminate.
Qed.

Lemma first_non_null_last (v fallback : value) :
  fallback <> VNone ->
  first_non_null [v; fallback] = match v with VNone => fallback | _ => v end.
Proof. intros Hnn. destruct v, fallback; simpl; congruence. Qed.

Lemma pdf_links_then_numeric_first_non_null
  (lib : Externals) (http_get : string -> result response) (pg : page) :
  pdf_links_then_numeric lib http_get pg =
  first_non_null
    [match answer_anchors pg with
     | Ok anchors =>
         match first_pdf_anchor_value lib http_get (page_url pg) anchors with
         | Some val => VFloat val
         | None => VNone
         end
     | Raise _ => VNone
     end;
     numeric_fallback lib pg].
Proof.
  rewrite first_non_null_last by apply numeric_fallback_not_null.
  unfold pdf_links_then_numeric.
  destruct (answer_anchors pg) as [anchors | e]; [|reflexivity].
  now destruct (first_pdf_anchor_value lib http_get (page_url pg) anchors).
Qed.

(** C5, as stated, fails on a document whose structured object has an
    answer field holding null and whose body shows the number 17: the
    function returns null, while the first result that is not null among
    the three strategies is 17. *)
Lemma null_answer_field_is_returned :
  compute_answer_from_page Sample.lib Sample.no_get Sample.page_17
    (VDict [("answer", VNone)]) = VNone
  /\ first_non_null_strategy Sample.lib Sample.no_get Sample.page_17
       (VDict [("answer", VNone)]) = VInt 17.
Proof. split; reflexivity. Qed.

(** C5, amended: the strategies are tried in the fixed order structured
    answer, linked PDF file, textual numeric fallback. When the structured
    object has an answer field its value is returned as it is, null
    included, whatever the links and the body text are; otherwise the first
    result that is not null among the linked file and the textual fallback
    is returned. So the function agrees with first-non-null-wins on every
    document whose answer field is not null. *)
Theorem compute_answer_from_page_priority
  (lib : Externals) (http_get : string -> result response)
  (pg : page) (parsed_json : value) :
  compute_answer_from_page lib http_get pg parsed_json =
    match field "answer" parsed_json with
    | Some answer => answer
    | None =>
        first_non_null [linked_file_answer lib http_get pg parsed_json;
                        numeric_fallback lib pg]
    end
  /\ (field "answer" parsed_json <> Some VNone ->
      compute_answer_from_page lib http_get pg parsed_json =
      first_non_null_strategy lib http_get pg parsed_json).
Proof.
  assert (Heq : compute_answer_from_page lib http_get pg parsed_json =
    match field "answer" parsed_json with
    | Some answer => answer
    | None =>
        first_non_null [linked_file_answer lib http_get pg parsed_json;
                        numeric_fallback lib pg]
    end).
  { unfold compute_answer_from_page, linked_file_answer, field.
    destruct parsed_json as [ | b | z | f | s | l | d];
      try apply pdf_links_then_numeric_first_non_null.
    destruct (dict_lookup "answer" d) as [answer | ]; [reflexivity|].
    destruct (dict_lookup "url" d) as [[ | b | z | f | u | l | d'] | ];
      try apply pdf_links_then_numeric_first_non_null.
    destruct (Text.endswith ".pdf" (Text.lower u));
      [|apply pdf_links_then_numeric_first_non_null].
    destruct (pdf_value lib http_get (Ok u)) as [val | ];
      [reflexivity|apply pdf_links_then_numeric_first_non_null]. }
  split; [exact Heq|].
  intros Hnn. rewrite Heq. unfold first_non_null_strategy, structured_answer.
  destruct (field "answer" parsed_json) as [answer | ]; [|reflexivity].
  destruct answer; try reflexivity. congruence.
Qed.

(** The structured value wins over a numeric token in the body. *)
Example structured_answer_beats_body :
  compute_answer_from_page Sample.lib Sample.no_get Sample.page_17
    (VDict [("answer", VInt 42)]) = VInt 42.
Proof. reflexivity. Qed.

Example numeric_fallback_17 :
  compute_answer_from_page Sample.lib Sample.no_get Sample.page_17 VNone = VInt 17.
Proof. reflexivity. Qed.

(** ** The PDF handler *)

Lemma index_of_none (x : string) (l : list string) :
  index_of x l = None <-> ~ In x l.
Proof.
  induction l as [ | h t IH]; simpl.
  - tauto.
  - destruct (String.eqb_spec h x) as [-> | Hne].
    + split; [discriminate|]. intros Hn. exfalso. apply Hn. now left.
    + destruct (index_of x t) as [i | ].
      * split; [discriminate|]. intros Hn. exfalso.
        assert (Hnt : ~ In x t) by tauto.
        apply IH in Hnt. discriminate.
      * split; [|reflexivity]. intros _ [Heq | Hin]; [congruence|].
        now apply IH in Hin.
Qed.

Lemma index_of_first (x : string) (l : list string) (idx : nat) :
  nth_error l idx = Some x ->
  (forall j, (j < idx)%nat -> nth_error l j <> Some x) ->
  index_of x l = Some idx.
Proof.
  revert idx. induction l as [ | h t IH]; intros idx Hnth Hfirst.
  - destruct idx; discriminate.
  - simpl. destruct (String.eqb_spec h x) as [-> | Hne].
    + destruct idx as [ | idx]; [reflexivity|].
      exfalso. apply (Hfirst O); [lia|reflexivity].
    + destruct idx as [ | idx]; simpl in Hnth; [congruence|].
      rewrite (IH idx Hnth); [reflexivity|].
      intros j Hj. apply (Hfirst (S j)). lia.
Qed.

Lemma fold_add_cell (lib : Externals) (idx : nat)
  (rows : list (list (option string))) (acc : float) :
  fold_left (add_cell lib idx) rows acc =
  fold_left PrimFloat.add (numeric_cells lib idx rows) acc.
Proof.
  revert acc. induction rows as [ | row rest IH]; intros acc; simpl.
  - reflexivity.
  - unfold add_cell at 2.
    destruct (nth_error row idx) as [[v | ] | ]; try apply IH.
    destruct (float_of_string lib _) as [x | ]; simpl; apply IH.
Qed.

(** C6, as stated, fails on bytes that are not a document: opening them
    raises, nothing in the function catches that, and the function raises. *)
Lemma sum_values_on_pdf_page2_raises :
  sum_values_on_pdf_page2 Sample.lib [] "value" = Raise OtherException.
Proof. reflexivity. Qed.

(** C6, amended: whenever the bytes open as a document, the function returns
    without raising. It looks at the second page only (index 1), returns
    null when there are fewer than two pages, when that page gives no table
    (also when extracting it raises) and when no header equals the column
    name up to letter case; otherwise it returns the sum, from 0.0, of the
    cells of the first matching column that parse as numbers once commas
    are removed and white space is stripped, the other cells being skipped.
    An exception raised while the bytes are opened is not caught here; the
    callers catch it. *)
Theorem sum_values_on_pdf_page2_spec
  (lib : Externals) (pdf_bytes : bytes) (column_name : string)
  (pages : list pdf_page) :
  pdf_open lib pdf_bytes = Ok pages ->
  exists r,
    sum_values_on_pdf_page2 lib pdf_bytes column_name = Ok r
    /\ ((List.length pages < 2)%nat -> r = None)
    /\ (forall pg,
          nth_error pages 1 = Some pg ->
          ((extract_table pg = Ok None \/ extract_table pg = Ok (Some [])
            \/ exists e, extract_table pg = Raise e) -> r = None)
          /\ (forall headers rows,
                extract_table pg = Ok (Some (headers :: rows)) ->
                ((forall h, In h headers ->
                            header_key h <> Text.lower column_name) ->
                 r = None)
                /\ (forall idx,
                      nth_error (map header_key headers) idx
                        = Some (Text.lower column_name) ->
                      (forall j, (j < idx)%nat ->
                                 nth_error (map header_key headers) j
                                   <> Some (Text.lower column_name)) ->
                      r = Some (float_sum (numeric_cells lib idx rows))))).
Proof.
  intros Hopen. unfold sum_values_on_pdf_page2. rewrite Hopen.
  destruct (Nat.ltb_spec (List.length pages) 2) as [Hshort | Hlong].
  - exists None. split; [reflexivity|]. split; [reflexivity|].
    intros pg Hpg. exfalso.
    assert (Hlt : (1 < List.length pages)%nat).
    { apply nth_error_Some. congruence. }
    lia.
  - destruct (nth_error pages 1) as [pg | ] eqn:Hpg.
    2:{ apply nth_error_None in Hpg. lia. }
    fold header_key.
    change (fun h : option string =>
              match h with Some h' => Text.lower h' | None => "" end)
      with header_key.
    destruct (extract_table pg) as [[[ | headers rows] | ] | e] eqn:Htable.
    + exists None. split; [reflexivity|]. split; [lia|].
      intros pg' [= <-]. split; [reflexivity|].
      intros headers rows Heq. congruence.
    + destruct (index_of (Text.lower column_name) (map header_key headers))
        as [idx | ] eqn:Hidx.
      * exists (Some (fold_left (add_cell lib idx) rows 0%float)).
        split; [reflexivity|]. split; [lia|].
        intros pg' [= <-]. split.
        { intros [Heq | [Heq | [e Heq]]]; congruence. }
        intros headers' rows' Heq.
        assert (headers' = headers /\ rows' = rows) as [-> ->]
          by (split; congruence).
        split.
        { intros Hnone. exfalso.
          assert (Hin : ~ In (Text.lower column_name) (map header_key headers)).
          { intros Hin. apply in_map_iff in Hin as [h [Hkey Hh]].
            exact (Hnone h Hh Hkey). }
          apply index_of_none in Hin. congruence. }
        intros idx' Hnth Hfirst.
        rewrite (index_of_first _ _ idx' Hnth Hfirst) in Hidx.
        injection Hidx as <-. unfold float_sum.
        now rewrite fold_add_cell.
      * exists None. split; [reflexivity|]. split; [lia|].
        intros pg' [= <-]. split; [reflexivity|].
        intros headers' rows' Heq.
        assert (headers' = headers /\ rows' = rows) as [-> ->]
          by (split; congruence).
        split; [reflexivity|].
        intros idx' Hnth Hfirst.
        rewrite (index_of_first _ _ idx' Hnth Hfirst) in Hidx. discriminate.
    + exists None. split; [reflexivity|]. split; [lia|].
      intros pg' [= <-]. split; [reflexivity|].
      intros headers rows Heq. congruence.
    + exists None. split; [reflexivity|]. split; [lia|].
      intros pg' [= <-]. split; [reflexivity|].
      intros headers rows Heq. congruence.
Qed.

Lemma sum_values_on_pdf_page2_sample :
  pdf_open Sample.lib Sample.pdf_magic = Ok [Sample.cover_page; Sample.table_page]
  /\ sum_values_on_pdf_page2 Sample.lib Sample.pdf_magic "VALUE" = Ok (Some 1234%float).
Proof.
  split; [reflexivity|].
  destruct (sum_values_on_pdf_page2_spec Sample.lib Sample.pdf_magic "VALUE"
              [Sample.cover_page; Sample.table_page] eq_refl)
    as [r [Hr [_ Hpage]]].
  rewrite Hr. f_equal.
  destruct (Hpage Sample.table_page eq_refl) as [_ Htable].
  destruct (Htable _ _ eq_refl) as [_ Hsum].
  rewrite (Hsum 1%nat); [reflexivity|reflexivity|].
  intros j Hj. destruct j as [ | j]; [discriminate|lia].
Defined.
(** ** One attempt *)

(** Solves a goal [reached s evs elapsed pre] for a state [pre] that is
    written out. *)
Ltac prove_reached :=
  split; simpl; unfold navigation, render_time, open_time;
  rewrite ?app_nil_r, <- ?app_assoc; simpl;
  try reflexivity; try lia; try congruence;
  repeat (f_equal; try lia; try congruence).

Section Attempt.

Variable lib : Externals.
Variable cfg : config.
Variable email secret : string.
Variable deadline : Z.

Lemma on_exception_label (e : exn) (s : loop_state) :
  snd (on_exception e s) = RenderTimeout \/ snd (on_exception e s) = PageException.
Proof. unfold on_exception; simpl. destruct (exn_eqb e PWTimeoutError); auto. Qed.

Lemma pass_on_exception (a : attempt_env) (h : nat) (e : exn) (s : loop_state) :
  pass a h false false s (fst (on_exception e s)) (snd (on_exception e s)).
Proof.
  unfold on_exception; simpl.
  split; simpl; rewrite ?app_nil_r, ?orb_false_r; try reflexivity; try lia.
  now destruct (exn_eqb e PWTimeoutError).
Qed.

Lemma pass_retry_same (a : attempt_env) (h : nat) (p : exit_path) (s : loop_state) :
  is_break p = false -> consumes_retry p = true -> closes_page p = true ->
  pass a h false true s (fst (retry_same a h p s)) (snd (retry_same a h p s)).
Proof.
  intros Hb Hc Hcl. unfold retry_same.
  assert (Hcf : close_fails a
                = match close_result a with Ok _ => false | Raise _ => true end)
    by reflexivity.
  destruct (close_result a) as [[] | e]; split; simpl;
    rewrite ?Hcf, ?orb_false_r; try reflexivity; try lia; try (now repeat split).
  destruct (exn_eqb e PWTimeoutError); [now left|now right].
Qed.

Lemma pass_leave_task (a : attempt_env) (h : nat) (u : value) (p : exit_path)
  (s : loop_state) :
  is_break p = true ->
  pass a h true true s (fst (leave_task a h u p s)) (snd (leave_task a h u p s)).
Proof.
  intros Hb. unfold leave_task.
  assert (Hcf : close_fails a
                = match close_result a with Ok _ => false | Raise _ => true end)
    by reflexivity.
  destruct (close_result a) as [[] | e]; split; simpl;
    rewrite ?Hcf, ?orb_true_r; try reflexivity; try lia; try discriminate.
  - destruct p; try discriminate; now repeat split.
  - destruct (exn_eqb e PWTimeoutError); [now left|now right].
Qed.

Lemma pass_handle_response (a : attempt_env) (h : nat) (resp_json : value)
  (s : loop_state) :
  exists brk,
    pass a h brk true s (fst (handle_response deadline a h resp_json s))
      (snd (handle_response deadline a h resp_json s)).
Proof.
  unfold handle_response.
  repeat match goal with
         | |- context [if ?c then _ else _] => destruct c
         end;
    ((exists false; apply pass_retry_same; reflexivity)
     || (exists true; apply pass_leave_task; reflexivity)).
Qed.

Lemma pass_next_url_fallback (a : attempt_env) (h : nat) (s : loop_state) :
  exists brk closed,
    pass a h brk closed (tick (fallback_duration a) s)
      (fst (next_url_fallback a h s)) (snd (next_url_fallback a h s)).
Proof.
  unfold next_url_fallback.
  destruct (fallback_body (loaded_page a)) as [body | e].
  - exists true, true.
    destruct (Regex.search_url _) as [candidate | ].
    + destruct (str_eq_value candidate _); apply pass_leave_task; reflexivity.
    + apply pass_leave_task; reflexivity.
  - exists false, false. apply pass_on_exception.
Qed.

(** The account of one pass through the body: how far it got, and what its
    last part did. *)
Lemma attempt_account (a : attempt_env) (s : loop_state) :
  exists evs elapsed late brk closed pre,
    stage lib cfg email secret a s evs elapsed late
    /\ reached s evs elapsed pre
    /\ (late = false -> brk = false /\ closed = false)
    /\ pass a (attempt_no s) brk closed pre
         (fst (attempt lib cfg email secret deadline a s))
         (snd (attempt lib cfg email secret deadline a s)).
Proof.
  set (h := attempt_no s).
  assert (Hfail : forall evs elapsed pre e,
    stage lib cfg email secret a s evs elapsed false ->
    reached s evs elapsed pre ->
    exists evs elapsed late brk closed pre0,
      stage lib cfg email secret a s evs elapsed late
      /\ reached s evs elapsed pre0
      /\ (late = false -> brk = false /\ closed = false)
      /\ pass a h brk closed pre0 (fst (on_exception e pre))
           (snd (on_exception e pre))).
  { intros evs elapsed pre e Hst Hre.
    exists evs, elapsed, false, false, false, pre.
    split; [exact Hst|]. split; [exact Hre|]. split; [now split|].
    apply pass_on_exception. }
  unfold attempt, render_and_submit. fold h.
  destruct (new_page_result a) as [[] | e] eqn:Hpage.
  2:{ eapply Hfail; [now apply (stage_no_page _ _ _ _ _ _ e)|prove_reached]. }
  destruct (set_default_timeout_result a) as [[] | e] eqn:Htimeout.
  2:{ eapply Hfail; [now apply (stage_page _ _ _ _ _ _ e)|prove_reached]. }
  cbn [current_url emit tick].
  destruct (current_url s) as [ | b | z | f | url | l | d] eqn:Hurl;
    try (eapply Hfail; [apply stage_goto_refused|prove_reached]).
  destruct (goto_result a) as [[] | e] eqn:Hgoto.
  2:{ eapply Hfail; [apply stage_goto|prove_reached]. }
  destruct (Z.ltb_spec (PAGE_RENDER_WAIT cfg) 0) as [Hw | Hw].
  { eapply Hfail; [apply stage_goto|prove_reached]. }
  set (s1 := tick (extract_duration a) _).
  assert (Hs1 : reached s (navigation a s) (render_time cfg a) s1)
    by (subst s1; prove_reached).
  clearbody s1.
  assert (Hfb : exists evs elapsed late brk closed pre,
    stage lib cfg email secret a s evs elapsed late
    /\ reached s evs elapsed pre
    /\ (late = false -> brk = false /\ closed = false)
    /\ pass a h brk closed pre (fst (next_url_fallback a h s1))
         (snd (next_url_fallback a h s1))).
  { destruct (pass_next_url_fallback a h s1) as [brk [closed Hpass]].
    exists (navigation a s), (render_time cfg a + fallback_duration a), true,
      brk, closed, (tick (fallback_duration a) s1).
    split; [now apply (stage_fallback lib cfg email secret a s url)|].
    split; [|split; [discriminate|exact Hpass]].
    destruct Hs1. split; simpl; try assumption. lia. }
  destruct (extract_json_from_pre lib (loaded_page a)) as [parsed_json | e] eqn:Hjson.
  2:{ apply Hfail with (evs := navigation a s) (elapsed := render_time cfg a);
        [now apply stage_rendered|exact Hs1]. }
  destruct (find_submit_url_from_page lib (loaded_page a) url)
    as [[target | ] | e] eqn:Hfind.
  - destruct (target =? "")%string eqn:Htarget.
    + destruct (next_url_fallback a h s1) as [s' p]. exact Hfb.
    + apply String.eqb_neq in Htarget.
      set (payload := submission_record email secret _ _).
      set (s2 := tick (post_duration a)
                   (emit (Post h (now s1) target payload (SUBMIT_TIMEOUT cfg)) s1)).
      assert (Hst2 : stage lib cfg email secret a s
                (navigation a s
                 ++ [Post h (now s + render_time cfg a) target
                       (submission_record email secret (VStr url)
                          (compute_answer_from_page lib (http_get a)
                             (loaded_page a) parsed_json))
                       (SUBMIT_TIMEOUT cfg)])%list
                (render_time cfg a + post_duration a) true)
        by now apply stage_posted.
      assert (Hs2 : reached s
                (navigation a s
                 ++ [Post h (now s + render_time cfg a) target
                       (submission_record email secret (VStr url)
                          (compute_answer_from_page lib (http_get a)
                             (loaded_page a) parsed_json))
                       (SUBMIT_TIMEOUT cfg)])%list
                (render_time cfg a + post_duration a) s2).
      { destruct Hs1 as [Htr Hnow Hcur Hre Han Hno Htc].
        subst s2 payload. split; simpl; try assumption; try lia.
        rewrite Htr, <- app_assoc, Hnow, ?Hcur. reflexivity. }
      destruct (submit_answer_json _ _ _ _) as [resp_json | e].
      * destruct (pass_handle_response a h resp_json s2) as [brk Hpass].
        do 2 eexists. exists true, brk, true, s2.
        split; [exact Hst2|]. split; [exact Hs2|].
        split; [discriminate|exact Hpass].
      * destruct (exn_eqb e RequestException).
        -- pose proof (pass_retry_same a h SubmitFailed s2 eq_refl eq_refl eq_refl)
             as Hpass.
           destruct (retry_same a h SubmitFailed s2) as [s' p].
           do 2 eexists. exists true, false, true, s2.
           split; [exact Hst2|]. split; [exact Hs2|].
           split; [discriminate|exact Hpass].
        -- do 2 eexists. exists true, false, false, s2.
           split; [exact Hst2|]. split; [exact Hs2|].
           split; [discriminate|]. apply pass_on_exception.
  - destruct (next_url_fallback a h s1) as [s' p]. exact Hfb.
  - apply Hfail with (evs := navigation a s) (elapsed := render_time cfg a);
      [now apply stage_rendered|exact Hs1].
Qed.

End Attempt.

(** ** Runs *)

Lemma steps_invariant
  (lib : Externals) (cfg : config) (email secret : string) (deadline : Z)
  (w : world) (P : location * loop_state -> Prop) :
  (forall m, P m -> P (step lib cfg email secret deadline w m)) ->
  forall n m, P m -> P (steps lib cfg email secret deadline w n m).
Proof.
  intros Hstep n. induction n as [ | n IH]; intros m Hm; simpl.
  - exact Hm.
  - apply IH. now apply Hstep.
Qed.

Lemma inner_test_true (deadline : Z) (s : loop_state) :
  inner_test deadline s = true ->
  now s < deadline /\ 0 <= retries_left s /\ answered s = false.
Proof.
  unfold inner_test. intros H.
  apply andb_prop in H as [H Ha]. apply andb_prop in H as [Ht Hr].
  repeat split; [lia|lia|]. now destruct (answered s).
Qed.

(** The effects of one pass: those up to the last part of the body, and
    [page.close()] when the last part called it. *)
Lemma attempt_effects
  (lib : Externals) (cfg : config) (email secret : string) (deadline : Z)
  (a : attempt_env) (s : loop_state) :
  exists evs elapsed late (closed : bool),
    stage lib cfg email secret a s evs elapsed late
    /\ trace (fst (attempt lib cfg email secret deadline a s))
       = (trace s ++ evs ++ (if closed then [ClosePage (attempt_no s)] else []))%list.
Proof.
  destruct (attempt_account lib cfg email secret deadline a s)
    as [evs [elapsed [late [brk [closed [pre [Hst [Hre [_ Hpass]]]]]]]]].
  exists evs, elapsed, late, closed. split; [exact Hst|].
  rewrite (pass_trace _ _ _ _ _ _ _ Hpass), (reached_trace _ _ _ _ Hre).
  now rewrite <- app_assoc.
Qed.

Lemma stage_timely
  (lib : Externals) (cfg : config) (email secret : string) (deadline : Z)
  (w : world) (s : loop_state) (evs : list event) (elapsed : Z) (late : bool) :
  now s < deadline ->
  stage lib cfg email secret (attempt_envs w (attempt_no s)) s evs elapsed late ->
  timely cfg deadline w evs.
Proof.
  intros Hnow Hst. unfold timely.
  destruct Hst; unfold navigation; repeat constructor;
    exists (now s); split; (exact Hnow || reflexivity).
Qed.

Lemma step_timely
  (lib : Externals) (cfg : config) (email secret : string) (deadline : Z)
  (w : world) (m : location * loop_state) :
  timely cfg deadline w (trace (snd m)) ->
  timely cfg deadline w (trace (snd (step lib cfg email secret deadline w m))).
Proof.
  destruct m as [l s]. simpl. intros Htr. destruct l.
  - destruct (outer_test deadline s); simpl; [exact Htr|].
    apply Forall_app. split; [exact Htr|]. now repeat constructor.
  - destruct (inner_test deadline s) eqn:Htest; [|exact Htr].
    apply inner_test_true in Htest as [Hnow _].
    destruct (attempt_effects lib cfg email secret deadline
                (attempt_envs w (attempt_no s)) s)
      as [evs [elapsed [late [closed [Hst Htrace]]]]].
    destruct (attempt lib cfg email secret deadline _ s) as [s' p].
    simpl in *. rewrite Htrace.
    apply Forall_app. split; [exact Htr|].
    apply Forall_app. split.
    + exact (stage_timely lib cfg email secret deadline w s evs elapsed late
               Hnow Hst).
    + destruct closed; now repeat constructor.
  - exact Htr.
Qed.

(** C1, as stated, fails on a run of the default configuration in which the
    browser takes 2 s to start and 3.2 s to open a page, and every page
    takes 29 s to load: the sixth attempt passes the loop test at 168 s,
    before the deadline of 170 s; its navigation begins at 171.2 s and its
    POST at 201 s. *)
Lemma navigation_and_post_begin_after_deadline :
  deadline_of default_config 0 = 170000
  /\ initiation_times
       (effects (solve_and_submit_loop Sample.lib default_config Runs.busy_world
                   "me@example.org" "s3cret" "https://quiz.example/q1" 0 12))
     = [5200; 35000; 38400; 68200; 71600; 101400; 104800; 134600; 138000;
        167800; 171200; 201000]
  /\ In (Goto 5 171200 (VStr "https://quiz.example/next"))
        (effects (solve_and_submit_loop Sample.lib default_config Runs.busy_world
                    "me@example.org" "s3cret" "https://quiz.example/q1" 0 12))
  /\ In (Post 5 201000 "https://grader.example/submit"
           (VDict [("email", VStr "me@example.org"); ("secret", VStr "s3cret");
                   ("url", VStr "https://quiz.example/next");
                   ("answer", VInt 42)])
           25)
        (effects (solve_and_submit_loop Sample.lib default_config Runs.busy_world
                    "me@example.org" "s3cret" "https://quiz.example/q1" 0 12)).
Proof.
  split; [reflexivity|]. split; [vm_compute; reflexivity|].
  split; vm_compute; tauto.
Qed.

(** C1, amended: in every run, every page navigation and every POST to the
    grader belongs to an attempt that was begun while the clock was strictly
    before the deadline: the test of the attempt loop read a clock [t0]
    before the deadline, the navigation begins when the page has been
    opened and its timeout set, at [t0 + open_time], and the POST when the
    page has been loaded, left to settle and read, at [t0 + render_time].
    The clock is not read again in between, so both can begin at or after
    the deadline. *)
Theorem attempts_begin_before_deadline
  (lib : Externals) (cfg : config) (w : world)
  (email secret start_url : string) (start_time : Z) (fuel : nat) :
  timely cfg (deadline_of cfg start_time) w
    (effects (solve_and_submit_loop lib cfg w email secret start_url
                start_time fuel)).
Proof.
  unfold solve_and_submit_loop.
  destruct (is_localhost_url lib start_url); [constructor|].
  destruct (launch_result w); [|now repeat constructor].
  pose proof (steps_invariant lib cfg email secret (deadline_of cfg start_time) w
                (fun m => timely cfg (deadline_of cfg start_time) w (trace (snd m)))
                (step_timely lib cfg email secret (deadline_of cfg start_time) w)
                fuel (OuterTest, initial_state cfg w start_url start_time)) as Hinv.
  destruct (steps lib cfg email secret (deadline_of cfg start_time) w fuel _)
    as [l s].
  simpl in Hinv.
  assert (Hs : timely cfg (deadline_of cfg start_time) w (trace s)).
  { apply Hinv. now repeat constructor. }
  now destruct l.
Qed.

(** ** The retry budget *)




(** A pass that ends in [continue] has taken at least one unit. *)
Lemma attempt_consumes
  (lib : Externals) (cfg : config) (email secret : string) (deadline : Z)
  (a : attempt_env) (s : loop_state) :
  is_break (snd (attempt lib cfg email secret deadline a s)) = false ->
  retries_left (fst (attempt lib cfg email secret deadline a s))
  <= retries_left s - 1.
Proof.
  destruct (attempt_account lib cfg email secret deadline a s)
    as [evs [elapsed [late [brk [closed [pre [_ [Hre [_ Hpass]]]]]]]]].
  destruct Hre as [_ _ _ Hretries _ _ _].
  destruct Hpass as [_ Hretries' _ _ _ Hexit _ _].
  intros Hp. rewrite Hretries', Hretries.
  destruct (closed && close_fails a).
  - destruct brk; lia.
  - destruct Hexit as [Hb _]. rewrite Hp in Hb. subst brk. lia.
Qed.






(** ** The grader's response *)

(** When the body reaches line 256, the page was opened and loaded and the
    loop variables are those the attempt started with. *)
Lemma render_and_submit_response
  (lib : Externals) (cfg : config) (email secret : string)
  (a : attempt_env) (s s1 : loop_state) (resp_json : value) :
  render_and_submit lib cfg email secret a s = (s1, inr resp_json) ->
  current_url s1 = current_url s
  /\ retries_left s1 = retries_left s
  /\ answered s1 = answered s
  /\ attempt_no s1 = attempt_no s
  /\ now s1 = now s + render_time cfg a + post_duration a
  /\ exists evs, trace s1 = (trace s ++ evs)%list
                 /\ close_called evs = false.
Proof.
  unfold render_and_submit.
  destruct (new_page_result a) as [[] | e]; [|discriminate].
  destruct (set_default_timeout_result a) as [[] | e]; [|discriminate].
  cbn [current_url emit tick].
  destruct (current_url s) as [ | b | z | f | url | l | d] eqn:Hurl;
    try discriminate.
  destruct (goto_result a) as [[] | e]; [|discriminate].
  destruct (PAGE_RENDER_WAIT cfg <? 0); [discriminate|].
  destruct (extract_json_from_pre lib (loaded_page a)) as [parsed_json | e];
    [|discriminate].
  destruct (find_submit_url_from_page lib (loaded_page a) url)
    as [[target | ] | e]; [| |discriminate].
  - destruct (target =? "")%string.
    + destruct (next_url_fallback _ _ _); discriminate.
    + destruct (submit_answer_json _ _ _ _) as [r | e].
      * intros [= <- _]. simpl. unfold render_time, open_time.
        split; [now rewrite ?Hurl|].
        do 3 (split; [reflexivity|]). split; [lia|].
        eexists. rewrite <- !app_assoc. split; reflexivity.
      * destruct (exn_eqb e RequestException).
        -- destruct (retry_same _ _ _ _); discriminate.
        -- discriminate.
  - destruct (next_url_fallback _ _ _); discriminate.
Qed.

(** C3, as stated, fails when [page.close()] raises after the decision to
    retry: the grader rejects the answer and names a next URL, two retries
    and 168 s are left, the solver keeps the current URL, and the attempt
    takes two retry units, one for the retry and one in the [except] clause
    that takes the exception of [page.close()]. *)
Lemma retry_takes_two_units_when_close_raises :
  render_and_submit Sample.lib default_config "me@example.org" "s3cret"
    Runs.rejected_stuck Runs.start
  = (fst (render_and_submit Sample.lib default_config "me@example.org" "s3cret"
            Runs.rejected_stuck Runs.start),
     inr (VDict [("correct", VBool false);
                 ("url", VStr "https://quiz.example/q3")]))
  /\ retries_left Runs.start = 2
  /\ current_url (fst (attempt Sample.lib default_config "me@example.org"
                         "s3cret" 170000 Runs.rejected_stuck Runs.start))
     = current_url Runs.start
  /\ retries_left (fst (attempt Sample.lib default_config "me@example.org"
                          "s3cret" 170000 Runs.rejected_stuck Runs.start)) = 0.
Proof. vm_compute. repeat split. Qed.

(** C3, amended: when a submission attempt receives a response whose
    [correct] is not [True] and whose [url] is a next URL, then, if retries
    are left and more than 8 seconds remain before the deadline when the
    response is in, the solver keeps the current URL, takes one unit from
    the retry budget, calls [page.close()] and goes round the attempt loop
    again; otherwise it sets the current URL to the next URL of the grader,
    marks the task answered and calls [page.close()]. When [page.close()]
    raises, the [except] clause of the attempt takes one more unit and the
    pass ends in [continue]: a retry has then cost two units, and the move
    to the next URL one; the task is still left, for [answered] is set. *)
Theorem unconfirmed_answer_with_next_url
  (lib : Externals) (cfg : config) (email secret : string) (deadline : Z)
  (a : attempt_env) (s s1 : loop_state) (d : list (string * value)) :
  render_and_submit lib cfg email secret a s = (s1, inr (VDict d)) ->
  is_True (dict_get "correct" d) = false ->
  truthy (dict_get "url" d) = true ->
  let s' := fst (attempt lib cfg email secret deadline a s) in
  let p := snd (attempt lib cfg email secret deadline a s) in
  trace s' = (trace s1 ++ [ClosePage (attempt_no s)])%list
  /\ if (0 <? retries_left s) && (seconds 8 <? deadline - now s1)
     then current_url s' = current_url s
          /\ answered s' = answered s
          /\ is_break p = false
          /\ match close_result a with
             | Ok _ => p = UnconfirmedRetry
                       /\ retries_left s' = retries_left s - 1
             | Raise e =>
                 p = (if exn_eqb e PWTimeoutError
                      then RenderTimeout else PageException)
                 /\ retries_left s' = retries_left s - 2
             end
     else current_url s' = dict_get "url" d
          /\ answered s' = true
          /\ match close_result a with
             | Ok _ => p = UnconfirmedAdvance
                       /\ is_break p = true
                       /\ retries_left s' = retries_left s
             | Raise e =>
                 p = (if exn_eqb e PWTimeoutError
                      then RenderTimeout else PageException)
                 /\ is_break p = false
                 /\ retries_left s' = retries_left s - 1
             end.
Proof.
  intros Hsub Hcorrect Hnext s' p.
  destruct (render_and_submit_response lib cfg email secret a s s1 _ Hsub)
    as [Hurl [Hretries [Hanswered _]]].
  subst s' p. unfold attempt. rewrite Hsub.
  unfold handle_response. rewrite Hcorrect, Hnext, Hretries.
  destruct ((0 <? retries_left s) && (seconds 8 <? deadline - now s1)).
  - unfold retry_same.
    destruct (close_result a) as [[] | e]; simpl;
      repeat split; try congruence; try lia;
      now destruct (exn_eqb e PWTimeoutError).
  - unfold leave_task.
    destruct (close_result a) as [[] | e]; simpl;
      repeat split; try congruence; try lia;
      now destruct (exn_eqb e PWTimeoutError).
Qed.

Lemma unconfirmed_answer_with_next_url_sample :
  render_and_submit Sample.lib default_config "me@example.org" "s3cret"
    Runs.rejected Runs.start
  = (fst (render_and_submit Sample.lib default_config "me@example.org" "s3cret"
            Runs.rejected Runs.start),
     inr (VDict [("correct", VBool false);
                 ("url", VStr "https://quiz.example/q3")]))
  /\ snd (attempt Sample.lib default_config "me@example.org" "s3cret" 170000
            Runs.rejected Runs.start) = UnconfirmedRetry
  /\ current_url (fst (attempt Sample.lib default_config "me@example.org"
                         "s3cret" 170000 Runs.rejected Runs.start))
     = VStr "https://quiz.example/q1"
  /\ retries_left (fst (attempt Sample.lib default_config "me@example.org"
                          "s3cret" 170000 Runs.rejected Runs.start)) = 1.
Proof.
  split; [reflexivity|].
  pose proof (unconfirmed_answer_with_next_url Sample.lib default_config
                "me@example.org" "s3cret" 170000 Runs.rejected Runs.start
                (fst (render_and_submit Sample.lib default_config
                        "me@example.org" "s3cret" Runs.rejected Runs.start))
                [("correct", VBool false); ("url", VStr "https://quiz.example/q3")]
                eq_refl eq_refl eq_refl) as H.
  destruct H as [_ [Hurl [_ [_ [Hp Hretries]]]]].
  split; [exact Hp|]. split; [exact Hurl|exact Hretries].
Defined.

(** With no retry left the same response moves the solver on. *)
Example unconfirmed_answer_with_next_url_exhausted :
  attempt Sample.lib default_config "me@example.org" "s3cret" 170000
    Runs.rejected (set_retries_left 0 Runs.start)
  = (leave_task Runs.rejected 0 (VStr "https://quiz.example/q3") UnconfirmedAdvance
       (fst (render_and_submit Sample.lib default_config "me@example.org"
               "s3cret" Runs.rejected (set_retries_left 0 Runs.start)))).
Proof. vm_compute. reflexivity. Qed.

(** ** Pages without a submit target *)

(** C4: when an attempt (made with a settle delay that [time.sleep]
    accepts, on a page that was opened and loaded) finds no submit target on
    the page and the candidate scanned from the first 3000 characters of the
    body text equals the current URL, or no candidate is found at all, the
    attempt sets the current URL to null, calls [page.close()] without
    submitting anything, and both loops are left: the chain ends instead of
    going to the same URL again. This is so also when [page.close()]
    raises; the pass then ends in [continue] instead of [break], and the
    loops are left one test later. *)
Theorem fallback_without_new_url_ends_chain
  (lib : Externals) (cfg : config) (email secret : string) (deadline : Z)
  (w : world) (s : loop_state) (url : string) (parsed_json : value)
  (found : option string) (body : string) :
  let a := attempt_envs w (attempt_no s) in
  0 <= PAGE_RENDER_WAIT cfg ->
  inner_test deadline s = true ->
  current_url s = VStr url ->
  new_page_result a = Ok tt ->
  set_default_timeout_result a = Ok tt ->
  goto_result a = Ok tt ->
  extract_json_from_pre lib (loaded_page a) = Ok parsed_json ->
  find_submit_url_from_page lib (loaded_page a) url = Ok found ->
  found = None \/ found = Some "" ->
  fallback_body (loaded_page a) = Ok body ->
  Regex.search_url (Text.take 3000 body) = Some url
    \/ Regex.search_url (Text.take 3000 body) = None ->
  exists s' p,
    attempt lib cfg email secret deadline a s = (s', p)
    /\ (close_result a = Ok tt -> p = FallbackEnd)
    /\ current_url s' = VNone
    /\ answered s' = true
    /\ trace s' = (trace s ++ [NewPage (attempt_no s);
                               Goto (attempt_no s) (now s + open_time a) (VStr url);
                               ClosePage (attempt_no s)])%list
    /\ (close_result a = Ok tt ->
        steps lib cfg email secret deadline w 2 (InnerTest, s)
        = (AfterLoops, emit CloseBrowser (next_attempt s')))
    /\ steps lib cfg email secret deadline w 3 (InnerTest, s)
       = (AfterLoops, emit CloseBrowser (next_attempt s')).
Proof.
  intros a Hwait Htest Hurl Hpage Htimeout Hgoto Hjson Hfind Hnone Hbody Hcand.
  apply Z.ltb_ge in Hwait.
  assert (Hatt : exists s' p,
    attempt lib cfg email secret deadline a s = (s', p)
    /\ (close_result a = Ok tt -> p = FallbackEnd)
    /\ current_url s' = VNone
    /\ answered s' = true
    /\ trace s' = (trace s ++ [NewPage (attempt_no s);
                               Goto (attempt_no s) (now s + open_time a) (VStr url);
                               ClosePage (attempt_no s)])%list).
  { unfold attempt, render_and_submit. rewrite Hpage, Htimeout.
    cbn [current_url emit tick].
    rewrite Hurl, Hgoto, Hwait, Hjson, Hfind.
    assert (Hfb : forall s0,
      current_url s0 = VStr url ->
      next_url_fallback a (attempt_no s) s0
      = leave_task a (attempt_no s) VNone FallbackEnd
          (tick (fallback_duration a) s0)).
    { intros s0 Hs0. unfold next_url_fallback. rewrite Hbody.
      destruct Hcand as [-> | ->]; [|reflexivity].
      cbn [current_url tick]. rewrite Hs0. simpl. now rewrite String.eqb_refl. }
    assert (Hleave : forall s0,
      current_url s0 = VStr url ->
      trace s0 = (trace s ++ [NewPage (attempt_no s);
                              Goto (attempt_no s) (now s + open_time a) (VStr url)])%list ->
      exists s' p,
        (let '(s1, p1) := next_url_fallback a (attempt_no s) s0 in
         (s1, @inl exit_path value p1))
        = (s', inl p)
        /\ (close_result a = Ok tt -> p = FallbackEnd)
        /\ current_url s' = VNone
        /\ answered s' = true
        /\ trace s' = (trace s ++ [NewPage (attempt_no s);
                                   Goto (attempt_no s) (now s + open_time a) (VStr url);
                                   ClosePage (attempt_no s)])%list).
    { intros s0 Hs0 Htr. rewrite (Hfb s0 Hs0). unfold leave_task.
      destruct (close_result a) as [[] | e];
        (do 2 eexists; split; [reflexivity|]); simpl;
        (split; [intros Hc; (reflexivity || discriminate Hc)|]);
        (do 2 (split; [reflexivity|]));
        rewrite Htr, <- app_assoc; reflexivity. }
    set (s0 := tick (extract_duration a) _).
    assert (Hs0 : current_url s0 = VStr url) by (subst s0; simpl; exact Hurl).
    assert (Htr0 : trace s0
                   = (trace s ++ [NewPage (attempt_no s);
                                  Goto (attempt_no s) (now s + open_time a)
                                    (VStr url)])%list).
    { subst s0. simpl. unfold open_time. rewrite <- app_assoc. simpl.
      repeat (f_equal; try lia). }
    destruct (Hleave s0 Hs0 Htr0) as [s' [p [Heq Hrest]]].
    exists s', p.
    destruct Hnone as [-> | ->]; simpl; rewrite Heq; (split; [reflexivity|exact Hrest]). }
  destruct Hatt as [s' [p [Hs' [Hp [Hnull [Hans Htrace]]]]]].
  exists s', p. do 5 (split; [assumption|]).
  assert (Houter : outer_test deadline (next_attempt s') = false).
  { unfold outer_test. simpl. now rewrite Hnull. }
  assert (Hinner : inner_test deadline (next_attempt s') = false).
  { unfold inner_test. simpl. rewrite Hans. now rewrite andb_false_r. }
  assert (H1 : step lib cfg email secret deadline w (InnerTest, s)
               = (if is_break p then OuterTest else InnerTest, next_attempt s')).
  { simpl. rewrite Htest. fold a. now rewrite Hs'. }
  assert (H2 : step lib cfg email secret deadline w (OuterTest, next_attempt s')
               = (AfterLoops, emit CloseBrowser (next_attempt s'))).
  { simpl. now rewrite Houter. }
  assert (H3 : step lib cfg email secret deadline w (InnerTest, next_attempt s')
               = (OuterTest, next_attempt s')).
  { simpl. now rewrite Hinner. }
  split.
  - intros Hclose. cbn [steps]. rewrite H1, (Hp Hclose). cbn [is_break].
    now rewrite H2.
  - cbn [steps]. rewrite H1. destruct (is_break p).
    + now rewrite H2.
    + now rewrite H3, H2.
Qed.

Lemma fallback_without_new_url_sample :
  0 <= PAGE_RENDER_WAIT default_config
  /\ inner_test 170000 Runs.start = true
  /\ find_submit_url_from_page Sample.lib Runs.self_link_page
       "https://quiz.example/q1" = Ok None
  /\ Regex.search_url
       (Text.take 3000 "Reload https://quiz.example/q1 to try again")
     = Some "https://quiz.example/q1"
  /\ exists s',
       steps Sample.lib default_config "me@example.org" "s3cret" 170000
         Runs.self_link_world 2 (InnerTest, Runs.start)
       = (AfterLoops, emit CloseBrowser (next_attempt s'))
       /\ current_url s' = VNone.
Proof.
  assert (Hwait : 0 <= PAGE_RENDER_WAIT default_config) by discriminate.
  split; [exact Hwait|].
  split; [reflexivity|]. split; [reflexivity|]. split; [reflexivity|].
  destruct (fallback_without_new_url_ends_chain Sample.lib default_config
              "me@example.org" "s3cret" 170000 Runs.self_link_world Runs.start
              "https://quiz.example/q1" VNone None
              "Reload https://quiz.example/q1 to try again"
              Hwait eq_refl eq_refl eq_refl eq_refl eq_refl eq_refl eq_refl
              (or_introl eq_refl) eq_refl (or_introl eq_refl))
    as [s' [p [_ [_ [Hnull [_ [_ [Hsteps _]]]]]]]].
  exists s'. split; [exact (Hsteps eq_refl)|exact Hnull].
Defined.

(** ** The submission client *)

Lemma raise_for_status_error (r : response) :
  400 <= status_code r < 600 -> raise_for_status r = Raise RequestException.
Proof.
  intros [Hlo Hhi]. unfold raise_for_status.
  destruct (Z.leb_spec 400 (status_code r)); [|lia].
  destruct (Z.ltb_spec (status_code r) 600); [reflexivity|lia].
Qed.

Lemma raise_for_status_ok (r : response) :
  ~ 400 <= status_code r < 600 -> raise_for_status r = Ok tt.
Proof.
  intros Hok. unfold raise_for_status.
  destruct (Z.leb_spec 400 (status_code r)); [|reflexivity].
  destruct (Z.ltb_spec (status_code r) 600); [lia|reflexivity].
Qed.

(** An attempt whose page gives a submit target, up to the client's answer. *)
Lemma attempt_submits
  (lib : Externals) (cfg : config) (email secret : string) (deadline : Z)
  (a : attempt_env) (s : loop_state) (url : string) (parsed_json : value)
  (target : string) :
  0 <= PAGE_RENDER_WAIT cfg ->
  current_url s = VStr url ->
  new_page_result a = Ok tt ->
  set_default_timeout_result a = Ok tt ->
  goto_result a = Ok tt ->
  extract_json_from_pre lib (loaded_page a) = Ok parsed_json ->
  find_submit_url_from_page lib (loaded_page a) url = Ok (Some target) ->
  target <> "" ->
  let payload :=
    submission_record email secret (VStr url)
      (compute_answer_from_page lib (http_get a) (loaded_page a) parsed_json) in
  exists s2,
    reached s
      (navigation a s
       ++ [Post (attempt_no s) (now s + render_time cfg a) target payload
             (SUBMIT_TIMEOUT cfg)])%list
      (render_time cfg a + post_duration a) s2
    /\ attempt lib cfg email secret deadline a s =
       match submit_answer_json (http_post a) target payload
               (SUBMIT_TIMEOUT cfg) with
       | Ok resp_json => handle_response deadline a (attempt_no s) resp_json s2
       | Raise e =>
           if exn_eqb e RequestException
           then retry_same a (attempt_no s) SubmitFailed s2
           else on_exception e s2
       end.
Proof.
  intros Hwait Hurl Hpage Htimeout Hgoto Hjson Hfind Htarget payload.
  apply Z.ltb_ge in Hwait.
  unfold attempt, render_and_submit. rewrite Hpage, Htimeout.
  cbn [current_url emit tick].
  rewrite Hurl, Hgoto, Hwait, Hjson, Hfind.
  apply String.eqb_neq in Htarget. rewrite Htarget.
  fold payload.
  match goal with
  | |- context [retry_same a (attempt_no s) SubmitFailed ?st] => exists st
  end.
  split.
  - split; simpl; unfold navigation, render_time, open_time;
      rewrite <- ?app_assoc; simpl; try reflexivity; try lia; try congruence.
    rewrite Hurl. repeat (f_equal; try lia).
  - destruct (submit_answer_json (http_post a) target payload (SUBMIT_TIMEOUT cfg))
      as [resp_json | e]; [reflexivity|].
    destruct (exn_eqb e RequestException); [|reflexivity].
    now destruct (retry_same _ _ _ _).
Qed.

(** C7, as stated, fails on a reply whose status is not a success status and
    not an error status either: the grader answers with the status 300 and
    a JSON body. [raise_for_status] raises on 4xx and 5xx only, so the
    client returns the body as the grader's reply, and the solver, reading
    [correct] in it, moves to the next URL: no failure is surfaced. *)
Lemma redirection_status_is_read_as_a_reply :
  status_code Runs.multiple_choices = 300
  /\ submit_answer_json (http_post Runs.grader_redirects)
       "https://grader.example/submit" VNone 25
     = Ok (VDict [("correct", VBool true);
                  ("url", VStr "https://quiz.example/next")])
  /\ snd (attempt Sample.lib default_config "me@example.org" "s3cret" 170000
            Runs.grader_redirects Runs.start) = CorrectAdvance
  /\ retries_left (fst (attempt Sample.lib default_config "me@example.org"
                          "s3cret" 170000 Runs.grader_redirects Runs.start))
     = retries_left Runs.start.
Proof. vm_compute. repeat split. Qed.

(** C7, amended: an attempt (made with a settle delay that [time.sleep]
    accepts, on a page that was opened and loaded) that has found a submit
    target posts the submission record as the JSON body, with the
    configured timeout. A response with an error status (4xx or 5xx, the
    statuses on which [raise_for_status] raises) reaches the solver as a
    [RequestException], like a failure of the connection; the solver then
    takes one retry unit, calls [page.close()] and goes round the attempt
    loop again, with the current URL unchanged (when [page.close()] raises,
    the [except] clause takes one more unit, and the pass still ends in
    [continue]). A response with any other status is read as the grader's
    reply: its body when it parses as JSON, and otherwise the object that
    holds the raw text under [non_json_response]. The only exception the
    solver can receive from the client is the one of the POST or of the
    status. *)
Theorem submission_failures_are_absorbed
  (lib : Externals) (cfg : config) (email secret : string) (deadline : Z)
  (a : attempt_env) (s : loop_state) (url : string) (parsed_json : value)
  (target : string) :
  0 <= PAGE_RENDER_WAIT cfg ->
  current_url s = VStr url ->
  new_page_result a = Ok tt ->
  set_default_timeout_result a = Ok tt ->
  goto_result a = Ok tt ->
  extract_json_from_pre lib (loaded_page a) = Ok parsed_json ->
  find_submit_url_from_page lib (loaded_page a) url = Ok (Some target) ->
  target <> "" ->
  let payload :=
    submission_record email secret (VStr url)
      (compute_answer_from_page lib (http_get a) (loaded_page a) parsed_json) in
  let posted := http_post a target payload (SUBMIT_TIMEOUT cfg) in
  let submitted :=
    submit_answer_json (http_post a) target payload (SUBMIT_TIMEOUT cfg) in
  let s' := fst (attempt lib cfg email secret deadline a s) in
  let p := snd (attempt lib cfg email secret deadline a s) in
  In (Post (attempt_no s) (now s + render_time cfg a) target payload
        (SUBMIT_TIMEOUT cfg)) (trace s')
  /\ (forall resp, posted = Ok resp -> 400 <= status_code resp < 600 ->
                   submitted = Raise RequestException)
  /\ (forall resp, posted = Ok resp -> ~ 400 <= status_code resp < 600 ->
                   json resp = None ->
                   submitted = Ok (VDict [("non_json_response", VStr (text resp))]))
  /\ (forall resp v, posted = Ok resp -> ~ 400 <= status_code resp < 600 ->
                     json resp = Some v ->
                     submitted = Ok v)
  /\ (forall e, submitted = Raise e ->
                posted = Raise e
                \/ exists resp, posted = Ok resp
                                /\ 400 <= status_code resp < 600
                                /\ e = RequestException)
  /\ (submitted = Raise RequestException ->
      is_break p = false
      /\ current_url s' = current_url s
      /\ answered s' = answered s
      /\ In (ClosePage (attempt_no s)) (trace s')
      /\ match close_result a with
         | Ok _ => p = SubmitFailed /\ retries_left s' = retries_left s - 1
         | Raise e =>
             p = (if exn_eqb e PWTimeoutError then RenderTimeout else PageException)
             /\ retries_left s' = retries_left s - 2
         end).
Proof.
  intros Hwait Hurl Hpage Htimeout Hgoto Hjson Hfind Htarget
         payload posted submitted s' p.
  destruct (attempt_submits lib cfg email secret deadline a s url parsed_json
              target Hwait Hurl Hpage Htimeout Hgoto Hjson Hfind Htarget)
    as [s2 [[Htrace _ Hcur Hretries Hans _ _] Heq]].
  fold payload in Htrace, Heq. fold submitted in Heq.
  assert (Hposted : In (Post (attempt_no s) (now s + render_time cfg a) target
                          payload (SUBMIT_TIMEOUT cfg)) (trace s2)).
  { rewrite Htrace. apply in_or_app. right. apply in_or_app. right. now left. }
  split.
  { subst s'. rewrite Heq.
    destruct submitted as [resp_json | e].
    - destruct (pass_handle_response deadline a (attempt_no s) resp_json s2)
        as [brk [Htr _ _ _ _ _ _ _]].
      rewrite Htr. apply in_or_app. now left.
    - destruct (exn_eqb e RequestException).
      + destruct (pass_retry_same a (attempt_no s) SubmitFailed s2
                    eq_refl eq_refl eq_refl) as [Htr _ _ _ _ _ _ _].
        rewrite Htr. apply in_or_app. now left.
      + exact Hposted. }
  split.
  { intros resp Hpost Herr. subst submitted. unfold submit_answer_json.
    fold posted. rewrite Hpost. now rewrite raise_for_status_error. }
  split.
  { intros resp Hpost Hok Hnone. subst submitted. unfold submit_answer_json.
    fold posted. rewrite Hpost.
    rewrite raise_for_status_ok by exact Hok. now rewrite Hnone. }
  split.
  { intros resp v Hpost Hok Hsome. subst submitted. unfold submit_answer_json.
    fold posted. rewrite Hpost.
    rewrite raise_for_status_ok by exact Hok. now rewrite Hsome. }
  split.
  { intros e. subst submitted. unfold submit_answer_json. fold posted.
    destruct posted as [resp | e'].
    - unfold raise_for_status.
      destruct (Z.leb_spec 400 (status_code resp)); simpl.
      + destruct (Z.ltb_spec (status_code resp) 600); simpl.
        * intros [= <-]. right. exists resp. repeat split; lia.
        * destruct (json resp); discriminate.
      + destruct (json resp); discriminate.
    - intros [= <-]. now left. }
  intros Hraise. subst s' p. rewrite Heq, Hraise. cbn [exn_eqb].
  unfold retry_same.
  destruct (close_result a) as [[] | e]; simpl;
    repeat split; try congruence; try lia;
    try (apply in_or_app; right; now left);
    now destruct (exn_eqb e PWTimeoutError).
Qed.

Lemma submission_failures_are_absorbed_sample :
  0 <= PAGE_RENDER_WAIT default_config
  /\ current_url Runs.start = VStr "https://quiz.example/q1"
  /\ find_submit_url_from_page Sample.lib (loaded_page Runs.grader_down)
       "https://quiz.example/q1" = Ok (Some "https://grader.example/submit")
  /\ snd (attempt Sample.lib default_config "me@example.org" "s3cret" 170000
            Runs.grader_down Runs.start) = SubmitFailed
  /\ retries_left (fst (attempt Sample.lib default_config "me@example.org"
                          "s3cret" 170000 Runs.grader_down Runs.start)) = 1
  /\ submit_answer_json (http_post Runs.grader_plain)
       "https://grader.example/submit" VNone 25
     = Ok (VDict [("non_json_response", VStr "thanks")]).
Proof.
  assert (Hwait : 0 <= PAGE_RENDER_WAIT default_config) by discriminate.
  split; [exact Hwait|].
  split; [reflexivity|]. split; [reflexivity|].
  assert (Htarget : "https://grader.example/submit" <> "") by discriminate.
  destruct (submission_failures_are_absorbed Sample.lib default_config
              "me@example.org" "s3cret" 170000 Runs.grader_down Runs.start
              "https://quiz.example/q1" (VDict [("answer", VInt 42)])
              "https://grader.example/submit"
              Hwait eq_refl eq_refl eq_refl eq_refl eq_refl eq_refl Htarget)
    as [_ [Hstatus [_ [_ [_ Hsolver]]]]].
  assert (Herr : 400 <= status_code Runs.unavailable < 600) by (simpl; lia).
  assert (Hraise := Hstatus Runs.unavailable eq_refl Herr).
  destruct (Hsolver Hraise) as [_ [_ [_ [_ [Hp Hretries]]]]].
  split; [exact Hp|]. split; [exact Hretries|].
  destruct (submission_failures_are_absorbed Sample.lib default_config
              "me@example.org" "s3cret" 170000 Runs.grader_plain Runs.start
              "https://quiz.example/q1" (VDict [("answer", VInt 42)])
              "https://grader.example/submit"
              Hwait eq_refl eq_refl eq_refl eq_refl eq_refl eq_refl Htarget)
    as [_ [_ [Hplain _]]].
  apply (Hplain Runs.plain_text eq_refl); [|reflexivity].
  simpl. lia.
Defined.

(** ** Page handles *)

(** On every exit but the two [except] clauses the page was closed. *)
Lemma attempt_closes_page
  (lib : Externals) (cfg : config) (email secret : string) (deadline : Z)
  (a : attempt_env) (s : loop_state) :
  closes_page (snd (attempt lib cfg email secret deadline a s)) = true ->
  In (ClosePage (attempt_no s))
     (trace (fst (attempt lib cfg email secret deadline a s))).
Proof.
  intros Hcloses.
  destruct (attempt_account lib cfg email secret deadline a s)
    as [evs [elapsed [late [brk [closed [pre [_ [_ [_ Hpass]]]]]]]]].
  destruct Hpass as [Htr _ _ _ _ Hexit _ _].
  rewrite Htr. apply in_or_app. right.
  destruct closed; [now left|].
  simpl in Hexit. destruct Hexit as [_ [_ Hc]]. congruence.
Qed.

(** The two [except] clauses leave the effects as they are: the page that
    the attempt opened is not closed. *)
Lemma on_exception_keeps_trace (e : exn) (s : loop_state) :
  trace (fst (on_exception e s)) = trace s.
Proof. reflexivity. Qed.

(** C9 fails on the code: when the first navigation times out, the handler
    of [PWTimeoutError] goes to the next attempt without closing the page.
    The second attempt opens another page while the first is still open, so
    two pages are open at one time, and the first is never closed. *)
Theorem render_timeout_leaves_page_open :
  effects (solve_and_submit_loop Sample.lib default_config Runs.flaky_world
             "me@example.org" "s3cret" "https://quiz.example/q1" 0 4)
  = [LaunchBrowser;
     NewPage 0; Goto 0 0 (VStr "https://quiz.example/q1");
     NewPage 1; Goto 1 30500 (VStr "https://quiz.example/q1");
     Post 1 32300 "https://grader.example/submit"
       (VDict [("email", VStr "me@example.org"); ("secret", VStr "s3cret");
               ("url", VStr "https://quiz.example/q1"); ("answer", VInt 42)])
       25;
     ClosePage 1; CloseBrowser]
  /\ snd (attempt Sample.lib default_config "me@example.org" "s3cret" 170000
            Runs.timed_out Runs.start) = RenderTimeout
  /\ max_open []
       (effects (solve_and_submit_loop Sample.lib default_config Runs.flaky_world
                   "me@example.org" "s3cret" "https://quiz.example/q1" 0 4))
     = 2%nat
  /\ open_handles []
       (effects (solve_and_submit_loop Sample.lib default_config Runs.flaky_world
                   "me@example.org" "s3cret" "https://quiz.example/q1" 0 4))
     = [0%nat].
Proof. vm_compute. repeat split. Qed.

(** ** Sample chains *)

(** A page with [<pre>{"answer": 42}</pre>] and a submit link, answered by
    [{"correct": true, "url": ...}]: the chain moves to the next URL and the
    next task starts with the full retry budget. *)
Example accepted_answer_advances :
  let '(l, s) :=
    steps Sample.lib default_config "me@example.org" "s3cret" 170000
      Runs.slow_world 3
      (OuterTest,
       initial_state default_config Runs.slow_world "https://quiz.example/q1" 0) in
  l = InnerTest
  /\ current_url s = VStr "https://quiz.example/next"
  /\ retries_left s = 2
  /\ task_count s = 2
  /\ open_handles [] (trace s) = [].
Proof. vm_compute. repeat split. Qed.

(** A grader that stays down uses up the retry budget of the task: three
    attempts, each closing its page, and the budget ends at -1. *)
Example grader_down_exhausts_budget :
  let '(l, s) :=
    steps Sample.lib default_config "me@example.org" "s3cret" 170000
      {| launch_result := Ok tt; launch_duration := 0;
         attempt_envs := fun _ => Runs.grader_down |} 5
      (OuterTest,
       initial_state default_config Runs.slow_world "https://quiz.example/q1" 0) in
  l = OuterTest
  /\ retries_left s = -1
  /\ attempt_no s = 3%nat
  /\ current_url s = VStr "https://quiz.example/q1"
  /\ max_open [] (trace s) = 1%nat.
Proof. vm_compute. repeat split. Qed.

(** * Further properties of the code *)

(** ** Text *)

Lemma append_assoc (a b c : string) :
  ((a ++ b) ++ c)%string = (a ++ b ++ c)%string.
Proof. induction a as [ | x a IH]; simpl; [reflexivity|]. now rewrite IH. Qed.

Lemma length_append (a b : string) :
  String.length (a ++ b) = (String.length a + String.length b)%nat.
Proof. induction a as [ | x a IH]; simpl; [reflexivity|]. now rewrite IH. Qed.

Lemma take_drop (n : nat) (s : string) :
  s = (Text.take n s ++ Text.drop n s)%string.
Proof.
  revert s. induction n as [ | n IH]; intros s; simpl; [reflexivity|].
  destruct s as [ | c s]; simpl; [reflexivity|]. now rewrite <- IH.
Qed.

Lemma take_app_length (p r : string) (k : nat) :
  Text.take (String.length p + k) (p ++ r) = (p ++ Text.take k r)%string.
Proof.
  induction p as [ | c p IH]; simpl; [reflexivity|]. now rewrite IH.
Qed.

Lemma take_take_while (f : ascii -> bool) (r : string) :
  Text.take (String.length (Text.take_while f r)) r = Text.take_while f r.
Proof.
  induction r as [ | c r IH]; simpl; [reflexivity|].
  destruct (f c); simpl; [now rewrite IH|reflexivity].
Qed.

Lemma all_chars_take_while (f : ascii -> bool) (r : string) :
  all_chars f (Text.take_while f r) = true.
Proof.
  induction r as [ | c r IH]; simpl; [reflexivity|].
  destruct (f c) eqn:Hc; simpl; [now rewrite Hc|reflexivity].
Qed.

Lemma lower_app (a b : string) :
  Text.lower (a ++ b) = (Text.lower a ++ Text.lower b)%string.
Proof. induction a as [ | c a IH]; simpl; [reflexivity|]. now rewrite IH. Qed.

Lemma contains_app_r (p a b : string) :
  Text.contains p b = true -> Text.contains p (a ++ b) = true.
Proof.
  intros Hb. induction a as [ | c a IH]; simpl; [exact Hb|].
  rewrite IH. apply orb_true_r.
Qed.

Lemma length_zero (s : string) : (String.length s =? 0)%nat = true -> s = "".
Proof. destruct s; [reflexivity|discriminate]. Qed.

Lemma length_nonzero (s : string) : (String.length s =? 0)%nat = false -> s <> "".
Proof. destruct s; [discriminate|discriminate]. Qed.

(** What [re.search] returns is a piece of the text it searched. *)
Lemma search_infix (at_head : string -> option nat) (s m : string) :
  Regex.search at_head s = Some m -> infix m s.
Proof.
  induction s as [ | c s IH]; simpl.
  - destruct (at_head "") as [n | ]; [|discriminate].
    intros [= <-]. exists "", (Text.drop n ""). simpl. apply take_drop.
  - destruct (at_head (String c s)) as [n | ].
    + intros [= <-]. exists "", (Text.drop n (String c s)). simpl.
      apply (take_drop n (String c s)).
    + intros Hm. destruct (IH Hm) as [before [after ->]].
      now exists (String c before), after.
Qed.

(** The match of [re.search] begins where [at_head] matched. *)
Lemma search_at_head (at_head : string -> option nat) (s m : string) :
  Regex.search at_head s = Some m ->
  exists t n, at_head t = Some n /\ m = Text.take n t.
Proof.
  induction s as [ | c s IH]; simpl.
  - destruct (at_head "") as [n | ] eqn:Hn; [|discriminate].
    intros [= <-]. now exists "", n.
  - destruct (at_head (String c s)) as [n | ] eqn:Hn.
    + intros [= <-]. now exists (String c s), n.
    + exact IH.
Qed.

Lemma after_prefix_split (ci : bool) (p s r : string) :
  Regex.after_prefix ci p s = Some r ->
  exists p', s = (p' ++ r)%string
             /\ String.length p' = String.length p
             /\ (if ci then Text.lower p' else p') = p.
Proof.
  revert s. induction p as [ | a p IH]; intros s; simpl.
  - intros [= <-]. exists "". repeat split. now destruct ci.
  - destruct s as [ | b s]; [discriminate|].
    destruct (Ascii.eqb_spec a (if ci then Text.lower_char b else b))
      as [Hab | Hab]; [|discriminate].
    intros Hr. destruct (IH s Hr) as [p' [-> [Hlen Hp']]].
    exists (String b p'). simpl. repeat split; [now rewrite Hlen|].
    destruct ci; simpl; congruence.
Qed.

Lemma lower_if (ci : bool) (a : string) (p : string) :
  (if ci then Text.lower a else a) = p ->
  Text.lower p = p ->
  Text.lower a = p.
Proof. destruct ci; intros H Hp; [exact H|congruence]. Qed.

Lemma scheme_at_split (ci : bool) (s r : string) (n : nat) :
  Regex.scheme_at ci s = Some (n, r) ->
  exists scheme,
    s = (scheme ++ r)%string
    /\ String.length scheme = n
    /\ (Text.lower scheme = "http://" \/ Text.lower scheme = "https://").
Proof.
  unfold Regex.scheme_at.
  destruct (Regex.after_prefix ci "http" s) as [r0 | ] eqn:H0; [|discriminate].
  destruct (after_prefix_split ci _ _ _ H0) as [p0 [-> [Hl0 Hp0]]].
  apply lower_if in Hp0; [|reflexivity].
  assert (Hplain : match Regex.after_prefix ci "://" r0 with
                   | Some r' => Some (7%nat, r')
                   | None => None
                   end = Some (n, r) ->
                   exists scheme,
                     (p0 ++ r0)%string = (scheme ++ r)%string
                     /\ String.length scheme = n
                     /\ (Text.lower scheme = "http://"
                         \/ Text.lower scheme = "https://")).
  { destruct (Regex.after_prefix ci "://" r0) as [r' | ] eqn:H1; [|discriminate].
    intros [= <- <-].
    destruct (after_prefix_split ci _ _ _ H1) as [p1 [-> [Hl1 Hp1]]].
    apply lower_if in Hp1; [|reflexivity].
    exists (p0 ++ p1)%string. split; [now rewrite append_assoc|].
    split; [rewrite length_append, Hl0, Hl1; reflexivity|].
    left. now rewrite lower_app, Hp0, Hp1. }
  destruct (Regex.after_prefix ci "s" r0) as [r1 | ] eqn:Hs; [|exact Hplain].
  destruct (Regex.after_prefix ci "://" r1) as [r' | ] eqn:H1; [|exact Hplain].
  intros [= <- <-].
  destruct (after_prefix_split ci _ _ _ Hs) as [ps [-> [Hls Hps]]].
  apply lower_if in Hps; [|reflexivity].
  destruct (after_prefix_split ci _ _ _ H1) as [p1 [-> [Hl1 Hp1]]].
  apply lower_if in Hp1; [|reflexivity].
  exists (p0 ++ ps ++ p1)%string.
  split; [now rewrite !append_assoc|].
  split; [rewrite !length_append, Hl0, Hls, Hl1; reflexivity|].
  right. now rewrite !lower_app, Hp0, Hps, Hp1.
Qed.

(** ** The submit-target resolver *)

Lemma url_at_shaped (s : string) (n : nat) :
  Regex.url_at s = Some n -> url_shaped (Text.take n s).
Proof.
  unfold Regex.url_at.
  destruct (Regex.scheme_at false s) as [[k r] | ] eqn:Hs; [|discriminate].
  destruct (String.length (Text.take_while Regex.url_char r) =? 0)%nat eqn:Hrun;
    [discriminate|].
  intros [= <-].
  destruct (scheme_at_split _ _ _ _ Hs) as [scheme [-> [<- Hscheme]]].
  exists scheme, (Text.take_while Regex.url_char r).
  split; [now rewrite take_app_length, take_take_while|].
  split; [exact Hscheme|].
  split; [now apply length_nonzero|apply all_chars_take_while].
Qed.

Lemma contains_nonempty (p s : string) :
  p <> "" -> Text.contains p s = true -> s <> "".
Proof.
  intros Hp Hc ->. destruct p as [ | c p]; [now apply Hp|discriminate].
Qed.

Lemma lower_empty (s : string) : Text.lower s = "" -> s = "".
Proof. destruct s; [reflexivity|discriminate]. Qed.

Lemma submit_url_at_shaped (s : string) (n : nat) :
  Regex.submit_url_at s = Some n ->
  url_shaped (Text.take n s)
  /\ Text.contains "submit" (Text.lower (Text.take n s)) = true.
Proof.
  unfold Regex.submit_url_at.
  destruct (Regex.scheme_at true s) as [[k r] | ] eqn:Hs; [|discriminate].
  destruct (Text.contains "submit"
              (Text.lower (Text.take_while Regex.url_char r))) eqn:Hsub;
    [|discriminate].
  intros [= <-].
  destruct (scheme_at_split _ _ _ _ Hs) as [scheme [-> [<- Hscheme]]].
  rewrite take_app_length, take_take_while. split.
  - exists scheme, (Text.take_while Regex.url_char r).
    split; [reflexivity|]. split; [exact Hscheme|].
    split; [|apply all_chars_take_while].
    intros Hempty. rewrite Hempty in Hsub. discriminate.
  - rewrite lower_app. now apply contains_app_r.
Qed.

Lemma search_url_shaped (s m : string) :
  Regex.search_url s = Some m -> url_shaped m /\ infix m s.
Proof.
  intros Hm. split; [|exact (search_infix _ _ _ Hm)].
  destruct (search_at_head _ _ _ Hm) as [t [n [Hn ->]]].
  now apply url_at_shaped.
Qed.

Lemma search_submit_url_shaped (s m : string) :
  Regex.search_submit_url s = Some m ->
  url_shaped m /\ infix m s /\ Text.contains "submit" (Text.lower m) = true.
Proof.
  intros Hm.
  destruct (search_at_head _ _ _ Hm) as [t [n [Hn ->]]].
  destruct (submit_url_at_shaped _ _ Hn) as [Hshape Hsub].
  split; [exact Hshape|]. split; [|exact Hsub].
  exact (search_infix _ _ _ Hm).
Qed.

Lemma url_shaped_nonempty (m : string) : url_shaped m -> m <> "".
Proof.
  intros [scheme [rest [-> [Hscheme [Hrest _]]]]] Hm.
  destruct scheme as [ | c scheme]; [|discriminate].
  destruct Hscheme; discriminate.
Qed.

(** The anchor rule of [find_submit_url_from_page]: the href chosen is that
    of the first anchor, in document order, whose href contains submit in
    any letter case; every anchor before it was read and passed over. *)
Lemma first_submit_href_first (anchors : list (result (option string))) (h : string) :
  first_submit_href anchors = Ok (Some h) ->
  exists before after,
    anchors = (before ++ Ok (Some h) :: after)%list
    /\ Forall not_a_submit_anchor before
    /\ Text.contains "submit" (Text.lower h) = true.
Proof.
  induction anchors as [ | a rest IH]; simpl; [discriminate|].
  destruct a as [[href | ] | e]; [| |discriminate].
  - destruct (negb (href =? "")%string && Text.contains "submit" (Text.lower href))
      eqn:Hhit.
    + intros [= <-]. apply andb_prop in Hhit as [_ Hsub].
      exists [], rest. repeat split; [constructor|exact Hsub].
    + intros Hrest. destruct (IH Hrest) as [before [after [-> [Hbefore Hsub]]]].
      exists (Ok (Some href) :: before), after.
      repeat split; [|exact Hsub]. constructor; [|exact Hbefore]. simpl.
      destruct (Text.contains "submit" (Text.lower href)) eqn:Hc; [|reflexivity].
      rewrite andb_true_r in Hhit. apply negb_false_iff in Hhit.
      apply String.eqb_eq in Hhit. subst href. discriminate.
  - intros Hrest. destruct (IH Hrest) as [before [after [-> [Hbefore Hsub]]]].
    exists (Ok None :: before), after.
    repeat split; [|exact Hsub]. constructor; [exact I|exact Hbefore].
Qed.

Lemma first_submit_href_none (anchors : list (result (option string))) :
  first_submit_href anchors = Ok None <-> Forall not_a_submit_anchor anchors.
Proof.
  induction anchors as [ | a rest IH]; simpl.
  - split; [constructor|reflexivity].
  - destruct a as [[href | ] | e].
    + destruct (Text.contains "submit" (Text.lower href)) eqn:Hc.
      * assert (Hne : (href =? "")%string = false).
        { apply String.eqb_neq. intros ->. discriminate. }
        rewrite Hne. simpl. split; [discriminate|].
        intros Hall. inversion Hall as [ | ? ? Ha _]. simpl in Ha. congruence.
      * rewrite andb_false_r. rewrite IH. split.
        -- intros Hall. constructor; [exact Hc|exact Hall].
        -- intros Hall. now inversion Hall.
    + rewrite IH. split.
      * intros Hall. constructor; [exact I|exact Hall].
      * intros Hall. now inversion Hall.
    + split; [discriminate|]. intros Hall. inversion Hall as [ | ? ? Ha _].
      contradiction.
Qed.

(** X1: an anchor whose href contains submit decides the submit target
    whatever the body text holds. The target is [urljoin] of the base URL
    and the href of the first such anchor in document order, every anchor
    before it having been read and passed over; the body text is not used. *)
Theorem find_submit_url_anchor_first
  (lib : Externals) (pg : page) (base_url : string)
  (anchors : list (result (option string))) (h : string) :
  submit_anchors pg = Ok anchors ->
  first_submit_href anchors = Ok (Some h) ->
  (exists before after,
     anchors = (before ++ Ok (Some h) :: after)%list
     /\ Forall not_a_submit_anchor before
     /\ Text.contains "submit" (Text.lower h) = true)
  /\ find_submit_url_from_page lib pg base_url =
     match urljoin lib base_url h with
     | Ok u => Ok (Some u)
     | Raise e => Raise e
     end.
Proof.
  intros Hanchors Hfirst. split; [now apply first_submit_href_first|].
  unfold find_submit_url_from_page. now rewrite Hanchors, Hfirst.
Qed.

Lemma find_submit_url_anchor_first_sample :
  submit_anchors Runs.quiz_page = Ok [Ok (Some "https://grader.example/submit")]
  /\ find_submit_url_from_page Sample.lib Runs.quiz_page "https://quiz.example/q1"
     = Ok (Some "https://grader.example/submit").
Proof.
  split; [reflexivity|].
  destruct (find_submit_url_anchor_first Sample.lib Runs.quiz_page
              "https://quiz.example/q1"
              [Ok (Some "https://grader.example/submit")]
              "https://grader.example/submit" eq_refl eq_refl) as [_ Hfind].
  exact Hfind.
Defined.

(** X2: when no anchor has an href with submit, the submit target comes
    from the body text as read (empty when the read raises). The function
    then never raises; it returns null exactly when the text holds no URL
    of either pattern, and otherwise a piece of that text that starts with
    http:// or https:// (in any letter case), goes on with at least one
    character and holds no white space, quote or angle bracket, so it is
    never the empty string. When the text holds a URL with submit, the URL
    returned contains submit. *)
Theorem find_submit_url_from_text
  (lib : Externals) (pg : page) (base_url : string)
  (anchors : list (result (option string))) :
  submit_anchors pg = Ok anchors ->
  Forall not_a_submit_anchor anchors ->
  (exists found, find_submit_url_from_page lib pg base_url = Ok found)
  /\ (find_submit_url_from_page lib pg base_url = Ok None <->
      Regex.search_submit_url (submit_text pg) = None
      /\ Regex.search_url (submit_text pg) = None)
  /\ (forall m,
        find_submit_url_from_page lib pg base_url = Ok (Some m) ->
        url_shaped m /\ infix m (submit_text pg) /\ m <> "")
  /\ (forall m' m,
        Regex.search_submit_url (submit_text pg) = Some m' ->
        find_submit_url_from_page lib pg base_url = Ok (Some m) ->
        Text.contains "submit" (Text.lower m) = true).
Proof.
  intros Hanchors Hnone. apply first_submit_href_none in Hnone.
  unfold find_submit_url_from_page. rewrite Hanchors, Hnone.
  fold (submit_text pg).
  destruct (Regex.search_submit_url (submit_text pg)) as [ms | ] eqn:Hs.
  - destruct (search_submit_url_shaped _ _ Hs) as [Hshape [Hinfix Hsub]].
    split; [now eexists|]. split; [split; [discriminate|intros [H _]; discriminate]|].
    split.
    + intros m [= <-]. repeat split; try assumption.
      now apply url_shaped_nonempty.
    + intros m' m _ [= <-]. exact Hsub.
  - destruct (Regex.search_url (submit_text pg)) as [mu | ] eqn:Hu.
    + destruct (search_url_shaped _ _ Hu) as [Hshape Hinfix].
      split; [now eexists|].
      split; [split; [discriminate|intros [_ H]; discriminate]|].
      split.
      * intros m [= <-]. repeat split; try assumption.
        now apply url_shaped_nonempty.
      * intros m' m Hm'. discriminate.
    + split; [now eexists|]. split; [tauto|].
      split; [discriminate|]. intros m' m Hm'. discriminate.
Qed.

Lemma find_submit_url_from_text_sample :
  submit_anchors Sample.page_17 = Ok []
  /\ find_submit_url_from_page Sample.lib Sample.page_17 "https://quiz.example/q1"
     = Ok None.
Proof.
  split; [reflexivity|].
  destruct (find_submit_url_from_text Sample.lib Sample.page_17
              "https://quiz.example/q1" [] eq_refl (Forall_nil _))
    as [_ [Hnone _]].
  apply Hnone. split; reflexivity.
Defined.

(** ** The loopback test *)

(** X3: [is_localhost_url] answers true exactly for the URLs that urlparse
    accepts and whose host name, in lower case, is localhost, 127.0.0.1 or
    ::1 or ends in .local. Every other URL is let through, in particular
    one that urlparse refuses, one without a host name, and any other
    address of the loopback or of a private network. *)
Theorem is_localhost_url_iff (lib : Externals) (url : string) :
  is_localhost_url lib url = true <->
  exists h,
    urlparse_hostname lib url = Ok (Some h)
    /\ (In (Text.lower h) ["localhost"; "127.0.0.1"; "::1"]
        \/ Text.endswith ".local" (Text.lower h) = true).
Proof.
  split.
  - unfold is_localhost_url.
    destruct (urlparse_hostname lib url) as [[h | ] | e]; [| |discriminate].
    + intros Htrue. exists h. split; [reflexivity|].
      destruct (existsb (String.eqb (Text.lower h))
                  ["localhost"; "127.0.0.1"; "::1"]) eqn:Hex.
      * left. apply existsb_exists in Hex as [x [Hin Heq]].
        apply String.eqb_eq in Heq. now rewrite Heq.
      * right. now destruct (Text.endswith ".local" (Text.lower h)).
    + simpl. discriminate.
  - intros [h [Hparse Hlocal]].
    exact (is_localhost_url_hostname lib url h Hparse Hlocal).
Qed.

(** ** The textual fallback *)



Lemma take_while_empty_head (f : ascii -> bool) (s : string) :
  (String.length (Text.take_while f s) =? 0)%nat = true ->
  match s with
  | String c _ => f c = false
  | EmptyString => True
  end.
Proof.
  destruct s as [ | c s]; simpl; [trivial|]. now destruct (f c).
Qed.



Lemma has_digit_take (n : nat) (c : ascii) (s : string) :
  Text.is_digit c = true -> has_digit (Text.take (S n) (String c s)) = true.
Proof. intros Hc. simpl. now rewrite Hc. Qed.






(** ** Linked files *)

(** X5: a value that the PDF strategy gives always comes from a document
    that was downloaded with a status that is not an error (4xx or 5xx) and
    that has a second page; the body of an error response is never handed
    to the PDF handler. *)
Theorem pdf_value_provenance
  (lib : Externals) (http_get : string -> result response) (u : string)
  (val : float) :
  pdf_value lib http_get (Ok u) = Some val ->
  exists r pages pg,
    http_get u = Ok r
    /\ ~ 400 <= status_code r < 600
    /\ download_file_bytes http_get u = Ok (content r)
    /\ pdf_open lib (content r) = Ok pages
    /\ nth_error pages 1 = Some pg
    /\ sum_values_on_pdf_page2 lib (content r) "value" = Ok (Some val).
Proof.
  unfold pdf_value, download_file_bytes.
  destruct (http_get u) as [r | e]; [|discriminate].
  unfold raise_for_status.
  destruct (Z.leb_spec 400 (status_code r)) as [Hlo | Hlo]; simpl.
  - destruct (Z.ltb_spec (status_code r) 600) as [Hhi | Hhi]; simpl;
      [discriminate|].
    destruct (sum_values_on_pdf_page2 lib (content r) "value")
      as [[v | ] | e] eqn:Hsum; try discriminate.
    intros [= <-]. pose proof Hsum as Hparts.
    unfold sum_values_on_pdf_page2 in Hparts.
    destruct (pdf_open lib (content r)) as [pages | e] eqn:Hopen; [|discriminate].
    destruct (List.length pages <? 2)%nat; [discriminate|].
    destruct (nth_error pages 1) as [pg | ] eqn:Hpg; [|discriminate].
    exists r, pages, pg.
    split; [reflexivity|]. split; [lia|]. split; [reflexivity|].
    split; [exact Hopen|]. split; [exact Hpg|exact Hsum].
  - destruct (sum_values_on_pdf_page2 lib (content r) "value")
      as [[v | ] | e] eqn:Hsum; try discriminate.
    intros [= <-]. pose proof Hsum as Hparts.
    unfold sum_values_on_pdf_page2 in Hparts.
    destruct (pdf_open lib (content r)) as [pages | e] eqn:Hopen; [|discriminate].
    destruct (List.length pages <? 2)%nat; [discriminate|].
    destruct (nth_error pages 1) as [pg | ] eqn:Hpg; [|discriminate].
    exists r, pages, pg.
    split; [reflexivity|]. split; [lia|]. split; [reflexivity|].
    split; [exact Hopen|]. split; [exact Hpg|exact Hsum].
Qed.

Lemma pdf_value_provenance_sample :
  pdf_value Sample.lib pdf_get (Ok "https://files.example/table.pdf") = Some 1234%float
  /\ exists r pages pg,
       pdf_get "https://files.example/table.pdf" = Ok r
       /\ ~ 400 <= status_code r < 600
       /\ pdf_open Sample.lib (content r) = Ok pages
       /\ nth_error pages 1 = Some pg.
Proof.
  assert (Hval : pdf_value Sample.lib pdf_get (Ok "https://files.example/table.pdf")
                 = Some 1234%float) by reflexivity.
  split; [exact Hval|].
  destruct (pdf_value_provenance Sample.lib pdf_get
              "https://files.example/table.pdf" 1234%float Hval)
    as [r [pages [pg [Hget [Hstatus [_ [Hopen [Hpg _]]]]]]]].
  exists r, pages, pg. repeat split; assumption.
Defined.

Lemma first_pdf_anchor_value_no_download
  (lib : Externals) (http_get : string -> result response) (base : string)
  (anchors : list (result (option string))) :
  (forall u, exists e, download_file_bytes http_get u = Raise e) ->
  first_pdf_anchor_value lib http_get base anchors = None.
Proof.
  intros Hdown.
  assert (Hpdf : forall url, pdf_value lib http_get url = None).
  { intros [u | e]; simpl; [|reflexivity].
    destruct (Hdown u) as [e He]. now rewrite He. }
  induction anchors as [ | a rest IH]; simpl; [reflexivity|].
  destruct a as [[h | ] | e]; try assumption; [|reflexivity].
  destruct (negb (h =? "")%string && Text.endswith ".pdf" (Text.lower h));
    [|exact IH].
  now rewrite Hpdf.
Qed.

(** X6: failures of the file downloads are absorbed by the answer
    extractor. When every download fails (the request raises, or the status
    is an error), the answer is the answer field of the structured object
    when it has one, and the textual fallback otherwise: a linked file
    never makes the extractor raise or return null. *)
Theorem compute_answer_without_downloads
  (lib : Externals) (http_get : string -> result response)
  (pg : page) (parsed_json : value) :
  (forall u, exists e, download_file_bytes http_get u = Raise e) ->
  compute_answer_from_page lib http_get pg parsed_json =
    match field "answer" parsed_json with
    | Some answer => answer
    | None => numeric_fallback lib pg
    end.
Proof.
  intros Hdown.
  assert (Hlinks : pdf_links_then_numeric lib http_get pg = numeric_fallback lib pg).
  { unfold pdf_links_then_numeric.
    destruct (answer_anchors pg) as [anchors | e]; [|reflexivity].
    now rewrite first_pdf_anchor_value_no_download. }
  unfold compute_answer_from_page, field.
  destruct parsed_json as [ | b | z | f | s | l | d]; try exact Hlinks.
  destruct (dict_lookup "answer" d) as [answer | ]; [reflexivity|].
  destruct (dict_lookup "url" d) as [[ | b | z | f | u | l | d'] | ];
    try exact Hlinks.
  destruct (Text.endswith ".pdf" (Text.lower u)); [|exact Hlinks].
  unfold pdf_value. destruct (Hdown u) as [e He]. now rewrite He.
Qed.

Lemma compute_answer_without_downloads_sample :
  (forall u, exists e, download_file_bytes Sample.no_get u = Raise e)
  /\ compute_answer_from_page Sample.lib Sample.no_get Sample.page_17
       (VDict [("url", VStr "https://files.example/table.PDF")]) = VInt 17.
Proof.
  assert (Hdown : forall u, exists e, download_file_bytes Sample.no_get u = Raise e).
  { intros u. now exists RequestException. }
  split; [exact Hdown|].
  exact (compute_answer_without_downloads Sample.lib Sample.no_get Sample.page_17
           (VDict [("url", VStr "https://files.example/table.PDF")]) Hdown).
Defined.

(** ** The PDF handler, continued *)

Lemma nth_error_1_length {A : Type} (l : list A) :
  nth_error l 1 = None <-> (List.length l < 2)%nat.
Proof.
  destruct l as [ | a [ | b l]]; simpl; split; intros H;
    try reflexivity; try lia; try discriminate.
Qed.

(** X7: the result of [sum_values_on_pdf_page2] depends on the second page
    of the document only: two documents that open and have the same second
    page (or both none) give the same result, whatever their other pages
    hold and however many there are. *)
Theorem sum_values_on_pdf_page2_second_page_only
  (lib : Externals) (bytes1 bytes2 : bytes) (column_name : string)
  (pages1 pages2 : list pdf_page) :
  pdf_open lib bytes1 = Ok pages1 ->
  pdf_open lib bytes2 = Ok pages2 ->
  nth_error pages1 1 = nth_error pages2 1 ->
  sum_values_on_pdf_page2 lib bytes1 column_name =
  sum_values_on_pdf_page2 lib bytes2 column_name.
Proof.
  intros H1 H2 Hsame. unfold sum_values_on_pdf_page2. rewrite H1, H2.
  destruct (nth_error pages1 1) as [pg | ] eqn:Hp1.
  - symmetry in Hsame.
    assert (Hl1 : (List.length pages1 <? 2)%nat = false).
    { apply Nat.ltb_ge. destruct (Nat.lt_ge_cases (List.length pages1) 2) as [Hlt | Hge];
        [|exact Hge]. apply nth_error_1_length in Hlt. congruence. }
    assert (Hl2 : (List.length pages2 <? 2)%nat = false).
    { apply Nat.ltb_ge. destruct (Nat.lt_ge_cases (List.length pages2) 2) as [Hlt | Hge];
        [|exact Hge]. apply nth_error_1_length in Hlt. congruence. }
    now rewrite Hl1, Hl2, Hsame.
  - symmetry in Hsame.
    apply nth_error_1_length in Hp1. apply nth_error_1_length in Hsame.
    apply Nat.ltb_lt in Hp1. apply Nat.ltb_lt in Hsame.
    now rewrite Hp1, Hsame.
Qed.

Lemma sum_values_on_pdf_page2_second_page_only_sample :
  pdf_open two_documents_lib [] = Ok [Sample.cover_page; Sample.table_page]
  /\ pdf_open two_documents_lib [Byte.x2d]
     = Ok [text_only_page; Sample.table_page; Sample.cover_page]
  /\ sum_values_on_pdf_page2 two_documents_lib [] "value"
     = sum_values_on_pdf_page2 two_documents_lib [Byte.x2d] "value".
Proof.
  split; [reflexivity|]. split; [reflexivity|].
  exact (sum_values_on_pdf_page2_second_page_only two_documents_lib []
           [Byte.x2d] "value"
           [Sample.cover_page; Sample.table_page]
           [text_only_page; Sample.table_page; Sample.cover_page]
           eq_refl eq_refl eq_refl).
Defined.

Lemma numeric_cells_none (lib : Externals) (idx : nat)
  (rows : list (list (option string))) :
  Forall (fun row =>
            match nth_error row idx with
            | Some (Some v) =>
                float_of_string lib (Text.strip (Text.remove_char ","%char v)) = None
            | _ => True
            end) rows ->
  numeric_cells lib idx rows = [].
Proof.
  induction 1 as [ | row rest Hrow _ IH]; simpl; [reflexivity|].
  destruct (nth_error row idx) as [[v | ] | ]; try exact IH.
  now rewrite Hrow.
Qed.

(** X8: a matching column always gives a number, never null: when the
    second page has a table whose header row names the column, and no cell
    of that column parses as a number (the rows are too short, the cells
    are absent or hold other text, or there is no row at all), the result
    is 0.0. *)
Theorem sum_values_on_pdf_page2_empty_column
  (lib : Externals) (pdf_bytes : bytes) (column_name : string)
  (pages : list pdf_page) (pg : pdf_page)
  (headers : list (option string)) (rows : list (list (option string)))
  (idx : nat) :
  pdf_open lib pdf_bytes = Ok pages ->
  nth_error pages 1 = Some pg ->
  extract_table pg = Ok (Some (headers :: rows)) ->
  index_of (Text.lower column_name) (map header_key headers) = Some idx ->
  Forall (fun row =>
            match nth_error row idx with
            | Some (Some v) =>
                float_of_string lib (Text.strip (Text.remove_char ","%char v)) = None
            | _ => True
            end) rows ->
  sum_values_on_pdf_page2 lib pdf_bytes column_name = Ok (Some 0%float).
Proof.
  intros Hopen Hpg Htable Hidx Hrows.
  unfold sum_values_on_pdf_page2. rewrite Hopen.
  assert (Hlen : (List.length pages <? 2)%nat = false).
  { apply Nat.ltb_ge. destruct (Nat.lt_ge_cases (List.length pages) 2) as [Hlt | Hge];
      [|exact Hge]. apply nth_error_1_length in Hlt. congruence. }
  rewrite Hlen, Hpg, Htable.
  change (fun h : option string =>
            match h with Some h' => Text.lower h' | None => "" end)
    with header_key.
  rewrite Hidx, fold_add_cell, (numeric_cells_none lib idx rows Hrows).
  reflexivity.
Qed.

Lemma sum_values_on_pdf_page2_empty_column_sample :
  pdf_open text_only_lib [] = Ok [Sample.cover_page; text_only_page]
  /\ sum_values_on_pdf_page2 text_only_lib [] "value" = Ok (Some 0%float).
Proof.
  split; [reflexivity|].
  apply (sum_values_on_pdf_page2_empty_column text_only_lib [] "value"
           [Sample.cover_page; text_only_page] text_only_page
           [Some "Item"; Some "Value"]
           [[Some "a"; Some "n/a"]; [Some "b"; None]; [Some "c"]] 1%nat);
    try reflexivity.
  repeat constructor.
Defined.

(** ** The clock and the loop variables in one attempt *)

Lemma on_exception_continue (e : exn) (s : loop_state) :
  is_break (snd (on_exception e s)) = false.
Proof. unfold on_exception; simpl. now destruct (exn_eqb e PWTimeoutError). Qed.

(** The time one pass takes: at least the backoff or the settle delay, at
    most the calls it can make, the settle delay and the backoff. *)
Lemma attempt_clock
  (lib : Externals) (cfg : config) (email secret : string) (deadline : Z)
  (a : attempt_env) (s : loop_state) :
  attempt_durations_nonneg a ->
  let s' := fst (attempt lib cfg email secret deadline a s) in
  now s + Z.min backoff (PAGE_RENDER_WAIT cfg) <= now s'
  /\ now s' <= now s + attempt_time a + Z.max 0 (PAGE_RENDER_WAIT cfg) + backoff.
Proof.
  intros [Hnp [Hsd [Hg [He [Hp [Hf Hc]]]]]]. cbv zeta.
  destruct (attempt_account lib cfg email secret deadline a s)
    as [evs [elapsed [late [brk [closed [pre [Hst [Hre [Hlate Hpass]]]]]]]]].
  destruct Hre as [_ Hnow _ _ _ _ _].
  destruct Hpass as [_ _ _ _ Hnow' _ _ _].
  rewrite Hnow', Hnow. clear Hnow' Hnow.
  unfold attempt_time, backoff.
  destruct Hst; unfold render_time, open_time;
    try (destruct (Hlate eq_refl) as [-> ->]; simpl; lia);
    destruct brk, closed, (close_fails a); simpl; lia.
Qed.

Lemma attempt_counters
  (lib : Externals) (cfg : config) (email secret : string) (deadline : Z)
  (a : attempt_env) (s : loop_state) :
  task_count (fst (attempt lib cfg email secret deadline a s)) = task_count s
  /\ attempt_no (fst (attempt lib cfg email secret deadline a s)) = attempt_no s.
Proof.
  destruct (attempt_account lib cfg email secret deadline a s)
    as [evs [elapsed [late [brk [closed [pre [_ [Hre [_ Hpass]]]]]]]]].
  destruct Hre as [_ _ _ _ _ Hno Htc].
  destruct Hpass as [_ _ _ _ _ _ Hno' Htc'].
  split; congruence.
Qed.

(** ** How the loops end *)

Lemma browser_closes_app (tr evs : list event) :
  browser_closes (tr ++ evs) = (browser_closes tr + browser_closes evs)%nat.
Proof.
  induction tr as [ | ev tr IH]; simpl; [reflexivity|].
  destruct ev; simpl; now rewrite IH.
Qed.

Lemma attempt_browser_closes
  (lib : Externals) (cfg : config) (email secret : string) (deadline : Z)
  (a : attempt_env) (s : loop_state) :
  browser_closes (trace (fst (attempt lib cfg email secret deadline a s)))
  = browser_closes (trace s).
Proof.
  destruct (attempt_effects lib cfg email secret deadline a s)
    as [evs [elapsed [late [closed [Hst Htrace]]]]].
  rewrite Htrace, !browser_closes_app.
  assert (Hevs : browser_closes evs = 0%nat) by (destruct Hst; reflexivity).
  rewrite Hevs. destruct closed; simpl; lia.
Qed.

Lemma step_ending
  (lib : Externals) (cfg : config) (email secret : string) (deadline : Z)
  (w : world) (m : location * loop_state) :
  match fst m with
  | AfterLoops =>
      outer_test deadline (snd m) = false /\ browser_closes (trace (snd m)) = 1%nat
  | _ => browser_closes (trace (snd m)) = 0%nat
  end ->
  match fst (step lib cfg email secret deadline w m) with
  | AfterLoops =>
      outer_test deadline (snd (step lib cfg email secret deadline w m)) = false
      /\ browser_closes (trace (snd (step lib cfg email secret deadline w m))) = 1%nat
  | _ => browser_closes (trace (snd (step lib cfg email secret deadline w m))) = 0%nat
  end.
Proof.
  destruct m as [l s]. simpl. destruct l; intros Hinv.
  - destruct (outer_test deadline s) eqn:Htest; simpl; [exact Hinv|].
    split; [exact Htest|]. rewrite browser_closes_app, Hinv. reflexivity.
  - destruct (inner_test deadline s); [|exact Hinv].
    pose proof (attempt_browser_closes lib cfg email secret deadline
                  (attempt_envs w (attempt_no s)) s) as Hsame.
    destruct (attempt lib cfg email secret deadline _ s) as [s' p].
    simpl in *. destruct (is_break p); simpl; congruence.
  - exact Hinv.
Qed.

(** X9: when [solve_and_submit_loop] has left its loops, the current URL is
    null (or otherwise false) or the clock has reached the deadline: nothing
    else ends the chain, neither a used-up retry budget nor a failure. The
    browser was then closed, once, and it is not closed while the loops
    run. *)
Theorem loops_end_on_null_url_or_deadline
  (lib : Externals) (cfg : config) (w : world)
  (email secret start_url : string) (start_time : Z) (fuel : nat) :
  match solve_and_submit_loop lib cfg w email secret start_url start_time fuel with
  | Finished s =>
      (truthy (current_url s) = false \/ deadline_of cfg start_time <= now s)
      /\ browser_closes (trace s) = 1%nat
  | StillRunning _ s => browser_closes (trace s) = 0%nat
  | Aborted | Crashed => True
  end.
Proof.
  unfold solve_and_submit_loop.
  destruct (is_localhost_url lib start_url); [exact I|].
  destruct (launch_result w); [|exact I].
  pose proof (steps_invariant lib cfg email secret (deadline_of cfg start_time) w
                (fun m => match fst m with
                          | AfterLoops =>
                              outer_test (deadline_of cfg start_time) (snd m) = false
                              /\ browser_closes (trace (snd m)) = 1%nat
                          | _ => browser_closes (trace (snd m)) = 0%nat
                          end)
                (step_ending lib cfg email secret (deadline_of cfg start_time) w)
                fuel (OuterTest, initial_state cfg w start_url start_time) eq_refl)
    as Hinv.
  destruct (steps lib cfg email secret (deadline_of cfg start_time) w fuel _)
    as [l s].
  simpl in Hinv. destruct l; try exact Hinv.
  destruct Hinv as [Htest Hclosed]. split; [|exact Hclosed].
  unfold outer_test in Htest. apply andb_false_iff in Htest as [Hurl | Hnow].
  - now left.
  - right. apply Z.ltb_ge in Hnow. exact Hnow.
Qed.

(** ** The attempts of one task *)

Lemma steps_add
  (lib : Externals) (cfg : config) (email secret : string) (deadline : Z)
  (w : world) (i j : nat) (m : location * loop_state) :
  steps lib cfg email secret deadline w (i + j) m =
  steps lib cfg email secret deadline w j
    (steps lib cfg email secret deadline w i m).
Proof.
  revert m. induction i as [ | i IH]; intros m; simpl; [reflexivity|apply IH].
Qed.

Lemma inner_loop_bounded
  (lib : Externals) (cfg : config) (email secret : string) (deadline : Z)
  (w : world) (n : nat) :
  forall s,
    (Z.to_nat (retries_left s + 1) <= n)%nat ->
    exists k s',
      (k <= n + 1)%nat
      /\ steps lib cfg email secret deadline w k (InnerTest, s) = (OuterTest, s')
      /\ (attempt_no s' <= attempt_no s + n)%nat
      /\ task_count s' = task_count s.
Proof.
  induction n as [ | n IH]; intros s Hn.
  - exists 1%nat, s. simpl.
    assert (Htest : inner_test deadline s = false).
    { unfold inner_test.
      destruct (Z.leb_spec 0 (retries_left s)) as [Hr | Hr]; [lia|].
      now rewrite andb_false_r. }
    rewrite Htest. repeat split; lia.
  - destruct (inner_test deadline s) eqn:Htest.
    + pose proof (attempt_consumes lib cfg email secret deadline
                    (attempt_envs w (attempt_no s)) s) as Hretries.
      destruct (attempt_counters lib cfg email secret deadline
                  (attempt_envs w (attempt_no s)) s) as [Htc Hno].
      destruct (attempt lib cfg email secret deadline
                  (attempt_envs w (attempt_no s)) s) as [s1 p] eqn:Hatt.
      simpl in Hretries, Hno, Htc.
      destruct (is_break p) eqn:Hbreak.
      * exists 1%nat, (next_attempt s1). simpl. rewrite Htest, Hatt, Hbreak.
        split; [lia|]. split; [reflexivity|]. split; [simpl; lia|exact Htc].
      * specialize (Hretries eq_refl).
        destruct (IH (next_attempt s1)) as [k [s' [Hk [Hsteps [Hatts Htask]]]]].
        { simpl. lia. }
        exists (S k), s'. simpl steps. simpl step. rewrite Htest, Hatt, Hbreak.
        simpl in Hatts, Htask.
        split; [lia|]. split; [exact Hsteps|]. split; [lia|congruence].
    + exists 1%nat, s. simpl. rewrite Htest. repeat split; lia.
Qed.

(** X10: a task makes at most PER_QUESTION_RETRIES + 1 attempts. From the
    test of the outer loop that starts a task, the run is back at that test
    after at most PER_QUESTION_RETRIES + 3 loop tests, with one more task
    counted and at most PER_QUESTION_RETRIES + 1 more attempts made (none
    when the configured count is below zero). *)
Theorem task_attempts_bounded
  (lib : Externals) (cfg : config) (email secret : string) (deadline : Z)
  (w : world) (s : loop_state) :
  outer_test deadline s = true ->
  exists k s',
    (k <= Z.to_nat (PER_QUESTION_RETRIES cfg + 1) + 2)%nat
    /\ steps lib cfg email secret deadline w k (OuterTest, s) = (OuterTest, s')
    /\ (attempt_no s' <= attempt_no s + Z.to_nat (PER_QUESTION_RETRIES cfg + 1))%nat
    /\ task_count s' = task_count s + 1.
Proof.
  intros Htest.
  destruct (inner_loop_bounded lib cfg email secret deadline w
              (Z.to_nat (PER_QUESTION_RETRIES cfg + 1))
              (start_task (PER_QUESTION_RETRIES cfg) s))
    as [k [s' [Hk [Hsteps [Hatts Htask]]]]].
  { simpl. lia. }
  exists (S k), s'. simpl steps. simpl step. rewrite Htest.
  simpl in Hatts, Htask.
  split; [lia|]. split; [exact Hsteps|]. split; [lia|exact Htask].
Qed.

Lemma task_attempts_bounded_sample :
  outer_test 170000
    (initial_state default_config Runs.flaky_world "https://quiz.example/q1" 0)
  = true
  /\ exists k s',
       (k <= 5)%nat
       /\ steps Sample.lib default_config "me@example.org" "s3cret" 170000
            Runs.flaky_world k
            (OuterTest,
             initial_state default_config Runs.flaky_world
               "https://quiz.example/q1" 0)
          = (OuterTest, s')
       /\ (attempt_no s' <= 3)%nat.
Proof.
  split; [reflexivity|].
  destruct (task_attempts_bounded Sample.lib default_config "me@example.org"
              "s3cret" 170000 Runs.flaky_world
              (initial_state default_config Runs.flaky_world
                 "https://quiz.example/q1" 0) eq_refl)
    as [k [s' [Hk [Hsteps [Hatts _]]]]].
  exists k, s'. split; [exact Hk|]. split; [exact Hsteps|exact Hatts].
Defined.

(** ** Termination *)

Lemma step_after_loops
  (lib : Externals) (cfg : config) (email secret : string) (deadline : Z)
  (w : world) (n : nat) (s : loop_state) :
  steps lib cfg email secret deadline w n (AfterLoops, s) = (AfterLoops, s).
Proof. induction n as [ | n IH]; simpl; [reflexivity|exact IH]. Qed.

Lemma rank_inner_le (deadline : Z) (s : loop_state) :
  (rank deadline (InnerTest, s) <= 3 * Z.to_nat (deadline - now s) + 3)%nat.
Proof. simpl. destruct (inner_test deadline s); lia. Qed.

Lemma step_rank
  (lib : Externals) (cfg : config) (email secret : string) (deadline : Z)
  (w : world) (m : location * loop_state) :
  0 <= PER_QUESTION_RETRIES cfg ->
  0 < PAGE_RENDER_WAIT cfg ->
  durations_nonneg w ->
  fst m <> AfterLoops ->
  (rank deadline (step lib cfg email secret deadline w m) < rank deadline m)%nat.
Proof.
  intros Hper Hwait [_ Hdur]. destruct m as [l s]. destruct l; intros Hl.
  - simpl step. destruct (outer_test deadline s) eqn:Htest.
    + assert (Hinner : inner_test deadline
                         (start_task (PER_QUESTION_RETRIES cfg) s) = true).
      { unfold outer_test in Htest. apply andb_prop in Htest as [_ Hnow].
        unfold inner_test. simpl. rewrite Hnow.
        destruct (Z.leb_spec 0 (PER_QUESTION_RETRIES cfg)); [reflexivity|lia]. }
      simpl rank. rewrite Hinner. simpl. lia.
    + simpl. lia.
  - simpl step. destruct (inner_test deadline s) eqn:Htest.
    + pose proof (attempt_clock lib cfg email secret deadline
                    (attempt_envs w (attempt_no s)) s (Hdur (attempt_no s)))
        as Hclock.
      cbv zeta in Hclock. destruct Hclock as [Hlo _].
      destruct (attempt lib cfg email secret deadline
                  (attempt_envs w (attempt_no s)) s) as [s' p].
      simpl in Hlo.
      apply inner_test_true in Htest as Hfacts. destruct Hfacts as [Hnow _].
      assert (Hprogress : now s + 1 <= now s').
      { unfold backoff in Hlo. lia. }
      assert (Hk : (Z.to_nat (deadline - now s') < Z.to_nat (deadline - now s))%nat)
        by lia.
      simpl rank at 2. rewrite Htest.
      destruct (is_break p).
      * simpl. lia.
      * pose proof (rank_inner_le deadline (next_attempt s')) as Hle.
        simpl now in Hle. lia.
    + simpl rank. rewrite Htest. lia.
  - now contradiction Hl.
Qed.

Lemma steps_reach_after_loops
  (lib : Externals) (cfg : config) (email secret : string) (deadline : Z)
  (w : world) :
  0 <= PER_QUESTION_RETRIES cfg ->
  0 < PAGE_RENDER_WAIT cfg ->
  durations_nonneg w ->
  forall r m,
    (rank deadline m <= r)%nat ->
    fst (steps lib cfg email secret deadline w r m) = AfterLoops.
Proof.
  intros Hper Hwait Hdur r. induction r as [ | r IH]; intros m Hrank.
  - destruct m as [l s]. destruct l; simpl in *; try lia; [|reflexivity].
    destruct (inner_test deadline s); lia.
  - simpl. destruct m as [l s].
    destruct l.
    + apply IH.
      pose proof (step_rank lib cfg email secret deadline w (OuterTest, s)
                    Hper Hwait Hdur) as Hlt.
      assert (Hne : fst (OuterTest, s) <> AfterLoops) by discriminate.
      specialize (Hlt Hne). lia.
    + apply IH.
      pose proof (step_rank lib cfg email secret deadline w (InnerTest, s)
                    Hper Hwait Hdur) as Hlt.
      assert (Hne : fst (InnerTest, s) <> AfterLoops) by discriminate.
      specialize (Hlt Hne). lia.
    + simpl. now rewrite step_after_loops.
Qed.

(** X11: [solve_and_submit_loop] returns. With a retry count that is not
    negative, a settle delay of at least one millisecond and calls to the
    browser and the network that take no negative time, every run leaves
    both loops: after at most 3 * (milliseconds of the deadline) + 2 loop
    tests the call has ended, by the loopback test, by a browser that did
    not start, or by leaving the loops and closing the browser. *)
Theorem solve_and_submit_loop_returns
  (lib : Externals) (cfg : config) (w : world)
  (email secret start_url : string) (start_time : Z) (fuel : nat) :
  0 <= PER_QUESTION_RETRIES cfg ->
  0 < PAGE_RENDER_WAIT cfg ->
  durations_nonneg w ->
  (3 * Z.to_nat (seconds (SOLVE_DEADLINE_SECONDS cfg)) + 2 <= fuel)%nat ->
  match solve_and_submit_loop lib cfg w email secret start_url start_time fuel with
  | StillRunning _ _ => False
  | _ => True
  end.
Proof.
  intros Hper Hwait Hdur Hfuel. unfold solve_and_submit_loop.
  destruct (is_localhost_url lib start_url); [exact I|].
  destruct (launch_result w); [|exact I].
  set (deadline := deadline_of cfg start_time).
  set (m0 := (OuterTest, initial_state cfg w start_url start_time)).
  set (r := (3 * Z.to_nat (seconds (SOLVE_DEADLINE_SECONDS cfg)) + 2)%nat) in *.
  assert (Hrank : (rank deadline m0 <= r)%nat).
  { subst m0 r deadline. unfold deadline_of. simpl.
    destruct Hdur as [Hlaunch _]. lia. }
  pose proof (steps_reach_after_loops lib cfg email secret deadline w
                Hper Hwait Hdur r m0 Hrank) as Hreach.
  replace fuel with (r + (fuel - r))%nat by lia.
  rewrite steps_add.
  destruct (steps lib cfg email secret deadline w r m0) as [l s].
  simpl in Hreach. subst l. now rewrite step_after_loops.
Qed.

Lemma durations_nonneg_slow_world : durations_nonneg Runs.slow_world.
Proof. split; [simpl; lia|]. intros k. unfold attempt_durations_nonneg. simpl. lia. Defined.

Lemma solve_and_submit_loop_returns_sample :
  0 <= PER_QUESTION_RETRIES short_config
  /\ 0 < PAGE_RENDER_WAIT short_config
  /\ durations_nonneg Runs.slow_world
  /\ match solve_and_submit_loop Sample.lib short_config Runs.slow_world
             "me@example.org" "s3cret" "https://quiz.example/q1" 0 3002 with
     | StillRunning _ _ => False
     | _ => True
     end.
Proof.
  assert (Hper : 0 <= PER_QUESTION_RETRIES short_config) by discriminate.
  assert (Hwait : 0 < PAGE_RENDER_WAIT short_config) by reflexivity.
  split; [exact Hper|]. split; [exact Hwait|].
  split; [exact durations_nonneg_slow_world|].
  apply (solve_and_submit_loop_returns Sample.lib short_config Runs.slow_world
           "me@example.org" "s3cret" "https://quiz.example/q1" 0 3002
           Hper Hwait durations_nonneg_slow_world).
  apply Nat.leb_le. vm_compute. reflexivity.
Defined.

(** ** How far past the deadline the clock can be *)

Lemma step_overshoot
  (lib : Externals) (cfg : config) (email secret : string) (deadline : Z)
  (w : world) (d bound : Z) (m : location * loop_state) :
  durations_nonneg w ->
  durations_within w d ->
  deadline <= bound ->
  now (snd m) < bound + d + Z.max 0 (PAGE_RENDER_WAIT cfg) + backoff ->
  now (snd (step lib cfg email secret deadline w m))
  < bound + d + Z.max 0 (PAGE_RENDER_WAIT cfg) + backoff.
Proof.
  intros [_ Hdur] Hmax Hbound. destruct m as [l s]. simpl. intros Hs. destruct l.
  - destruct (outer_test deadline s); exact Hs.
  - destruct (inner_test deadline s) eqn:Htest; [|exact Hs].
    pose proof (Hmax (attempt_no s)) as Hd.
    pose proof (attempt_clock lib cfg email secret deadline
                  (attempt_envs w (attempt_no s)) s (Hdur (attempt_no s)))
      as Hclock.
    cbv zeta in Hclock. destruct Hclock as [_ Hhi].
    apply inner_test_true in Htest as [Hnow _].
    destruct (attempt lib cfg email secret deadline
                (attempt_envs w (attempt_no s)) s) as [s' p].
    simpl in *. destruct (is_break p); simpl; lia.
  - exact Hs.
Qed.

(** X12: the clock of a run never passes the deadline by as much as one
    attempt can take. When the calls that one attempt makes to the browser
    and the network (opening the page, setting its timeout, the navigation,
    the extraction, the POST or the second read of the body, closing the
    page) take at most [d] milliseconds together, and none of them negative
    time, the clock is, at every loop test of the run and when the loops
    are left, strictly below the deadline plus [d], the settle delay and
    the backoff of half a second; for a browser that was not started by the
    deadline, the time at which it was started takes the place of the
    deadline. *)
Theorem clock_overshoot_bounded
  (lib : Externals) (cfg : config) (w : world)
  (email secret start_url : string) (start_time : Z) (fuel : nat) (d : Z) :
  durations_nonneg w ->
  durations_within w d ->
  match solve_and_submit_loop lib cfg w email secret start_url start_time fuel with
  | Finished s | StillRunning _ s =>
      now s < Z.max (deadline_of cfg start_time) (start_time + launch_duration w)
              + d + Z.max 0 (PAGE_RENDER_WAIT cfg) + backoff
  | Aborted | Crashed => True
  end.
Proof.
  intros Hdur Hmax. unfold solve_and_submit_loop.
  destruct (is_localhost_url lib start_url); [exact I|].
  destruct (launch_result w); [|exact I].
  set (bound := Z.max (deadline_of cfg start_time) (start_time + launch_duration w)).
  assert (Hbound : deadline_of cfg start_time <= bound) by apply Z.le_max_l.
  pose proof (steps_invariant lib cfg email secret (deadline_of cfg start_time) w
                (fun m => now (snd m)
                          < bound + d + Z.max 0 (PAGE_RENDER_WAIT cfg) + backoff)
                (fun m => step_overshoot lib cfg email secret
                            (deadline_of cfg start_time) w d bound m
                            Hdur Hmax Hbound)
                fuel (OuterTest, initial_state cfg w start_url start_time)) as Hinv.
  destruct (steps lib cfg email secret (deadline_of cfg start_time) w fuel _)
    as [l s].
  simpl in Hinv.
  assert (Hs : now s < bound + d + Z.max 0 (PAGE_RENDER_WAIT cfg) + backoff).
  { apply Hinv. unfold backoff.
    destruct Hdur as [_ Hdur]. specialize (Hdur O). specialize (Hmax O).
    destruct Hdur as [Hnp [Hsd [Hg [He [Hp [Hf Hc]]]]]].
    unfold attempt_time in Hmax.
    pose proof (Z.le_max_r (deadline_of cfg start_time)
                  (start_time + launch_duration w)).
    fold bound in H. lia. }
  now destruct l.
Qed.

Lemma durations_within_slow_world : durations_within Runs.slow_world 29200.
Proof. intros k. unfold attempt_time. simpl. lia. Defined.

Lemma clock_overshoot_bounded_sample :
  durations_nonneg Runs.slow_world
  /\ durations_within Runs.slow_world 29200
  /\ match solve_and_submit_loop Sample.lib default_config Runs.slow_world
             "me@example.org" "s3cret" "https://quiz.example/q1" 0 13 with
     | Finished s | StillRunning _ s => now s < 200500
     | Aborted | Crashed => True
     end.
Proof.
  split; [exact durations_nonneg_slow_world|].
  split; [exact durations_within_slow_world|].
  exact (clock_overshoot_bounded Sample.lib default_config Runs.slow_world
           "me@example.org" "s3cret" "https://quiz.example/q1" 0 13
           29200 durations_nonneg_slow_world durations_within_slow_world).
Defined.

(** ** Attempts that do not leave the task *)

(** An attempt whose navigation raises ends in [continue] and keeps the
    current URL. *)
Lemma attempt_goto_raises
  (lib : Externals) (cfg : config) (email secret : string) (deadline : Z)
  (a : attempt_env) (s : loop_state) (e : exn) :
  goto_result a = Raise e ->
  is_break (snd (attempt lib cfg email secret deadline a s)) = false
  /\ current_url (fst (attempt lib cfg email secret deadline a s)) = current_url s.
Proof.
  intros Hgoto.
  destruct (attempt_account lib cfg email secret deadline a s)
    as [evs [elapsed [late [brk [closed [pre [Hst [Hre [Hlate Hpass]]]]]]]]].
  assert (Hearly : late = false).
  { destruct Hst; try reflexivity; congruence. }
  destruct (Hlate Hearly) as [-> ->].
  destruct Hre as [_ _ Hurl _ _ _ _].
  destruct Hpass as [_ _ _ Hurl' _ Hexit _ _].
  simpl in Hexit. destruct Hexit as [Hb _].
  split; [exact Hb|]. rewrite (Hurl' eq_refl). exact Hurl.
Qed.

Lemma navigated_app (tr evs : list event) :
  navigated (tr ++ evs) = (navigated tr ++ navigated evs)%list.
Proof.
  induction tr as [ | ev tr IH]; simpl; [reflexivity|].
  destruct ev; simpl; now rewrite IH.
Qed.

(** Every attempt navigates at most once, to the current URL. *)
Lemma attempt_navigated
  (lib : Externals) (cfg : config) (email secret : string) (deadline : Z)
  (a : attempt_env) (s : loop_state) :
  exists l,
    navigated (trace (fst (attempt lib cfg email secret deadline a s)))
    = (navigated (trace s) ++ l)%list
    /\ Forall (eq (current_url s)) l.
Proof.
  destruct (attempt_effects lib cfg email secret deadline a s)
    as [evs [elapsed [late [closed [Hst Htrace]]]]].
  exists (navigated evs). split.
  - rewrite Htrace, !navigated_app.
    destruct closed; simpl; now rewrite app_nil_r.
  - destruct Hst; simpl; now repeat constructor.
Qed.

Lemma step_site_down
  (lib : Externals) (cfg : config) (email secret : string) (deadline : Z)
  (w : world) (u : value) (m : location * loop_state) :
  (forall k, exists e, goto_result (attempt_envs w k) = Raise e) ->
  current_url (snd m) = u /\ Forall (eq u) (navigated (trace (snd m))) ->
  current_url (snd (step lib cfg email secret deadline w m)) = u
  /\ Forall (eq u) (navigated (trace (snd (step lib cfg email secret deadline w m)))).
Proof.
  intros Hdown. destruct m as [l s]. simpl. intros [Hurl Hnav]. destruct l.
  - destruct (outer_test deadline s); simpl; [now split|].
    split; [exact Hurl|]. rewrite navigated_app. simpl. now rewrite app_nil_r.
  - destruct (inner_test deadline s); [|now split].
    destruct (Hdown (attempt_no s)) as [e He].
    destruct (attempt_goto_raises lib cfg email secret deadline _ s e He)
      as [_ Hkeep].
    destruct (attempt_navigated lib cfg email secret deadline
                (attempt_envs w (attempt_no s)) s) as [nav [Hgo Hall]].
    destruct (attempt lib cfg email secret deadline _ s) as [s' p].
    simpl in *. split; [congruence|].
    rewrite Hgo. apply Forall_app. split; [exact Hnav|].
    now rewrite <- Hurl.
  - now split.
Qed.

(** X13: a used-up retry budget does not end the chain. When no page can
    be rendered (every navigation raises), the solver never changes the
    current URL: every navigation of the run goes to the start URL, task
    after task, and for a start URL that is not empty the loops are left
    only when the clock has reached the deadline. *)
Theorem site_down_runs_to_deadline
  (lib : Externals) (cfg : config) (w : world)
  (email secret start_url : string) (start_time : Z) (fuel : nat) :
  (forall k, exists e, goto_result (attempt_envs w k) = Raise e) ->
  start_url <> "" ->
  match solve_and_submit_loop lib cfg w email secret start_url start_time fuel with
  | Finished s =>
      current_url s = VStr start_url
      /\ Forall (eq (VStr start_url)) (navigated (trace s))
      /\ deadline_of cfg start_time <= now s
  | StillRunning _ s =>
      current_url s = VStr start_url
      /\ Forall (eq (VStr start_url)) (navigated (trace s))
  | Aborted | Crashed => True
  end.
Proof.
  intros Hdown Hstart. unfold solve_and_submit_loop.
  destruct (is_localhost_url lib start_url); [exact I|].
  destruct (launch_result w); [|exact I].
  pose proof (steps_invariant lib cfg email secret (deadline_of cfg start_time) w
                (fun m => current_url (snd m) = VStr start_url
                          /\ Forall (eq (VStr start_url))
                               (navigated (trace (snd m))))
                (fun m => step_site_down lib cfg email secret
                            (deadline_of cfg start_time) w (VStr start_url) m Hdown)
                fuel (OuterTest, initial_state cfg w start_url start_time)) as Hurl.
  pose proof (steps_invariant lib cfg email secret (deadline_of cfg start_time) w
                (fun m => match fst m with
                          | AfterLoops =>
                              outer_test (deadline_of cfg start_time) (snd m) = false
                              /\ browser_closes (trace (snd m)) = 1%nat
                          | _ => browser_closes (trace (snd m)) = 0%nat
                          end)
                (step_ending lib cfg email secret (deadline_of cfg start_time) w)
                fuel (OuterTest, initial_state cfg w start_url start_time) eq_refl)
    as Hend.
  destruct (steps lib cfg email secret (deadline_of cfg start_time) w fuel _)
    as [l s].
  simpl in Hurl, Hend.
  assert (Hs : current_url s = VStr start_url
               /\ Forall (eq (VStr start_url)) (navigated (trace s))).
  { apply Hurl. simpl. split; [reflexivity|constructor]. }
  destruct Hs as [Hcur Hnav].
  destruct l; try (split; assumption).
  split; [exact Hcur|]. split; [exact Hnav|].
  destruct Hend as [Htest _]. unfold outer_test in Htest.
  rewrite Hcur in Htest. simpl in Htest.
  apply String.eqb_neq in Hstart. rewrite Hstart in Htest. simpl in Htest.
  now apply Z.ltb_ge in Htest.
Qed.

Lemma site_down_runs_to_deadline_sample :
  (forall k, exists e, goto_result (attempt_envs site_down_world k) = Raise e)
  /\ match solve_and_submit_loop Sample.lib short_config site_down_world
             "me@example.org" "s3cret" "https://quiz.example/q1" 0 8 with
     | Finished s =>
         current_url s = VStr "https://quiz.example/q1"
         /\ Forall (eq (VStr "https://quiz.example/q1")) (navigated (trace s))
         /\ deadline_of short_config 0 <= now s
     | StillRunning _ s =>
         current_url s = VStr "https://quiz.example/q1"
         /\ Forall (eq (VStr "https://quiz.example/q1")) (navigated (trace s))
     | Aborted | Crashed => True
     end.
Proof.
  assert (Hdown : forall k, exists e,
             goto_result (attempt_envs site_down_world k) = Raise e).
  { intros k. now exists OtherException. }
  split; [exact Hdown|].
  apply (site_down_runs_to_deadline Sample.lib short_config site_down_world
           "me@example.org" "s3cret" "https://quiz.example/q1" 0 8 Hdown).
  discriminate.
Defined.

Example site_down_two_attempts :
  solve_and_submit_loop Sample.lib short_config site_down_world
    "me@example.org" "s3cret" "https://quiz.example/q1" 0 8
  = Finished
      {| now := 1400; current_url := VStr "https://quiz.example/q1";
         task_count := 1; retries_left := 0; answered := false;
         attempt_no := 2;
         trace := [LaunchBrowser;
                   NewPage 0; Goto 0 0 (VStr "https://quiz.example/q1");
                   NewPage 1; Goto 1 700 (VStr "https://quiz.example/q1");
                   CloseBrowser] |}.
Proof. vm_compute. reflexivity. Qed.

(** ** The fallback on a page that does not change *)

Lemma scheme_at_exact (s r : string) (n : nat) :
  Regex.scheme_at false s = Some (n, r) ->
  s = ("http://" ++ r)%string \/ s = ("https://" ++ r)%string.
Proof.
  unfold Regex.scheme_at.
  destruct (Regex.after_prefix false "http" s) as [r0 | ] eqn:H0; [|discriminate].
  destruct (after_prefix_split false _ _ _ H0) as [p0 [-> [_ ->]]].
  destruct (Regex.after_prefix false "s" r0) as [r1 | ] eqn:Hs.
  - destruct (after_prefix_split false _ _ _ Hs) as [ps [-> [_ ->]]].
    destruct (Regex.after_prefix false "://" r1) as [r' | ] eqn:H1.
    + intros [= <- <-].
      destruct (after_prefix_split false _ _ _ H1) as [p1 [-> [_ ->]]].
      now right.
    + simpl. discriminate.
  - destruct (Regex.after_prefix false "://" r0) as [r' | ] eqn:H1; [|discriminate].
    intros [= <- <-].
    destruct (after_prefix_split false _ _ _ H1) as [p1 [-> [_ ->]]].
    now left.
Qed.

Lemma url_at_head (c : ascii) (r : string) :
  Regex.url_char c = true ->
  Regex.url_at ("http://" ++ String c r) <> None
  /\ Regex.url_at ("https://" ++ String c r) <> None.
Proof.
  intros Hc. split.
  - unfold Regex.url_at.
    change (Regex.scheme_at false ("http://" ++ String c r))
      with (Some (7%nat, String c r)).
    simpl. rewrite Hc. discriminate.
  - unfold Regex.url_at.
    change (Regex.scheme_at false ("https://" ++ String c r))
      with (Some (8%nat, String c r)).
    simpl. rewrite Hc. discriminate.
Qed.

(** A URL found in the first characters of a text is found in the text. *)
Lemma url_at_prefix (n : nat) (s : string) :
  Regex.url_at (Text.take n s) <> None -> Regex.url_at s <> None.
Proof.
  unfold Regex.url_at at 1.
  destruct (Regex.scheme_at false (Text.take n s)) as [[k r'] | ] eqn:Hs;
    [|congruence].
  destruct (String.length (Text.take_while Regex.url_char r') =? 0)%nat eqn:Hrun;
    [congruence|].
  intros _.
  assert (Hhead : exists c r'', r' = String c r'' /\ Regex.url_char c = true).
  { destruct r' as [ | c r'']; [discriminate|]. simpl in Hrun.
    destruct (Regex.url_char c) eqn:Hc; [|discriminate]. now exists c, r''. }
  destruct Hhead as [c [r'' [-> Hc]]].
  rewrite (take_drop n s).
  destruct (scheme_at_exact _ _ _ Hs) as [-> | ->].
  - rewrite append_assoc. simpl String.append.
    exact (proj1 (url_at_head c (r'' ++ Text.drop n s) Hc)).
  - rewrite append_assoc. simpl String.append.
    exact (proj2 (url_at_head c (r'' ++ Text.drop n s) Hc)).
Qed.

Lemma search_url_prefix (n : nat) (s : string) :
  Regex.search_url s = None -> Regex.search_url (Text.take n s) = None.
Proof.
  unfold Regex.search_url. revert n.
  induction s as [ | c s IH]; intros n.
  - destruct n; simpl; trivial.
  - simpl Regex.search at 1.
    destruct (Regex.url_at (String c s)) as [k | ] eqn:Hat; [discriminate|].
    intros Hrest. destruct n as [ | n]; [reflexivity|].
    simpl Text.take. simpl Regex.search.
    destruct (Regex.url_at (String c (Text.take n s))) as [k | ] eqn:Hpre.
    + exfalso. apply (url_at_prefix (S n) (String c s)); [|exact Hat].
      simpl Text.take. congruence.
    + now apply IH.
Qed.
(** X14: on a page whose body text is the same at both reads, a missing
    submit target always ends the chain. When [find_submit_url_from_page]
    returns null after reading the body text, the scan of the first 3000
    characters of that same text finds no candidate either, so the attempt
    sets the current URL to null and marks the task answered; the fallback
    can move to another URL only when the text changed between the two
    reads or the first read failed. The pass ends in the [break] of line
    243 when [page.close()] returns; when it raises, the [except] clause
    takes the exception and a retry unit, and the task is left all the
    same, for [answered] is set. *)
Theorem fallback_on_unchanged_text_ends_chain
  (lib : Externals) (cfg : config) (email secret : string) (deadline : Z)
  (a : attempt_env) (s : loop_state) (url : string) (parsed_json : value)
  (body : string) :
  0 <= PAGE_RENDER_WAIT cfg ->
  current_url s = VStr url ->
  new_page_result a = Ok tt ->
  set_default_timeout_result a = Ok tt ->
  goto_result a = Ok tt ->
  extract_json_from_pre lib (loaded_page a) = Ok parsed_json ->
  find_submit_url_from_page lib (loaded_page a) url = Ok None ->
  submit_body (loaded_page a) = Ok body ->
  fallback_body (loaded_page a) = Ok body ->
  Regex.search_url (Text.take 3000 body) = None
  /\ current_url (fst (attempt lib cfg email secret deadline a s)) = VNone
  /\ answered (fst (attempt lib cfg email secret deadline a s)) = true
  /\ match close_result a with
     | Ok _ =>
         snd (attempt lib cfg email secret deadline a s) = FallbackEnd
         /\ retries_left (fst (attempt lib cfg email secret deadline a s))
            = retries_left s
     | Raise e =>
         snd (attempt lib cfg email secret deadline a s)
         = (if exn_eqb e PWTimeoutError then RenderTimeout else PageException)
         /\ retries_left (fst (attempt lib cfg email secret deadline a s))
            = retries_left s - 1
     end.
Proof.
  intros Hwait Hurl Hpage Htimeout Hgoto Hjson Hfind Hsubmit Hfallback.
  assert (Hnone : Regex.search_url body = None).
  { unfold find_submit_url_from_page in Hfind. rewrite Hsubmit in Hfind.
    destruct (submit_anchors (loaded_page a)) as [anchors | e]; [|discriminate].
    destruct (first_submit_href anchors) as [[h | ] | e]; try discriminate.
    - destruct (urljoin lib url h); discriminate.
    - destruct (Regex.search_submit_url body); [discriminate|].
      destruct (Regex.search_url body); [discriminate|reflexivity]. }
  pose proof (search_url_prefix 3000 body Hnone) as Hprefix.
  split; [exact Hprefix|].
  apply Z.ltb_ge in Hwait.
  unfold attempt, render_and_submit. rewrite Hpage, Htimeout.
  cbn [current_url emit tick].
  rewrite Hurl, Hgoto, Hwait, Hjson, Hfind.
  unfold next_url_fallback. rewrite Hfallback, Hprefix.
  unfold leave_task.
  destruct (close_result a) as [[] | e]; simpl; repeat split.
Qed.

Lemma fallback_on_unchanged_text_sample :
  0 <= PAGE_RENDER_WAIT default_config
  /\ find_submit_url_from_page Sample.lib (loaded_page dead_end)
       "https://quiz.example/q1" = Ok None
  /\ snd (attempt Sample.lib default_config "me@example.org" "s3cret" 170000
            dead_end Runs.start) = FallbackEnd
  /\ current_url (fst (attempt Sample.lib default_config "me@example.org"
                         "s3cret" 170000 dead_end Runs.start)) = VNone.
Proof.
  assert (Hwait : 0 <= PAGE_RENDER_WAIT default_config) by discriminate.
  split; [exact Hwait|]. split; [reflexivity|].
  destruct (fallback_on_unchanged_text_ends_chain Sample.lib default_config
              "me@example.org" "s3cret" 170000 dead_end Runs.start
              "https://quiz.example/q1" VNone "The result is 17 items"
              Hwait eq_refl eq_refl eq_refl eq_refl eq_refl eq_refl eq_refl
              eq_refl)
    as [_ [Hurl [_ [Hexit _]]]].
  split; [exact Hexit|exact Hurl].
Defined.

(** ** Replies that say nothing *)

(** X15: a reply of the grader that carries neither [correct] nor [url] is
    handled as an unconfirmed answer without a next URL. This is the case of
    a body that is not JSON (wrapped by the client), of JSON that is not an
    object, and of an object without the two keys. With retries left and
    more than 8 seconds before the deadline the same URL is tried again,
    for one retry unit; otherwise the current URL becomes null, the task is
    marked answered and the chain ends. In both cases [page.close()] is
    called; when it raises, the [except] clause takes one more retry unit
    and the pass ends in [continue]. *)
Theorem reply_without_fields
  (lib : Externals) (cfg : config) (email secret : string) (deadline : Z)
  (a : attempt_env) (s s1 : loop_state) (resp_json : value) :
  render_and_submit lib cfg email secret a s = (s1, inr resp_json) ->
  field "correct" resp_json = None ->
  field "url" resp_json = None ->
  let s' := fst (attempt lib cfg email secret deadline a s) in
  let p := snd (attempt lib cfg email secret deadline a s) in
  trace s' = (trace s1 ++ [ClosePage (attempt_no s)])%list
  /\ if (0 <? retries_left s) && (seconds 8 <? deadline - now s1)
     then current_url s' = current_url s
          /\ answered s' = answered s
          /\ match close_result a with
             | Ok _ => p = UnconfirmedRetry
                       /\ retries_left s' = retries_left s - 1
             | Raise e =>
                 p = (if exn_eqb e PWTimeoutError
                      then RenderTimeout else PageException)
                 /\ retries_left s' = retries_left s - 2
             end
     else current_url s' = VNone
          /\ answered s' = true
          /\ match close_result a with
             | Ok _ => p = UnconfirmedEnd
                       /\ retries_left s' = retries_left s
             | Raise e =>
                 p = (if exn_eqb e PWTimeoutError
                      then RenderTimeout else PageException)
                 /\ retries_left s' = retries_left s - 1
             end.
Proof.
  intros Hsub Hcorrect Hnext s' p.
  destruct (render_and_submit_response lib cfg email secret a s s1 _ Hsub)
    as [Hurl [Hretries [Hanswered _]]].
  subst s' p. unfold attempt. rewrite Hsub.
  assert (Hc : match resp_json with
               | VDict d => dict_get "correct" d
               | _ => VNone
               end = VNone).
  { destruct resp_json; try reflexivity. unfold field in Hcorrect.
    unfold dict_get. now rewrite Hcorrect. }
  assert (Hn : match resp_json with
               | VDict d => dict_get "url" d
               | _ => VNone
               end = VNone).
  { destruct resp_json; try reflexivity. unfold field in Hnext.
    unfold dict_get. now rewrite Hnext. }
  unfold handle_response. rewrite Hc, Hn, Hretries. simpl is_True. simpl truthy.
  cbv iota.
  destruct ((0 <? retries_left s) && (seconds 8 <? deadline - now s1)).
  - unfold retry_same.
    destruct (close_result a) as [[] | e]; simpl;
      repeat split; try congruence; lia.
  - unfold leave_task.
    destruct (close_result a) as [[] | e]; simpl;
      repeat split; try congruence; lia.
Qed.

Lemma reply_without_fields_sample :
  render_and_submit Sample.lib default_config "me@example.org" "s3cret"
    Runs.grader_plain (set_retries_left 0 Runs.start)
  = (fst (render_and_submit Sample.lib default_config "me@example.org" "s3cret"
            Runs.grader_plain (set_retries_left 0 Runs.start)),
     inr (VDict [("non_json_response", VStr "thanks")]))
  /\ snd (attempt Sample.lib default_config "me@example.org" "s3cret" 170000
            Runs.grader_plain (set_retries_left 0 Runs.start)) = UnconfirmedEnd
  /\ current_url (fst (attempt Sample.lib default_config "me@example.org"
                         "s3cret" 170000 Runs.grader_plain
                         (set_retries_left 0 Runs.start))) = VNone.
Proof.
  split; [reflexivity|].
  pose proof (reply_without_fields Sample.lib default_config
                "me@example.org" "s3cret" 170000 Runs.grader_plain
                (set_retries_left 0 Runs.start)
                (fst (render_and_submit Sample.lib default_config
                        "me@example.org" "s3cret" Runs.grader_plain
                        (set_retries_left 0 Runs.start)))
                (VDict [("non_json_response", VStr "thanks")])
                eq_refl eq_refl eq_refl) as H.
  destruct H as [_ [Hurl [_ [Hp _]]]].
  split; [exact Hp|exact Hurl].
Defined.

(** ** The endpoint [/api/quiz-solver] *)

Lemma render_quiz_events
  (SECRET_VALUE : string) (message : exn -> string)
  (lib : Externals) (py_sum : list value -> result value)
  (q : quiz_env) (d : list (string * value)) (quiz_url u : value) :
  In (QGoto u) (snd (render_quiz lib SECRET_VALUE message py_sum q d quiz_url))
  <-> u = quiz_url /\ q_launch q = Ok tt.
Proof.
  unfold render_quiz.
  destruct (q_launch q) as [[] | e].
  - destruct (q_goto q quiz_url) as [[] | e].
    + destruct (quiz_answer lib py_sum q) as [answer | e].
      * destruct (q_close q) as [[] | e]; simpl; split;
          try (intros [H | [H | [H | []]]]; try discriminate;
               injection H as <-; now split);
          intros [-> _]; right; now left.
      * simpl. split.
        -- intros [H | [H | []]]; try discriminate. injection H as <-. now split.
        -- intros [-> _]. right. now left.
    + simpl. split.
      * intros [H | [H | []]]; try discriminate. injection H as <-. now split.
      * intros [-> _]. right. now left.
  - simpl. split.
    + intros [H | []]. discriminate.
    + intros [_ H]. discriminate.
Qed.

Lemma render_quiz_launches
  (SECRET_VALUE : string) (message : exn -> string)
  (lib : Externals) (py_sum : list value -> result value)
  (q : quiz_env) (d : list (string * value)) (quiz_url : value) :
  In QLaunch (snd (render_quiz lib SECRET_VALUE message py_sum q d quiz_url)).
Proof.
  unfold render_quiz.
  destruct (q_launch q) as [[] | e]; [|now left].
  destruct (q_goto q quiz_url) as [[] | e]; [|now left].
  destruct (quiz_answer lib py_sum q) as [answer | e]; [|now left].
  destruct (q_close q) as [[] | e]; now left.
Qed.

Lemma str_eq_value_true (a : string) (v : value) :
  str_eq_value a v = true <-> v = VStr a.
Proof.
  destruct v; simpl; try (split; discriminate).
  rewrite String.eqb_eq. split; [now intros ->|now intros [= ->]].
Qed.

(** The requests that reach the [try] block of the view. *)
Lemma solve_quiz_authenticated
  (SECRET_VALUE : string) (message : exn -> string)
  (lib : Externals) (py_sum : list value -> result value)
  (get_json : result value) (q : quiz_env) :
  (exists d quiz_url,
     get_json = Ok (VDict d)
     /\ dict_lookup "secret" d = Some (VStr SECRET_VALUE)
     /\ dict_lookup "url" d = Some quiz_url
     /\ solve_quiz lib SECRET_VALUE message py_sum get_json q
        = render_quiz lib SECRET_VALUE message py_sum q d quiz_url)
  \/ ((forall d quiz_url,
         get_json = Ok (VDict d) ->
         dict_lookup "secret" d = Some (VStr SECRET_VALUE) ->
         dict_lookup "url" d = Some quiz_url -> False)
      /\ snd (solve_quiz lib SECRET_VALUE message py_sum get_json q) = []).
Proof.
  unfold solve_quiz.
  destruct get_json as [data | e]; [|right; split; [discriminate|reflexivity]].
  destruct data as [ | b | z | f | s | l | d];
    try (right; split; [discriminate|reflexivity]).
  - right. split; [discriminate|].
    simpl. destruct (Text.contains "secret" s); reflexivity.
  - right. split; [discriminate|].
    simpl. destruct (existsb (str_eq_value "secret") l); reflexivity.
  - simpl py_in. simpl py_getitem.
    destruct (dict_lookup "secret" d) as [given | ] eqn:Hsecret.
    + destruct (str_eq_value SECRET_VALUE given) eqn:Heq; simpl.
      * apply str_eq_value_true in Heq. subst given.
        destruct (dict_lookup "url" d) as [quiz_url | ] eqn:Hurl.
        -- left. exists d, quiz_url. repeat split; assumption.
        -- right. split; [|reflexivity].
           intros d' u [= <-] _ Hu. congruence.
      * right. split; [|reflexivity].
        intros d' u [= <-] Hs _. rewrite Hs in Hsecret. injection Hsecret as <-.
        simpl in Heq. now rewrite String.eqb_refl in Heq.
    + right. split; [|reflexivity].
      intros d' u [= <-] Hs _. congruence.
Qed.

(** X16: the endpoint uses the browser only for a request whose body is a
    JSON object that carries the configured secret and a [url]. For every
    other request nothing is launched. For such a request the page the
    browser is sent to is the [url] of the body as it is, whatever it is:
    the view does not examine it, so a loopback URL that
    [solve_and_submit_loop] refuses is navigated to. *)
Theorem solve_quiz_navigates_iff
  (SECRET_VALUE : string) (message : exn -> string)
  (lib : Externals) (py_sum : list value -> result value)
  (get_json : result value) (q : quiz_env) (u : value) :
  (In (QGoto u) (snd (solve_quiz lib SECRET_VALUE message py_sum get_json q))
   <-> exists d,
         get_json = Ok (VDict d)
         /\ dict_lookup "secret" d = Some (VStr SECRET_VALUE)
         /\ dict_lookup "url" d = Some u
         /\ q_launch q = Ok tt)
  /\ (In QLaunch (snd (solve_quiz lib SECRET_VALUE message py_sum get_json q))
      <-> exists d quiz_url,
            get_json = Ok (VDict d)
            /\ dict_lookup "secret" d = Some (VStr SECRET_VALUE)
            /\ dict_lookup "url" d = Some quiz_url).
Proof.
  destruct (solve_quiz_authenticated SECRET_VALUE message lib py_sum get_json q)
    as [[d [quiz_url [Hjson [Hsecret [Hurl Heq]]]]] | [Hnot Hnone]].
  - rewrite Heq. split.
    + rewrite render_quiz_events. split.
      * intros [-> Hlaunch]. now exists d.
      * intros [d' [Hjson' [_ [Hurl' Hlaunch]]]].
        rewrite Hjson in Hjson'. injection Hjson' as <-.
        split; [congruence|exact Hlaunch].
    + split; [intros _; now exists d, quiz_url|].
      intros _. apply render_quiz_launches.
  - rewrite Hnone. split; split; try contradiction.
    + intros [d [Hjson [Hsecret [Hurl _]]]]. exact (Hnot d u Hjson Hsecret Hurl).
    + intros [d [quiz_url [Hjson [Hsecret Hurl]]]].
      exact (Hnot d quiz_url Hjson Hsecret Hurl).
Qed.

(** The endpoint takes a loopback URL that the loop refuses. *)
Example solve_quiz_takes_loopback_url :
  is_localhost_url Sample.lib "http://127.0.0.1:9999/quiz" = true
  /\ snd (solve_quiz Sample.lib "s3cret" no_message sum_ints (Ok good_request)
            table_env)
     = [QLaunch; QGoto (VStr "http://127.0.0.1:9999/quiz"); QClose].
Proof. split; reflexivity. Qed.


(** X18: a body that is valid JSON but not an object is not answered with
    400. When it is null, a number or a boolean, and when it is a list or a
    string that contains secret, the test of the secret raises TypeError
    outside every [try] of the view, and the exception leaves the view; any
    other list or string gives 403 Forbidden. The browser is not used. *)
Theorem solve_quiz_non_object_body
  (SECRET_VALUE : string) (message : exn -> string)
  (lib : Externals) (py_sum : list value -> result value)
  (q : quiz_env) (data : value) :
  (forall d, data <> VDict d) ->
  snd (solve_quiz lib SECRET_VALUE message py_sum (Ok data) q) = []
  /\ fst (solve_quiz lib SECRET_VALUE message py_sum (Ok data) q)
     = match data with
       | VList l =>
           if existsb (str_eq_value "secret") l
           then Unhandled
           else Reply 403 (error_body "Forbidden")
       | VStr s =>
           if Text.contains "secret" s
           then Unhandled
           else Reply 403 (error_body "Forbidden")
       | _ => Unhandled
       end.
Proof.
  intros Hnot. unfold solve_quiz.
  destruct data as [ | b | z | f | s | l | d]; simpl; try (split; reflexivity).
  - destruct (Text.contains "secret" s); split; reflexivity.
  - destruct (existsb (str_eq_value "secret") l); split; reflexivity.
  - now contradiction (Hnot d).
Qed.

Lemma solve_quiz_non_object_body_sample :
  (forall d, VNone <> VDict d)
  /\ solve_quiz Sample.lib "s3cret" no_message sum_ints (Ok VNone) table_env
     = (Unhandled, []).
Proof.
  assert (Hnot : forall d, VNone <> VDict d) by discriminate.
  split; [exact Hnot|].
  destruct (solve_quiz_non_object_body "s3cret" no_message Sample.lib sum_ints
              table_env VNone Hnot) as [Hevents Hreply].
  destruct (solve_quiz Sample.lib "s3cret" no_message sum_ints (Ok VNone) table_env)
    as [r evs].
  simpl in *. now subst.
Defined.

(** X19: which answer the endpoint gives when the page answers every
    query. The numbers of the table win: when a cell [td.value] of a row
    after the first holds a number, the answer is their sum, whatever the
    element [#secret] holds. Without such a number the answer is the
    stripped text of [#secret] when the page has that element, even when
    that text is empty; only without both is the [pre] element read. *)
Theorem quiz_answer_priority
  (lib : Externals) (py_sum : list value -> result value)
  (q : quiz_env) (secret_elem : option string)
  (table_rows : list (result (option (result string)))) (numbers : list value) :
  q_content q = Ok tt ->
  q_secret q = Ok (match secret_elem with Some t => Some (Ok t) | None => None end) ->
  q_rows q = Ok table_rows ->
  collect_numbers lib (tl table_rows) = Ok numbers ->
  (forall total,
     numbers <> [] -> py_sum numbers = Ok total -> total <> VNone ->
     quiz_answer lib py_sum q = Ok total)
  /\ (forall t,
        numbers = [] -> secret_elem = Some t ->
        quiz_answer lib py_sum q = Ok (VStr (Text.strip t)))
  /\ (numbers = [] -> secret_elem = None ->
      quiz_answer lib py_sum q =
      match q_pre q with
      | Raise e => Raise e
      | Ok (Some pre_text) => Ok (pre_answer lib pre_text)
      | Ok None => Ok VNone
      end).
Proof.
  intros Hcontent Hsecret Hrows Hnumbers.
  unfold quiz_answer. rewrite Hcontent, Hsecret, Hrows.
  split; [|split].
  - intros total Hne Hsum Htotal.
    destruct table_rows as [ | header body]; simpl in Hnumbers.
    + injection Hnumbers as <-. now contradiction Hne.
    + rewrite Hnumbers. destruct numbers as [ | n ns]; [now contradiction Hne|].
      rewrite Hsum.
      destruct secret_elem; destruct total; try reflexivity; now contradiction Htotal.
  - intros t -> ->.
    destruct table_rows as [ | header body]; simpl in Hnumbers.
    + reflexivity.
    + now rewrite Hnumbers.
  - intros -> ->.
    destruct table_rows as [ | header body]; simpl in Hnumbers.
    + reflexivity.
    + now rewrite Hnumbers.
Qed.

Lemma quiz_answer_priority_sample :
  collect_numbers Sample.lib (tl [Ok None; Ok (Some (Ok "3")); Ok (Some (Ok " 4 "));
                                  Ok (Some (Ok "n/a"))])
  = Ok [VInt 3; VInt 4]
  /\ quiz_answer Sample.lib sum_ints table_env = Ok (VInt 7).
Proof.
  split; [reflexivity|].
  destruct (quiz_answer_priority Sample.lib sum_ints table_env
              (Some " open sesame ")
              [Ok None; Ok (Some (Ok "3")); Ok (Some (Ok " 4 ")); Ok (Some (Ok "n/a"))]
              [VInt 3; VInt 4] eq_refl eq_refl eq_refl eq_refl) as [Hsum _].
  apply Hsum; [discriminate|reflexivity|discriminate].
Defined.

(** ** What a run posts *)

Lemma well_posted_app (email secret : string) (timeout : Z) (tr evs : list event) :
  well_posted email secret timeout tr ->
  Forall (fun ev =>
            match ev with
            | Post h _ target payload tmo =>
                target <> ""
                /\ tmo = timeout
                /\ exists url t0 answer,
                     In (Goto h t0 (VStr url)) (tr ++ evs)
                     /\ payload = submission_record email secret (VStr url) answer
            | _ => True
            end) evs ->
  well_posted email secret timeout (tr ++ evs).
Proof.
  unfold well_posted. intros Htr Hevs. apply Forall_app. split; [|exact Hevs].
  rewrite Forall_forall in *. intros ev Hin. specialize (Htr ev Hin).
  destruct ev; try exact Htr.
  destruct Htr as [Htarget [Htmo [url [t0 [answer [Hgoto Hpayload]]]]]].
  split; [exact Htarget|]. split; [exact Htmo|].
  exists url, t0, answer. split; [|exact Hpayload].
  apply in_or_app. now left.
Qed.

Lemma step_well_posted
  (lib : Externals) (cfg : config) (email secret : string) (deadline : Z)
  (w : world) (m : location * loop_state) :
  well_posted email secret (SUBMIT_TIMEOUT cfg) (trace (snd m)) ->
  well_posted email secret (SUBMIT_TIMEOUT cfg)
    (trace (snd (step lib cfg email secret deadline w m))).
Proof.
  destruct m as [l s]. simpl. intros Htr. destruct l.
  - destruct (outer_test deadline s); simpl; [exact Htr|].
    apply well_posted_app; [exact Htr|]. constructor; [exact I|constructor].
  - destruct (inner_test deadline s); [|exact Htr].
    destruct (attempt_effects lib cfg email secret deadline
                (attempt_envs w (attempt_no s)) s)
      as [evs [elapsed [late [closed [Hst Htrace]]]]].
    destruct (attempt lib cfg email secret deadline _ s) as [s' p].
    simpl in *. rewrite Htrace.
    apply well_posted_app; [exact Htr|].
    apply Forall_app. split; [|destruct closed; now repeat constructor].
    destruct Hst as [ | | | | | | url parsed_json target _ _ Hurl _ _ Htarget];
      unfold navigation; try (now repeat constructor).
    simpl. constructor; [exact I|]. constructor; [exact I|].
    constructor; [|constructor].
    split; [exact Htarget|]. split; [reflexivity|].
    eexists url, _, _. split; [|reflexivity].
    apply in_or_app. right. rewrite Hurl. right. now left.
  - exact Htr.
Qed.

(** X20: every POST of a run carries the submission record of the page it
    belongs to. In every run, each POST goes to a target that is not empty,
    with the configured SUBMIT_TIMEOUT, and its body is the object with the
    email, the secret, the URL that the same page was sent to, and an
    answer; nothing else is ever posted. *)
Theorem posts_carry_the_submission_record
  (lib : Externals) (cfg : config) (w : world)
  (email secret start_url : string) (start_time : Z) (fuel : nat) :
  well_posted email secret (SUBMIT_TIMEOUT cfg)
    (effects (solve_and_submit_loop lib cfg w email secret start_url
                start_time fuel)).
Proof.
  unfold solve_and_submit_loop.
  destruct (is_localhost_url lib start_url); [constructor|].
  destruct (launch_result w); [|repeat constructor].
  pose proof (steps_invariant lib cfg email secret (deadline_of cfg start_time) w
                (fun m => well_posted email secret (SUBMIT_TIMEOUT cfg)
                            (trace (snd m)))
                (step_well_posted lib cfg email secret (deadline_of cfg start_time) w)
                fuel (OuterTest, initial_state cfg w start_url start_time)) as Hinv.
  destruct (steps lib cfg email secret (deadline_of cfg start_time) w fuel _)
    as [l s].
  simpl in Hinv.
  assert (Hs : well_posted email secret (SUBMIT_TIMEOUT cfg) (trace s)).
  { apply Hinv. repeat constructor. }
  now destruct l.
Qed.

Lemma posts_of_app (h : nat) (tr evs : list event) :
  posts_of h (tr ++ evs) = (posts_of h tr + posts_of h evs)%nat.
Proof.
  induction tr as [ | ev tr IH]; simpl; [reflexivity|].
  destruct ev; simpl; try exact IH.
  destruct (Nat.eqb handle h); simpl; now rewrite IH.
Qed.

(** X21: an attempt posts at most once, and only to the target that
    [find_submit_url_from_page] found on the page it has just rendered;
    that target is not empty. An attempt whose page gives no target, or the
    empty target, posts nothing. *)
Theorem attempt_posts_once_to_found_target
  (lib : Externals) (cfg : config) (email secret : string) (deadline : Z)
  (a : attempt_env) (s : loop_state) :
  (posts_of (attempt_no s)
     (trace (fst (attempt lib cfg email secret deadline a s)))
   <= posts_of (attempt_no s) (trace s) + 1)%nat
  /\ (forall h t target payload timeout,
        In (Post h t target payload timeout)
           (trace (fst (attempt lib cfg email secret deadline a s))) ->
        In (Post h t target payload timeout) (trace s)
        \/ (h = attempt_no s
            /\ exists url,
                 current_url s = VStr url
                 /\ find_submit_url_from_page lib (loaded_page a) url
                    = Ok (Some target)
                 /\ target <> "")).
Proof.
  destruct (attempt_effects lib cfg email secret deadline a s)
    as [evs [elapsed [late [closed [Hst Htrace]]]]].
  rewrite Htrace. split.
  - rewrite !posts_of_app.
    assert (Hclose : posts_of (attempt_no s)
                       (if closed then [ClosePage (attempt_no s)] else []) = 0%nat)
      by now destruct closed.
    rewrite Hclose.
    destruct Hst; unfold navigation; simpl; try lia.
    destruct (Nat.eqb (attempt_no s) (attempt_no s)); lia.
  - intros h t target payload timeout Hin.
    apply in_app_or in Hin as [Hin | Hin]; [now left|].
    apply in_app_or in Hin as [Hin | Hin].
    + destruct Hst as [ | | | | | | url parsed_json target' _ _ Hurl _ Hfind Htarget];
        unfold navigation in Hin; simpl in Hin;
        try (repeat (destruct Hin as [Hin | Hin]; try discriminate);
             contradiction).
      destruct Hin as [Hin | [Hin | [Hin | []]]]; try discriminate.
      injection Hin as <- <- <- <- <-.
      right. split; [reflexivity|]. exists url. repeat split; assumption.
    + destruct closed; simpl in Hin; [|contradiction].
      destruct Hin as [Hin | []]. discriminate.
Qed.

(** ** Where the loopback test is not applied *)

(** An attempt whose page opens navigates to the current URL. *)
Lemma attempt_navigates
  (lib : Externals) (cfg : config) (email secret : string) (deadline : Z)
  (a : attempt_env) (s : loop_state) :
  new_page_result a = Ok tt ->
  set_default_timeout_result a = Ok tt ->
  In (Goto (attempt_no s) (now s + open_time a) (current_url s))
     (trace (fst (attempt lib cfg email secret deadline a s))).
Proof.
  intros Hpage Htimeout.
  destruct (attempt_effects lib cfg email secret deadline a s)
    as [evs [elapsed [late [closed [Hst Htrace]]]]].
  rewrite Htrace. apply in_or_app. right. apply in_or_app. left.
  destruct Hst; try congruence; unfold navigation; simpl; auto.
Qed.

(** X22: the loopback test is applied to the start URL only. When the
    grader confirms an answer and names a next URL, and time is left when
    the attempt is over, the next attempt, once its page is open, navigates
    to that URL as it is; no test of the URL stands between the response and
    the navigation, so a loopback URL that would be refused as a start URL
    is navigated to. The next attempt is made three loop tests after the
    first, and four when [page.close()] raised. *)
Theorem next_url_is_navigated_untested
  (lib : Externals) (cfg : config) (email secret : string) (deadline : Z)
  (w : world) (s s1 : loop_state) (d : list (string * value)) :
  let a := attempt_envs w (attempt_no s) in
  let a' := attempt_envs w (S (attempt_no s)) in
  let s' := fst (attempt lib cfg email secret deadline a s) in
  0 <= PER_QUESTION_RETRIES cfg ->
  inner_test deadline s = true ->
  render_and_submit lib cfg email secret a s = (s1, inr (VDict d)) ->
  dict_get "correct" d = VBool true ->
  truthy (dict_get "url" d) = true ->
  now s' < deadline ->
  new_page_result a' = Ok tt ->
  set_default_timeout_result a' = Ok tt ->
  In (Goto (S (attempt_no s)) (now s' + open_time a') (dict_get "url" d))
     (trace (snd (steps lib cfg email secret deadline w
                    (if close_fails a then 4 else 3) (InnerTest, s)))).
Proof.
  intros a a' s' Hper Htest Hsub Hcorrect Hnext Hnow Hpage Htimeout.
  destruct (render_and_submit_response lib cfg email secret a s s1 _ Hsub)
    as [_ [_ [_ [Hno1 _]]]].
  assert (Hatt : attempt lib cfg email secret deadline a s
                 = leave_task a (attempt_no s) (dict_get "url" d) CorrectAdvance s1).
  { unfold attempt. rewrite Hsub. unfold handle_response.
    now rewrite Hcorrect, Hnext. }
  assert (Hfacts : current_url s' = dict_get "url" d
                   /\ answered s' = true
                   /\ attempt_no s' = attempt_no s
                   /\ is_break (snd (attempt lib cfg email secret deadline a s))
                      = negb (close_fails a)).
  { subst s'. rewrite Hatt. unfold leave_task, close_fails.
    destruct (close_result a) as [[] | e]; simpl; repeat split; try assumption.
    now destruct (exn_eqb e PWTimeoutError). }
  destruct Hfacts as [Hurl [Hans [Hno Hbreak]]].
  set (s2 := next_attempt s').
  assert (H1 : step lib cfg email secret deadline w (InnerTest, s)
               = (if close_fails a then InnerTest else OuterTest, s2)).
  { simpl. rewrite Htest. fold a. subst s2 s'.
    destruct (attempt lib cfg email secret deadline a s) as [s0 p].
    simpl in *. rewrite Hbreak. now destruct (close_fails a). }
  assert (Hleft : step lib cfg email secret deadline w (InnerTest, s2)
                  = (OuterTest, s2)).
  { simpl. unfold inner_test. subst s2. simpl. rewrite Hans.
    now rewrite andb_false_r. }
  set (s3 := start_task (PER_QUESTION_RETRIES cfg) s2).
  assert (H2 : step lib cfg email secret deadline w (OuterTest, s2) = (InnerTest, s3)).
  { simpl. unfold outer_test. subst s2. simpl. rewrite Hurl, Hnext.
    destruct (Z.ltb_spec (now s') deadline); [reflexivity|lia]. }
  assert (Hinner : inner_test deadline s3 = true).
  { unfold inner_test. subst s3 s2. simpl.
    destruct (Z.ltb_spec (now s') deadline); [|lia].
    destruct (Z.leb_spec 0 (PER_QUESTION_RETRIES cfg)); [reflexivity|lia]. }
  assert (Hno3 : attempt_no s3 = S (attempt_no s)).
  { subst s3 s2. simpl. now rewrite Hno. }
  assert (H3 : In (Goto (S (attempt_no s)) (now s' + open_time a')
                     (dict_get "url" d))
                  (trace (snd (step lib cfg email secret deadline w
                                 (InnerTest, s3))))).
  { pose proof (attempt_navigates lib cfg email secret deadline a' s3
                  Hpage Htimeout) as Hnav.
    rewrite Hno3 in Hnav.
    assert (Hnow3 : now s3 = now s') by reflexivity.
    assert (Hurl3 : current_url s3 = dict_get "url" d) by exact Hurl.
    rewrite Hnow3, Hurl3 in Hnav.
    unfold step. rewrite Hinner, Hno3. fold a'.
    destruct (attempt lib cfg email secret deadline a' s3) as [s4 p].
    exact Hnav. }
  destruct (close_fails a); cbn [steps].
  - now rewrite H1, Hleft, H2.
  - now rewrite H1, H2.
Qed.

Lemma next_url_is_navigated_untested_sample :
  is_localhost_url Sample.lib "http://127.0.0.1:8080/admin" = true
  /\ inner_test 170000 Runs.start = true
  /\ In (Goto 1 2000 (VStr "http://127.0.0.1:8080/admin"))
        (trace (snd (steps Sample.lib default_config "me@example.org" "s3cret"
                       170000 inward_world 3 (InnerTest, Runs.start)))).
Proof.
  split; [reflexivity|]. split; [reflexivity|].
  assert (Hper : 0 <= PER_QUESTION_RETRIES default_config) by discriminate.
  assert (Hnow : 2000 < 170000) by reflexivity.
  exact (next_url_is_navigated_untested Sample.lib default_config
           "me@example.org" "s3cret" 170000 inward_world Runs.start
           (fst (render_and_submit Sample.lib default_config "me@example.org"
                   "s3cret" (attempt_envs inward_world 0) Runs.start))
           [("correct", VBool true); ("url", VStr "http://127.0.0.1:8080/admin")]
           Hper eq_refl eq_refl eq_refl eq_refl Hnow eq_refl eq_refl).
Defined.
